(** * OWSLib WPS client ([owslib/wps.py]): the execution engine

    A shallow embedding of [WPSExecution] and of the value classes it
    builds ([Process], [Input], [Output], [WPSException]), together with
    the properties of the request builder, the response parser, the status
    predicates and the output retrieval.

    Conventions.
    - An ElementTree element is a tree of [Element]s; a tag is the string
      ElementTree uses, a namespaced one being [{uri}local].
    - Python's [None] is [None] of an option type.
    - A method of [WPSExecution] is a function from the object and the
      outside world to the object and the world after the call, with the
      value returned or the exception raised: an exception keeps the
      mutations made before it.
    - [print] statements and the [verbose] dumps only write to the console
      and are left out of the state. *)

From Stdlib Require Import String Ascii List ZArith NArith Lia Bool.
From stdpp Require Import base option list strings gmap fin_maps.

Import ListNotations.
#[local] Set Warnings "-register-all".
#[local] Set Default Proof Using "Type".
Local Open Scope string_scope.
Local Open Scope list_scope.

(** ** Exceptions and results *)

Inductive exn : Type :=
| IndexError
| AttributeError
| KeyError
| ValueError
| PyException (msg : string)
| Foreign (name : string).

Inductive result (A : Type) : Type :=
| Ok (a : A)
| Raise (e : exn).
Arguments Ok {A} a.
Arguments Raise {A} e.

#[global] Instance result_ret : MRet result := fun A a => Ok a.
#[global] Instance result_bind : MBind result := fun A B f m =>
  match m with
  | Ok a => f a
  | Raise e => Raise e
  end.

Definition is_Ok {A} (r : result A) : bool :=
  match r with Ok _ => true | Raise _ => false end.

(** Computations on a state [S] that may raise: the state reached is kept
    when an exception leaves the computation. *)
Definition StateErr (S A : Type) : Type := S -> S * result A.

#[global] Instance StateErr_ret {S} : MRet (StateErr S) :=
  fun A a s => (s, Ok a).
#[global] Instance StateErr_bind {S} : MBind (StateErr S) :=
  fun A B f m s =>
    match m s with
    | (s', Ok a) => f a s'
    | (s', Raise e) => (s', Raise e)
    end.

Definition raise {S A} (e : exn) : StateErr S A := fun s => (s, Raise e).
Definition lift {S A} (r : result A) : StateErr S A := fun s => (s, r).
Definition modify {S} (f : S -> S) : StateErr S unit := fun s => (f s, Ok tt).
Definition gets {S A} (f : S -> A) : StateErr S A := fun s => (s, Ok (f s)).

(** ** Python strings and lists *)

(** [s.split(sep)] for a separator of one character. *)
Fixpoint split (sep : ascii) (s : string) : list string :=
  match s with
  | EmptyString => [EmptyString]
  | String c s' =>
      if Ascii.eqb c sep then EmptyString :: split sep s'
      else match split sep s' with
           | h :: t => String c h :: t
           | [] => [String c EmptyString]
           end
  end.

(** [c in s] for a character [c]. *)
Fixpoint contains (c : ascii) (s : string) : bool :=
  match s with
  | EmptyString => false
  | String d s' => Ascii.eqb d c || contains c s'
  end.

(** [l[i]] for [i >= 0]. *)
Definition index {A} (l : list A) (i : nat) : result A :=
  match l !! i with
  | Some x => Ok x
  | None => Raise IndexError
  end.

(** [l[-1]]. *)
Definition index_last {A} (l : list A) : result A :=
  match last l with
  | Some x => Ok x
  | None => Raise IndexError
  end.

(** ['%s' % v] for [v] a string or [None]. *)
Definition pystr (v : option string) : string :=
  match v with
  | Some s => s
  | None => "None"
  end.

(** ** ElementTree *)

Inductive Element : Type :=
| Elem (tag : string) (attrib : gmap string string)
       (text : option string) (children : list Element).

Definition tag (e : Element) : string :=
  match e with Elem t _ _ _ => t end.
Definition attrib (e : Element) : gmap string string :=
  match e with Elem _ a _ _ => a end.
Definition text (e : Element) : option string :=
  match e with Elem _ _ x _ => x end.
Definition children (e : Element) : list Element :=
  match e with Elem _ _ _ c => c end.

(** [e.get(key)] *)
Definition get (e : Element) (key : string) : option string :=
  attrib e !! key.

(** [e.set(key, value)] *)
Definition set (e : Element) (key value : string) : Element :=
  Elem (tag e) (<[key := value]> (attrib e)) (text e) (children e).

(** [e.text = value] *)
Definition set_text (e : Element) (value : string) : Element :=
  Elem (tag e) (attrib e) (Some value) (children e).

(** [e.append(child)] *)
Definition append (e : Element) (child : Element) : Element :=
  Elem (tag e) (attrib e) (text e) (children e ++ [child]).

(** An ElementPath, as the list of its steps: each is a tag, or [*]. *)
Definition ElementPath : Type := list string.

Definition matches (s : string) (e : Element) : bool :=
  String.eqb s "*" || String.eqb (tag e) s.

(** [e.findall(path)]: the elements reached from [e] along [path], in
    document order. *)
Fixpoint findall (path : ElementPath) (e : Element) : list Element :=
  match path with
  | [] => [e]
  | s :: path' =>
      flat_map (findall path') (List.filter (matches s) (children e))
  end.

(** [e.find(path)]: the first of them, or [None]. *)
Definition find (path : ElementPath) (e : Element) : option Element :=
  head (findall path e).

(** [etree.SubElement(parent, tag, attrib)] followed by the assignments to
    the new child: the parent with the finished child appended. *)
Definition SubElement (parent child : Element) : Element :=
  append parent child.

(** ** Module constants *)

Definition WPS_NAMESPACE : string := "http://www.opengis.net/wps/1.0.0".
Definition WPS_SCHEMA_LOCATION : string :=
  "http://schemas.opengis.net/wps/1.0.0/wpsExecute_request.xsd".
Definition WPS_DEFAULT_VERSION : string := "1.0.0".
Definition WFS_NAMESPACE : string := "http://www.opengis.net/wfs".
Definition OGC_NAMESPACE : string := "http://www.opengis.net/ogc".
Definition GML_NAMESPACE : string := "http://www.opengis.net/gml".

(** Modelled from the spec: [util.nspath(path, ns)] is not among the
    sources; it qualifies every step of [path] other than [*] with the
    namespace [ns] (the "namespace + path strings" of the lookups), giving
    the steps [{ns}step]. *)
Definition qualify (ns : string) (name : string) : string :=
  "{" +:+ ns +:+ "}" +:+ name.

Definition nspath (path : string) (ns : string) : ElementPath :=
  map (fun c => if String.eqb c "*" then c else qualify ns c) (split "/" path).

(** A path written without a namespace, such as ['Supported/Format']. *)
Definition plain (path : string) : ElementPath := split "/" path.

(** The path as one string, for the uses of [util.nspath] as a name. *)
Definition path_string (p : ElementPath) : string := String.concat "/" p.

(** Python values produced by the typed value converter. *)
Inductive TypedValue : Type :=
| PyStr (s : string)
| PyInt (z : Z)
| PyFloat (repr : string)
| PyBool (b : bool)
| PyNone.

(** ** Value classes *)

Record ComplexData : Type := mkComplexData {
  cd_mimeType : option string;
  cd_encoding : option string;
  cd_schema : option string
}.

Inductive Default : Type :=
| DefaultLiteral (v : TypedValue)
| DefaultComplex (c : ComplexData).

Record InputOutput : Type := mkInputOutput {
  identifier : option string;
  title : option string;
  abstract : option string;
  allowedValues : list TypedValue;
  supportedValues : list ComplexData;
  defaultValue : option Default;
  dataType : option string
}.

Record Input : Type := mkInput {
  in_io : InputOutput;
  minOccurs : Z;
  maxOccurs : Z
}.

Record Output : Type := mkOutput {
  out_io : InputOutput;
  reference : option string;
  mimeType : option string;
  data : option string
}.

Record WPSException : Type := mkWPSException {
  code : option string;
  locator : option string;
  exc_text : option string
}.

Record Process : Type := mkProcess {
  p_root : Element;
  p_verbose : bool;
  processVersion : option string;
  statusSupported : bool;
  storeSupported : bool;
  p_identifier : option string;
  p_title : option string;
  p_abstract : option string;
  p_dataInputs : list Input;
  p_processOutputs : list Output
}.

Definition set_dataType (io : InputOutput) (v : option string) : InputOutput :=
  mkInputOutput (identifier io) (title io) (abstract io) (allowedValues io)
    (supportedValues io) (defaultValue io) v.
Definition set_allowedValues (io : InputOutput) (v : list TypedValue) : InputOutput :=
  mkInputOutput (identifier io) (title io) (abstract io) v
    (supportedValues io) (defaultValue io) (dataType io).
Definition set_supportedValues (io : InputOutput) (v : list ComplexData) : InputOutput :=
  mkInputOutput (identifier io) (title io) (abstract io) (allowedValues io)
    v (defaultValue io) (dataType io).
Definition set_defaultValue (io : InputOutput) (v : option Default) : InputOutput :=
  mkInputOutput (identifier io) (title io) (abstract io) (allowedValues io)
    (supportedValues io) v (dataType io).

(** [bool(v)] for [v] a string or [None]. *)
Definition truthy (v : option string) : bool :=
  match v with
  | None => false
  | Some s => negb (String.eqb s "")
  end.

(** Attribute access on a value that may be [None]. *)
Definition deref {A} (v : option A) : result A :=
  match v with
  | Some x => Ok x
  | None => Raise AttributeError
  end.

(** [for x in l: acc.append(f(x))]: the elements appended before an
    exception stay appended. *)
Fixpoint append_each {A B} (f : A -> result B) (l : list A) (acc : list B)
  : list B * result unit :=
  match l with
  | [] => (acc, Ok tt)
  | x :: l' =>
      match f x with
      | Ok y => append_each f l' (acc ++ [y])
      | Raise e => (acc, Raise e)
      end
  end.

(** The same loop on a list owned by an object under construction, which an
    exception discards. *)
Definition extend {A B} (f : A -> result B) (l : list A) (acc : list B)
  : result (list B) :=
  match append_each f l acc with
  | (acc', Ok _) => Ok acc'
  | (_, Raise e) => Raise e
  end.

(** ** Parsing of the value classes

    The helpers of [wps_utils], the namespaces of [owslib.ows], the
    transport [util.openURL], the parser [etree.fromstring] and the builtin
    [int] are not among the sources: the development is parametric in
    them. *)

Section Client.

Variable DEFAULT_OWS_NAMESPACE : string.
Variable parseText : option Element -> result (option string).
Variable getTypedValue : option string -> option string -> result TypedValue.
Variable int : string -> result Z.

(** [WPSException.__init__] *)
Definition WPSException_init (root : Element) : WPSException :=
  let code := attrib root !! "exceptionCode" in
  let locator := attrib root !! "locator" in
  let textEl := find (nspath "ExceptionText" DEFAULT_OWS_NAMESPACE) root in
  match textEl with
  | Some el => mkWPSException code locator (text el)
  | None => mkWPSException code locator (Some "")
  end.

(** [InputOutput.__init__] *)
Definition InputOutput_init (element : Element) : result InputOutput :=
  identifier ← parseText (find (nspath "Identifier" DEFAULT_OWS_NAMESPACE) element);
  title ← parseText (find (nspath "Title" DEFAULT_OWS_NAMESPACE) element);
  abstract ← parseText (find (nspath "Abstract" DEFAULT_OWS_NAMESPACE) element);
  mret (mkInputOutput identifier title abstract [] [] None None).

(** [InputOutput._parseLiteralData] *)
Definition _parseLiteralData (self : InputOutput) (element : Element)
    (literalElementName : string) : result InputOutput :=
  match find (plain literalElementName) element with
  | Some literalDataElement =>
      dataTypeElement ←
        deref (find (nspath "DataType" DEFAULT_OWS_NAMESPACE) literalDataElement);
      ref ← deref (get dataTypeElement
                     (path_string (nspath "reference" DEFAULT_OWS_NAMESPACE)));
      dataType ← index (split ":" ref) 1;
      let self := set_dataType self (Some dataType) in
      allowed ← extend (fun value => getTypedValue (Some dataType) (text value))
                  (findall (nspath "AllowedValues/Value" DEFAULT_OWS_NAMESPACE)
                     literalDataElement)
                  (allowedValues self);
      let self := set_allowedValues self allowed in
      match find (plain "DefaultValue") literalDataElement with
      | Some defaultValue =>
          v ← getTypedValue (Some dataType) (text defaultValue);
          mret (set_defaultValue self (Some (DefaultLiteral v)))
      | None => mret self
      end
  | None => mret self
  end.

(** The [ComplexData(...)] built from a [Format] element. *)
Definition ComplexData_of_format (formatElement : Element) : result ComplexData :=
  mimeType ← parseText (find (plain "MimeType") formatElement);
  encoding ← parseText (find (plain "Encoding") formatElement);
  schema ← parseText (find (plain "Schema") formatElement);
  mret (mkComplexData mimeType encoding schema).

(** [InputOutput._parseComplexData] *)
Definition _parseComplexData (self : InputOutput) (element : Element)
    (complexDataElementName : string) : result InputOutput :=
  match find (plain complexDataElementName) element with
  | Some complexDataElement =>
      let self := set_dataType self (Some "ComplexData") in
      supported ← extend ComplexData_of_format
                    (findall (plain "Supported/Format") complexDataElement)
                    (supportedValues self);
      let self := set_supportedValues self supported in
      match find (plain "Default/Format") complexDataElement with
      | Some defaultFormatElement =>
          c ← ComplexData_of_format defaultFormatElement;
          mret (set_defaultValue self (Some (DefaultComplex c)))
      | None => mret self
      end
  | None => mret self
  end.

(** [Input.__init__] *)
Definition Input_init (inputElement : Element) : result Input :=
  self ← InputOutput_init inputElement;
  minOccurs ← match get inputElement "minOccurs" with
              | Some v => int v
              | None => mret (-1)%Z
              end;
  maxOccurs ← match get inputElement "maxOccurs" with
              | Some v => int v
              | None => mret (-1)%Z
              end;
  self ← _parseLiteralData self inputElement "LiteralData";
  self ← _parseComplexData self inputElement "ComplexData";
  mret (mkInput self minOccurs maxOccurs).

(** [Output.__init__] *)
Definition Output_init (outputElement : Element) : result Output :=
  self ← InputOutput_init outputElement;
  let referenceElement := find (nspath "Reference" WPS_NAMESPACE) outputElement in
  let '(reference, mimeType) :=
    match referenceElement with
    | Some el => (get el "href", get el "mimeType")
    | None => (None, None)
    end in
  self ← _parseLiteralData self outputElement "LiteralData";
  self ← _parseComplexData self outputElement "ComplexOutput";
  let dataElement := find (nspath "Data" WPS_NAMESPACE) outputElement in
  match dataElement with
  | Some dataElement =>
      match find (nspath "ComplexData" WPS_NAMESPACE) dataElement with
      | Some complexDataElement =>
          mret (mkOutput (set_dataType self (Some "ComplexData")) reference
                  (get complexDataElement "mimeType") (text complexDataElement))
      | None => mret (mkOutput self reference mimeType None)
      end
  | None => mret (mkOutput self reference mimeType None)
  end.

(** [Process.__init__]; [elem] is [None] when the lookup that produced it
    found nothing. *)
Definition Process_init (elem : option Element) (verbose : bool) : result Process :=
  el ← deref elem;
  let processVersion := get el (path_string (nspath "processVersion" WPS_NAMESPACE)) in
  let statusSupported := truthy (get el "statusSupported") in
  let storeSupported := truthy (get el "storeSupported") in
  identifier ← parseText (find (nspath "Identifier" DEFAULT_OWS_NAMESPACE) el);
  title ← parseText (find (nspath "Title" DEFAULT_OWS_NAMESPACE) el);
  abstract ← parseText (find (nspath "Abstract" DEFAULT_OWS_NAMESPACE) el);
  dataInputs ← extend Input_init (findall (plain "DataInputs/Input") el) [];
  processOutputs ← extend Output_init (findall (plain "ProcessOutputs/Output") el) [];
  mret (mkProcess el verbose processVersion statusSupported storeSupported
          identifier title abstract dataInputs processOutputs).

(** ** The execution object and the outside world *)

Record WPSExecution : Type := mkWPSExecution {
  url : option string;
  version : string;
  username : option string;
  password : option string;
  verbose : bool;
  process : option Process;
  serviceInstance : option string;
  status : option string;
  errors : list WPSException;
  statusLocation : option string;
  dataInputs : list Input;
  processOutputs : list Output
}.

(** [WPSExecution.__init__] *)
Definition WPSExecution_init (version : string) (url username password : option string)
    (verbose : bool) : WPSExecution :=
  mkWPSExecution url version username password verbose None None None [] None [] [].

Definition set_serviceInstance (v : option string) (self : WPSExecution) : WPSExecution :=
  mkWPSExecution (url self) (version self) (username self) (password self)
    (verbose self) (process self) v (status self) (errors self)
    (statusLocation self) (dataInputs self) (processOutputs self).
Definition set_statusLocation (v : option string) (self : WPSExecution) : WPSExecution :=
  mkWPSExecution (url self) (version self) (username self) (password self)
    (verbose self) (process self) (serviceInstance self) (status self) (errors self)
    v (dataInputs self) (processOutputs self).
Definition set_status (v : option string) (self : WPSExecution) : WPSExecution :=
  mkWPSExecution (url self) (version self) (username self) (password self)
    (verbose self) (process self) (serviceInstance self) v (errors self)
    (statusLocation self) (dataInputs self) (processOutputs self).
Definition set_process (v : option Process) (self : WPSExecution) : WPSExecution :=
  mkWPSExecution (url self) (version self) (username self) (password self)
    (verbose self) v (serviceInstance self) (status self) (errors self)
    (statusLocation self) (dataInputs self) (processOutputs self).
Definition set_errors (v : list WPSException) (self : WPSExecution) : WPSExecution :=
  mkWPSExecution (url self) (version self) (username self) (password self)
    (verbose self) (process self) (serviceInstance self) (status self) v
    (statusLocation self) (dataInputs self) (processOutputs self).
Definition set_dataInputs (v : list Input) (self : WPSExecution) : WPSExecution :=
  mkWPSExecution (url self) (version self) (username self) (password self)
    (verbose self) (process self) (serviceInstance self) (status self) (errors self)
    (statusLocation self) v (processOutputs self).
Definition set_processOutputs (v : list Output) (self : WPSExecution) : WPSExecution :=
  mkWPSExecution (url self) (version self) (username self) (password self)
    (verbose self) (process self) (serviceInstance self) (status self) (errors self)
    (statusLocation self) (dataInputs self) v.

(** What a request carries: the parameters of a GET, or the body posted or
    the query string. *)
Inductive payload : Type :=
| Params (d : gmap string string)
| Body (s : string).

Record Request : Type := mkRequest {
  rq_url : option string;
  rq_data : payload;
  rq_method : string;
  rq_username : option string;
  rq_password : option string
}.

(** The world outside the object: the requests sent so far, the files
    written, and the sleeps taken (in seconds). *)
Record World : Type := mkWorld {
  requests : list Request;
  files : gmap string string;
  sleeps : list N
}.

Definition send (rq : Request) (w : World) : World :=
  mkWorld (requests w ++ [rq]) (files w) (sleeps w).
Definition store (path content : string) (w : World) : World :=
  mkWorld (requests w) (<[path := content]> (files w)) (sleeps w).
Definition pause (secs : N) (w : World) : World :=
  mkWorld (requests w) (files w) (sleeps w ++ [secs]).

(** A value given for an input of a request: a [str], or an object whose
    [getXml()] returns an element or raises. *)
Inductive InputValue : Type :=
| Literal (s : string)
| Complex (getXml : result Element).

(** [d[k]] on a dict. *)
Definition getitem `{Countable K} {V} (d : gmap K V) (k : K) : result V :=
  match d !! k with
  | Some v => Ok v
  | None => Raise KeyError
  end.

(** Modelled from the spec: [util.nspath_eval(xpath, namespaces)] is not
    among the sources; it turns each [prefix:name] step of [xpath] into the
    namespace-qualified tag [{uri}name], with [uri] the entry of [prefix]
    in [namespaces]. *)
Definition nspath_eval (xpath : string) (namespaces : gmap (option string) string)
  : result string :=
  out ← mapM (fun chunks =>
                match split ":" chunks with
                | [namespace; element] =>
                    uri ← getitem namespaces (Some namespace);
                    mret (qualify uri element)
                | _ => Raise ValueError
                end) (split "/" xpath);
  mret (String.concat "/" out).

(** ** [WPSExecution]: the request builder *)

Variable XLINK_NAMESPACE : string.
Variable XSI_NAMESPACE : string.

(** The module's table of namespaces. *)
Definition namespaces : gmap (option string) string :=
  list_to_map [
    (None, WPS_NAMESPACE);
    (Some "wps", WPS_NAMESPACE);
    (Some "ows", DEFAULT_OWS_NAMESPACE);
    (Some "xlink", XLINK_NAMESPACE);
    (Some "xsi", XSI_NAMESPACE);
    (Some "wfs", WFS_NAMESPACE);
    (Some "ogc", OGC_NAMESPACE);
    (Some "gml", GML_NAMESPACE)
  ].

(** The body of the loop over [inputs]: the [wps:Input] element of one
    [(key, val)] pair. *)
Definition buildInput (input : string * InputValue) : result Element :=
  let key := input.1 in
  let val := input.2 in
  t ← nspath_eval "wps:Input" namespaces;
  let inputElement := Elem t ∅ None [] in
  t ← nspath_eval "ows:Identifier" namespaces;
  let identifierElement := Elem t ∅ (Some key) [] in
  let inputElement := SubElement inputElement identifierElement in
  match val with
  | Literal val =>
      t ← nspath_eval "wps:Data" namespaces;
      let dataElement := Elem t ∅ None [] in
      t ← nspath_eval "wps:LiteralData" namespaces;
      let literalDataElement := Elem t ∅ (Some val) [] in
      let dataElement := SubElement dataElement literalDataElement in
      mret (SubElement inputElement dataElement)
  | Complex getXml =>
      xml ← getXml;
      mret (append inputElement xml)
  end.

(** The [wps:ResponseForm] block asking for [output] by reference. *)
Definition buildResponseForm (output : string) : result Element :=
  t ← nspath_eval "wps:ResponseForm" namespaces;
  let responseFormElement := Elem t ∅ None [] in
  t ← nspath_eval "wps:ResponseDocument" namespaces;
  let responseDocumentElement :=
    Elem t (list_to_map [("storeExecuteResponse", "true"); ("status", "true")])
      None [] in
  t ← nspath_eval "wps:Output" namespaces;
  let outputElement := Elem t (list_to_map [("asReference", "true")]) None [] in
  t ← nspath_eval "ows:Identifier" namespaces;
  let outputIdentifierElement := Elem t ∅ (Some output) [] in
  let outputElement := SubElement outputElement outputIdentifierElement in
  let responseDocumentElement := SubElement responseDocumentElement outputElement in
  mret (SubElement responseFormElement responseDocumentElement).

(** [WPSExecution.buildRequest]; the method does not touch [self]. Every
    element is finished before it is attached to its parent, which gives
    the tree the source reaches by filling the children in place. *)
Definition buildRequest (identifier : string) (inputs : list (string * InputValue))
    (output : option string) : result Element :=
  t ← nspath_eval "wps:Execute" namespaces;
  let root := Elem t ∅ None [] in
  let root := set root "service" "WPS" in
  let root := set root "version" WPS_DEFAULT_VERSION in
  ows ← getitem namespaces (Some "ows");
  let root := set root "xmlns:ows" ows in
  xlink ← getitem namespaces (Some "xlink");
  let root := set root "xmlns:xlink" xlink in
  k ← nspath_eval "xsi:schemaLocation" namespaces;
  wps ← getitem namespaces (Some "wps");
  let root := set root k (wps +:+ " " +:+ WPS_SCHEMA_LOCATION) in
  t ← nspath_eval "ows:Identifier" namespaces;
  let identifierElement := Elem t ∅ (Some identifier) [] in
  let root := SubElement root identifierElement in
  t ← nspath_eval "wps:DataInputs" namespaces;
  inputElements ← mapM buildInput inputs;
  let dataInputsElement := Elem t ∅ None inputElements in
  let root := SubElement root dataInputsElement in
  match output with
  | Some output =>
      responseFormElement ← buildResponseForm output;
      mret (SubElement root responseFormElement)
  | None => mret root
  end.

(** ** [WPSExecution]: the status predicates *)

(** [WPSExecution.getStatus] *)
Definition getStatus (self : WPSExecution) : option string := status self.

Definition status_is (self : WPSExecution) (s : string) : bool :=
  match status self with
  | Some v => String.eqb v s
  | None => false
  end.

(** [WPSExecution.isComplete] *)
Definition isComplete (self : WPSExecution) : result bool :=
  if status_is self "ProcessSucceeded" || status_is self "ProcessFailed"
     || status_is self "Exception" then Ok true
  else if status_is self "ProcessStarted" then Ok false
  else if status_is self "ProcessAccepted" || status_is self "ProcessPaused"
  then Ok false
  else Raise (PyException
                ("Unknown process execution status: " +:+ pystr (status self))).

(** [WPSExecution.isSucceded] *)
Definition isSucceded (self : WPSExecution) : bool :=
  if status_is self "ProcessSucceeded" then true else false.

(** [WPSExecution.isNotComplete] *)
Definition isNotComplete (self : WPSExecution) : result bool :=
  b ← isComplete self; mret (negb b).

(** ** [WPSExecution]: the response parser *)

(** [for x in l: self.field.append(f(x))] *)
Definition append_to {A B} (f : A -> result B) (l : list A)
    (field : WPSExecution -> list B) (set_field : list B -> WPSExecution -> WPSExecution)
  : StateErr WPSExecution unit :=
  fun self =>
    let '(acc, r) := append_each f l (field self) in
    (set_field acc self, r).

(** [WPSExecution._parseExceptionReport] *)
Definition _parseExceptionReport (root : Element) : StateErr WPSExecution unit :=
  st ← gets status;
  match st with
  | None => modify (set_status (Some "Exception"))
  | Some _ => mret tt
  end;;
  append_to (fun exceptionEl => Ok (WPSException_init exceptionEl))
    (findall (nspath "Exception" DEFAULT_OWS_NAMESPACE) root)
    errors set_errors.

(** [WPSExecution._parseExecuteResponse] *)
Definition _parseExecuteResponse (root : Element) : StateErr WPSExecution unit :=
  modify (set_serviceInstance (get root "serviceInstance"));;
  modify (set_statusLocation (get root "statusLocation"));;
  statusEl ← lift (deref (find (nspath "Status/*" WPS_NAMESPACE) root));
  st ← lift (index (split "}" (tag statusEl)) 1);
  modify (set_status (Some st));;
  verbose ← gets verbose;
  p ← lift (Process_init (find (nspath "Process" WPS_NAMESPACE) root) verbose);
  modify (set_process (Some p));;
  match find (nspath "ExceptionReport" DEFAULT_OWS_NAMESPACE) statusEl with
  | Some exceptionEl => _parseExceptionReport exceptionEl
  | None => mret tt
  end;;
  append_to Input_init
    (findall (nspath "DataInputs/Input" "http://www.opengis.net/wps/1.0.0") root)
    dataInputs set_dataInputs;;
  append_to Output_init
    (findall (nspath "ProcessOutputs/Output" WPS_NAMESPACE) root)
    processOutputs set_processOutputs.

(** [WPSExecution.parseResponse] *)
Definition parseResponse (response : Element) : StateErr WPSExecution unit :=
  rootTag ← lift (index (split "}" (tag response)) 1);
  if String.eqb rootTag "ExecuteResponse" then _parseExecuteResponse response
  else if String.eqb rootTag "ExceptionReport" then _parseExceptionReport response
  else mret tt.

(** ** The readers and the transport *)

Variable build_get_url : option string -> payload -> result string.
Variable fromstring : string -> result Element.

(** [util.openURL]: from the requests sent before and the one sent now,
    the exception raised, or the outcome of reading the stream returned. *)
Variable openURL : list Request -> Request -> result (result string).

(** Whether [open(path, 'wb')] succeeds. *)
Variable writable : string -> bool.

Definition State : Type := WPSExecution * World.

Definition on_self {A} (m : StateErr WPSExecution A) : StateErr State A :=
  fun s => let '(self', r) := m s.1 in ((self', s.2), r).
Definition on_world {A} (m : StateErr World A) : StateErr State A :=
  fun s => let '(w', r) := m s.2 in ((s.1, w'), r).

(** The call [util.openURL(url, data, method, username, password)]. *)
Definition call_openURL (url : option string) (data : payload) (method : string)
    (username password : option string) : StateErr World (result string) :=
  fun w =>
    let rq := mkRequest url data method username password in
    (send rq w, openURL (requests w) rq).

(** [WPSReader._readFromUrl] *)
Definition _readFromUrl (url : option string) (data : payload) (method : string)
    (username password : option string) : StateErr World Element :=
  if String.eqb method "Get" then
    request_url ← lift (build_get_url url data);
    let spliturl := split "?" request_url in
    base ← lift (index spliturl 0);
    query ← lift (index spliturl 1);
    u ← call_openURL (Some base) (Body query) "Get" username password;
    content ← lift u;
    lift (fromstring content)
  else if String.eqb method "Post" then
    u ← call_openURL url data "Post" username password;
    content ← lift u;
    lift (fromstring content)
  else raise (PyException ("Unrecognized HTTP method: " +:+ method)).

(** [WPSReader.readFromString], on a [str]. *)
Definition readFromString (string : string) : result Element := fromstring string.

(** [WPSExecuteReader.readFromUrl] *)
Definition readFromUrl (url : option string) (data : payload) (method : string)
    (username password : option string) : StateErr World Element :=
  _readFromUrl url data method username password.

(** ** [WPSExecution]: submission, polling and output retrieval *)

(** [WPSExecution.submitRequest] *)
Definition submitRequest (request : string) : StateErr State Element :=
  self ← gets fst;
  on_world (readFromUrl (url self) (Body request) "Post" (username self) (password self)).

(** [WPSExecution.checkStatus] *)
Definition checkStatus (url : option string) (response : option string)
    (sleepSecs : N) : StateErr State unit :=
  response ←
    match response with
    | None =>
        match url with
        | Some url => on_self (modify (set_statusLocation (Some url)))
        | None => mret tt
        end;;
        self ← gets fst;
        on_world (readFromUrl (statusLocation self) (Params ∅) "Get"
                    (username self) (password self))
    | Some response => lift (readFromString response)
    end;
  on_self (parseResponse response);;
  self ← gets fst;
  complete ← lift (isComplete self);
  if negb complete then on_world (modify (pause sleepSecs)) else mret tt.

(** The name [getOutput] gives to the file of a reference [url] when the
    caller gave none. *)
Definition query_filepath (query : string) : result string :=
  index (split "=" query) 1.
Definition base_filepath (url : string) : result string :=
  index_last (split "/" url).

(** [out = open(filepath, 'wb'); out.write(u.read()); out.close()] *)
Definition write_file (filepath : string) (u : result string) : StateErr World unit :=
  (if writable filepath then modify (store filepath "")
   else raise (Foreign "IOError"));;
  content ← lift u;
  modify (store filepath content).

(** The body of the loop of [getOutput] for one [output]: the value of the
    variable [filepath] goes in and comes out. *)
Definition getOutput_step (self : WPSExecution) (filepath : option string)
    (output : Output) : StateErr World (option string) :=
  match reference output with
  | Some url =>
      '(u, filepath) ←
        (if contains "?" url then
           let spliturl := split "?" url in
           base ← lift (index spliturl 0);
           query ← lift (index spliturl 1);
           u ← call_openURL (Some base) (Body query) "Get" (username self) (password self);
           filepath ← match filepath with
                      | None => lift (query_filepath query)
                      | Some filepath => mret filepath
                      end;
           mret (u, filepath)
         else
           u ← call_openURL (Some url) (Body "") "Get" (username self) (password self);
           filepath ← match filepath with
                      | None => lift (base_filepath url)
                      | Some filepath => mret filepath
                      end;
           mret (u, filepath));
      write_file filepath u;;
      mret (Some filepath)
  | None => mret filepath
  end.

Fixpoint getOutput_loop (self : WPSExecution) (filepath : option string)
    (outputs : list Output) : StateErr World unit :=
  match outputs with
  | [] => mret tt
  | output :: outputs' =>
      filepath ← getOutput_step self filepath output;
      getOutput_loop self filepath outputs'
  end.

(** [WPSExecution.getOutput] *)
Definition getOutput (filepath : option string) : StateErr State unit :=
  self ← gets fst;
  if isSucceded self then
    on_world (getOutput_loop self filepath (processOutputs self))
  else
    raise (PyException ("Execution not successfully completed: status="
                        +:+ pystr (status self))).

(** ** Notions used in the statements *)

(** The last character of a string decides many comparisons of tags
    qualified with different namespaces. *)
Fixpoint last_char (s : string) : option ascii :=
  match s with
  | EmptyString => None
  | String c EmptyString => Some c
  | String _ s' => last_char s'
  end.

(** The statuses [isComplete] knows. *)
Definition terminal_statuses : list string :=
  ["ProcessSucceeded"; "ProcessFailed"; "Exception"].
Definition running_statuses : list string :=
  ["ProcessAccepted"; "ProcessStarted"; "ProcessPaused"].

Definition unknown_status_error (self : WPSExecution) : exn :=
  PyException ("Unknown process execution status: " +:+ pystr (status self)).

Definition not_complete_error (self : WPSExecution) : exn :=
  PyException ("Execution not successfully completed: status=" +:+ pystr (status self)).

Definition exception_elements (root : Element) : list Element :=
  List.filter (fun c => String.eqb (tag c) (qualify DEFAULT_OWS_NAMESPACE "Exception"))
    (children root).

Definition status_children_absent (root : Element) : Prop :=
  forall s, In s (children root) ->
    tag s = qualify WPS_NAMESPACE "Status" -> children s = [].

Definition input_elements (root : Element) : list Element :=
  findall (nspath "DataInputs/Input" WPS_NAMESPACE) root.

Definition output_elements (root : Element) : list Element :=
  findall (nspath "ProcessOutputs/Output" WPS_NAMESPACE) root.

(** Closes the case of a parse that raised before its loops. *)
Ltac stopped_early :=
  exists [], []; cbn; rewrite !app_nil_r;
  split; [reflexivity | split; [reflexivity | discriminate]].


(** A pair of strings as an input of [buildRequest]. *)
Definition literal (kv : string * string) : string * InputValue :=
  (kv.1, Literal kv.2).

(** The [wps:Input] element of a literal input. *)
Definition literal_input (kv : string * string) : Element :=
  Elem (qualify WPS_NAMESPACE "Input") ∅ None
    [Elem (qualify DEFAULT_OWS_NAMESPACE "Identifier") ∅ (Some kv.1) [];
     Elem (qualify WPS_NAMESPACE "Data") ∅ None
       [Elem (qualify WPS_NAMESPACE "LiteralData") ∅ (Some kv.2) []]].

(** The [wps:ResponseForm] block for the output [output]. *)
Definition response_form (output : string) : Element :=
  Elem (qualify WPS_NAMESPACE "ResponseForm") ∅ None
    [Elem (qualify WPS_NAMESPACE "ResponseDocument")
       (list_to_map [("storeExecuteResponse", "true"); ("status", "true")]) None
       [Elem (qualify WPS_NAMESPACE "Output")
          (list_to_map [("asReference", "true")]) None
          [Elem (qualify DEFAULT_OWS_NAMESPACE "Identifier") ∅ (Some output) []]]].

Definition response_forms (output : option string) : list Element :=
  match output with
  | Some output => [response_form output]
  | None => []
  end.

(** The attributes of the root of a request. *)
Definition root_attrib : gmap string string :=
  <[qualify XSI_NAMESPACE "schemaLocation" :=
      WPS_NAMESPACE +:+ " " +:+ WPS_SCHEMA_LOCATION]>
    (<["xmlns:xlink" := XLINK_NAMESPACE]>
       (<["xmlns:ows" := DEFAULT_OWS_NAMESPACE]>
          (<["version" := WPS_DEFAULT_VERSION]> (<["service" := "WPS"]> ∅)))).

(** The request document with the given [wps:Input] elements. *)
Definition request_document (identifier : string) (inputElements : list Element)
    (output : option string) : Element :=
  Elem (qualify WPS_NAMESPACE "Execute") root_attrib None
    ([Elem (qualify DEFAULT_OWS_NAMESPACE "Identifier") ∅ (Some identifier) [];
      Elem (qualify WPS_NAMESPACE "DataInputs") ∅ None inputElements]
     ++ response_forms output).

(** Reading an Execute request back: the process identifier, and the name
    and literal value of every input, in document order. *)
Definition readRequest (root : Element)
  : option string * list (option string * option string) :=
  (find (nspath "Identifier" DEFAULT_OWS_NAMESPACE) root ≫= text,
   map (fun inputElement =>
          (find (nspath "Identifier" DEFAULT_OWS_NAMESPACE) inputElement ≫= text,
           find (nspath "Data/LiteralData" WPS_NAMESPACE) inputElement ≫= text))
     (findall (nspath "DataInputs/Input" WPS_NAMESPACE) root)).


(** The requests a poll of [location] sends: the GET of the URL built from
    it, when that URL has a query string. *)
Definition status_requests (self : WPSExecution) (location : option string)
  : list Request :=
  match build_get_url location (Params ∅) with
  | Ok request_url =>
      match split "?" request_url with
      | base :: query :: _ =>
          [mkRequest (Some base) (Body query) "Get" (username self) (password self)]
      | _ => []
      end
  | Raise _ => []
  end.

(** The part of [checkStatus] that follows the reading of the response. *)
Definition checkStatus_parse (sleepSecs : N) (response : Element)
  : StateErr State unit :=
  on_self (parseResponse response);;
  self ← gets fst;
  complete ← lift (isComplete self);
  if negb complete then on_world (modify (pause sleepSecs)) else mret tt.

(** The location polled by [checkStatus(url)]. *)
Definition polled_location (self : WPSExecution) (url : option string)
  : option string :=
  match url with
  | Some url => Some url
  | None => statusLocation self
  end.

(** The reference URLs of a list of outputs, in order. *)
Definition references (outputs : list Output) : list string :=
  omap reference outputs.

(** The request [getOutput] sends for a reference URL. *)
Definition reference_request (self : WPSExecution) (url : string) : Request :=
  if contains "?" url then
    match split "?" url with
    | base :: query :: _ =>
        mkRequest (Some base) (Body query) "Get" (username self) (password self)
    | _ => mkRequest (Some url) (Body "") "Get" (username self) (password self)
    end
  else mkRequest (Some url) (Body "") "Get" (username self) (password self).

(** The file name [getOutput] derives from a reference URL. *)
Definition derived_filepath (url : string) : result string :=
  if contains "?" url then
    query ← index (split "?" url) 1;
    query_filepath query
  else base_filepath url.

(** The file name in use for an output at [url] when the variable
    [filepath] has the given value. *)
Definition target (filepath : option string) (url : string) : result string :=
  match filepath with
  | Some filepath => Ok filepath
  | None => derived_filepath url
  end.

(** ** A sample service, for the examples

    Stand-ins for the collaborators, and the documents of a small job. *)

Definition OWS_1_1 : string := "http://www.opengis.net/ows/1.1".
Definition XLINK : string := "http://www.w3.org/1999/xlink".
Definition XSI : string := "http://www.w3.org/2001/XMLSchema-instance".

(** The text of an element, or [None]. *)
Definition sample_parseText (element : option Element) : result (option string) :=
  Ok (element ≫= text).

(** Every value kept as its text. *)
Definition sample_getTypedValue (dataType value : option string) : result TypedValue :=
  Ok (match value with
      | Some s => PyStr s
      | None => PyNone
      end).

(** Decimal numerals without a sign. *)
Fixpoint digits (s : string) (acc : N) : option N :=
  match s with
  | EmptyString => Some acc
  | String c s' =>
      let n := N_of_ascii c in
      if ((48 <=? n) && (n <=? 57))%N then digits s' (acc * 10 + (n - 48))%N
      else None
  end.

Definition sample_int (s : string) : result Z :=
  match s with
  | EmptyString => Raise ValueError
  | _ => match digits s 0%N with
         | Some n => Ok (Z.of_N n)
         | None => Raise ValueError
         end
  end.

(** A GET URL is the location itself. *)
Definition sample_build_get_url (url : option string) (data : payload) : result string :=
  match url with
  | Some url => Ok url
  | None => Raise AttributeError
  end.

(** A server that answers every request with the URL asked for. *)
Definition sample_openURL (history : list Request) (rq : Request)
  : result (result string) :=
  Ok (Ok ("content of " +:+ pystr (rq_url rq))).

Definition sample_writable (path : string) : bool := negb (String.eqb path "").

Definition sample_process : Element :=
  Elem (qualify WPS_NAMESPACE "Process")
    {[ qualify WPS_NAMESPACE "processVersion" := "1.0.0" ]} None
    [Elem (qualify OWS_1_1 "Identifier") ∅ (Some "EchoProcess") []].

Definition sample_output_element (name href : string) : Element :=
  Elem (qualify WPS_NAMESPACE "Output") ∅ None
    [Elem (qualify OWS_1_1 "Identifier") ∅ (Some name) [];
     Elem (qualify WPS_NAMESPACE "Reference")
       (list_to_map [("href", href); ("mimeType", "text/csv")]) None []].

(** An ExecuteResponse with the given children of [Status] and the given
    outputs. *)
Definition sample_response (statuses outputs : list Element) : Element :=
  Elem (qualify WPS_NAMESPACE "ExecuteResponse")
    {[ "statusLocation" := "http://wps.example/status?id=42" ]} None
    [sample_process;
     Elem (qualify WPS_NAMESPACE "Status") ∅ None statuses;
     Elem (qualify WPS_NAMESPACE "ProcessOutputs") ∅ None outputs].

Definition sample_succeeded : list Element :=
  [Elem (qualify WPS_NAMESPACE "ProcessSucceeded") ∅ None []].

Definition url_a : string := "http://wps.example/result?id=first.csv".
Definition url_b : string := "http://wps.example/files/second.csv".

Definition sample_output (name href : string) : Output :=
  mkOutput (mkInputOutput (Some name) None None [] [] None None)
    (Some href) (Some "text/csv") None.

(** A new execution, and one that succeeded with two referenced outputs. *)
Definition sample_execution : WPSExecution :=
  WPSExecution_init WPS_DEFAULT_VERSION (Some "http://wps.example/wps") None None false.

Definition sample_finished : WPSExecution :=
  set_processOutputs [sample_output "a" url_a; sample_output "b" url_b]
    (set_status (Some "ProcessSucceeded") sample_execution).

Definition sample_world : World := mkWorld [] ∅ [].

(** A parser that knows two documents by name. *)
Definition sample_fromstring (s : string) : result Element :=
  if String.eqb s "started" then
    Ok (sample_response [Elem (qualify WPS_NAMESPACE "ProcessStarted") ∅ None []] [])
  else if String.eqb s "content of http://wps.example/status" then
    Ok (sample_response sample_succeeded [sample_output_element "a" url_a])
  else Raise (Foreign "XMLSyntaxError").

(** ** The rest of the module: feature collections *)

Definition GML_SCHEMA_LOCATION : string :=
  "http://schemas.opengis.net/gml/3.1.1/base/feature.xsd".
Definition DRAW_NAMESPACE : string := "gov.usgs.cida.gdp.draw".
Definition DRAW_SCHEMA_LOCATION : string :=
  "http://cida.usgs.gov/qa/climate/derivative/xsd/draw.xsd".

(** [FeatureCollection.getXml] *)
Definition FeatureCollection_getXml : result Element :=
  Raise (Foreign "NotImplementedError").

Record WFSQuery : Type := mkWFSQuery {
  typeName : string;
  propertyNames : list string;
  filters : list string
}.

(** [WFSQuery.getXml] *)
Definition WFSQuery_getXml (self : WFSQuery) : result Element :=
  t ← nspath_eval "wfs:Query" namespaces;
  let queryElement := Elem t (list_to_map [("typeName", typeName self)]) None [] in
  propertyNameElements ←
    mapM (fun propertyName =>
            t ← nspath_eval "wfs:PropertyName" namespaces;
            mret (Elem t ∅ (Some propertyName) []))
      (propertyNames self);
  let queryElement :=
    Elem (tag queryElement) (attrib queryElement) (text queryElement)
      (children queryElement ++ propertyNameElements) in
  if (0 <? length (filters self))%nat then
    t ← nspath_eval "ogc:Filter" namespaces;
    gmlObjectIdElements ←
      mapM (fun filter =>
              t ← nspath_eval "ogc:GmlObjectId" namespaces;
              k ← nspath_eval "gml:id" namespaces;
              mret (Elem t (list_to_map [(k, filter)]) None []))
        (filters self);
    let filterElement := Elem t ∅ None gmlObjectIdElements in
    mret (SubElement queryElement filterElement)
  else mret queryElement.

Record WFSFeatureCollection : Type := mkWFSFeatureCollection {
  wfs_url : string;
  wfs_query : WFSQuery
}.

(** [WFSFeatureCollection.getXml] *)
Definition WFSFeatureCollection_getXml (self : WFSFeatureCollection) : result Element :=
  t ← nspath_eval "wps:Reference" namespaces;
  let root := Elem t (list_to_map [("xlink:href", wfs_url self)]) None [] in
  t ← nspath_eval "wps:Body" namespaces;
  let bodyElement := Elem t ∅ None [] in
  t ← nspath_eval "wfs:GetFeature" namespaces;
  ogc ← getitem namespaces (Some "ogc");
  gml ← getitem namespaces (Some "gml");
  xsi ← getitem namespaces (Some "xsi");
  wfs ← getitem namespaces (Some "wfs");
  let getFeatureElement :=
    Elem t (list_to_map [("service", "WFS");
                         ("version", "1.1.0");
                         ("xmlns:ogc", ogc);
                         ("xmlns:gml", gml);
                         ("xmlns:xsi", xsi);
                         ("outputFormat", "text/xml; subtype=gml/3.1.1");
                         ("xsi:schemaLocation", wfs +:+ " " +:+ "../wfs/1.1.0/WFS.xsd")])
      None [] in
  query ← WFSQuery_getXml (wfs_query self);
  let getFeatureElement := append getFeatureElement query in
  let bodyElement := SubElement bodyElement getFeatureElement in
  mret (SubElement root bodyElement).

(** The coordinates of a polygon are numbers; ['%s' % x] is their text. *)
Variable Coordinate : Type.
Variable str : Coordinate -> string.
Variable OWS_NAMESPACE_1_0_0 : string.

(** [GMLMultiPolygonFeatureCollection.getXml], on the list [polygons] of
    the object. *)
Definition GMLMultiPolygonFeatureCollection_getXml
    (polygons : list (list (Coordinate * Coordinate))) : result Element :=
  t ← nspath_eval "wps:Data" namespaces;
  let dataElement := Elem t ∅ None [] in
  t ← nspath_eval "wps:ComplexData" namespaces;
  let complexDataElement :=
    Elem t (list_to_map [("mimeType", "text/xml"); ("encoding", "UTF-8");
                         ("schema", GML_SCHEMA_LOCATION)]) None [] in
  t ← nspath_eval "gml:featureMembers" namespaces;
  let featureMembersElement :=
    Elem t (list_to_map [("xmlns:ogc", OGC_NAMESPACE);
                         ("xmlns:draw", DRAW_NAMESPACE);
                         ("xmlns:ows", OWS_NAMESPACE_1_0_0);
                         ("xmlns:xlink", XLINK_NAMESPACE);
                         ("xsi:schemaLocation",
                          DRAW_NAMESPACE +:+ " " +:+ DRAW_SCHEMA_LOCATION)])
      None [] in
  t ← nspath_eval "gml:box" namespaces;
  let boxElement := Elem t (list_to_map [("gml:id", "box.1")]) None [] in
  t ← nspath_eval "gml:the_geom" namespaces;
  let geomElement := Elem t ∅ None [] in
  t ← nspath_eval "gml:MultiPolygon" namespaces;
  let multiPolygonElement :=
    Elem t (list_to_map [("srsDimension", "2");
                         ("srsName", "http://www.opengis.net/gml/srs/epsg.xml#4326")])
      None [] in
  polygonMemberElements ←
    mapM (fun polygon =>
            t ← nspath_eval "gml:polygonMember" namespaces;
            let polygonMemberElement := Elem t ∅ None [] in
            t ← nspath_eval "gml:Polygon" namespaces;
            let polygonElement := Elem t ∅ None [] in
            t ← nspath_eval "gml:exterior" namespaces;
            let exteriorElement := Elem t ∅ None [] in
            t ← nspath_eval "gml:LinearRing" namespaces;
            let linearRingElement := Elem t ∅ None [] in
            t ← nspath_eval "gml:posList" namespaces;
            let posListElement :=
              Elem t ∅
                (Some (String.concat " "
                         (map (fun xy : Coordinate * Coordinate =>
                                 str xy.1 +:+ " " +:+ str xy.2) polygon)))
                [] in
            let linearRingElement := SubElement linearRingElement posListElement in
            let exteriorElement := SubElement exteriorElement linearRingElement in
            let polygonElement := SubElement polygonElement exteriorElement in
            mret (SubElement polygonMemberElement polygonElement))
      polygons;
  let multiPolygonElement :=
    Elem (tag multiPolygonElement) (attrib multiPolygonElement)
      (text multiPolygonElement) (children multiPolygonElement ++ polygonMemberElements) in
  let geomElement := SubElement geomElement multiPolygonElement in
  let boxElement := SubElement boxElement geomElement in
  t ← nspath_eval "gml:ID" namespaces;
  let idElement := Elem t ∅ (Some "0") [] in
  let boxElement := SubElement boxElement idElement in
  let featureMembersElement := SubElement featureMembersElement boxElement in
  let complexDataElement := SubElement complexDataElement featureMembersElement in
  mret (SubElement dataElement complexDataElement).

(** ** The rest of the module: the service object *)

(** The metadata classes of [owslib.ows] and [etree.tostring] are not
    among the sources. *)
Variable OwsMetadata : Type.
Variable ServiceIdentification : option Element -> result OwsMetadata.
Variable ServiceProvider : option Element -> result OwsMetadata.
Variable OperationsMetadata : Element -> result OwsMetadata.
Variable tostring : Element -> result string.

Record WebProcessingService : Type := mkWebProcessingService {
  wps_url : string;
  wps_username : option string;
  wps_password : option string;
  wps_version : string;
  wps_verbose : bool;
  _capabilities : option Element;
  identification : option OwsMetadata;
  provider : option OwsMetadata;
  operations : list OwsMetadata;
  processes : list Process
}.

(** [WebProcessingService.__init__] *)
Definition WebProcessingService_init (url version : string)
    (username password : option string) (verbose : bool) : WebProcessingService :=
  mkWebProcessingService url username password version verbose None None None [] [].

Definition set_capabilities (v : option Element) (self : WebProcessingService)
  : WebProcessingService :=
  mkWebProcessingService (wps_url self) (wps_username self) (wps_password self)
    (wps_version self) (wps_verbose self) v (identification self) (provider self)
    (operations self) (processes self).
Definition set_identification (v : option OwsMetadata) (self : WebProcessingService)
  : WebProcessingService :=
  mkWebProcessingService (wps_url self) (wps_username self) (wps_password self)
    (wps_version self) (wps_verbose self) (_capabilities self) v (provider self)
    (operations self) (processes self).
Definition set_provider (v : option OwsMetadata) (self : WebProcessingService)
  : WebProcessingService :=
  mkWebProcessingService (wps_url self) (wps_username self) (wps_password self)
    (wps_version self) (wps_verbose self) (_capabilities self) (identification self) v
    (operations self) (processes self).
Definition set_operations (v : list OwsMetadata) (self : WebProcessingService)
  : WebProcessingService :=
  mkWebProcessingService (wps_url self) (wps_username self) (wps_password self)
    (wps_version self) (wps_verbose self) (_capabilities self) (identification self)
    (provider self) v (processes self).
Definition set_processes (v : list Process) (self : WebProcessingService)
  : WebProcessingService :=
  mkWebProcessingService (wps_url self) (wps_username self) (wps_password self)
    (wps_version self) (wps_verbose self) (_capabilities self) (identification self)
    (provider self) (operations self) v.

(** A computation on one half of a pair of states. *)
Definition on_fst {S T A} (m : StateErr S A) : StateErr (S * T) A :=
  fun s => let '(s', r) := m s.1 in ((s', s.2), r).
Definition on_snd {S T A} (m : StateErr T A) : StateErr (S * T) A :=
  fun s => let '(t', r) := m s.2 in ((s.1, t'), r).

(** [for x in l: self.field.append(f(x))], on any object. *)
Definition append_field {S A B} (f : A -> result B) (l : list A)
    (field : S -> list B) (set_field : list B -> S -> S) : StateErr S unit :=
  fun self =>
    let '(acc, r) := append_each f l (field self) in
    (set_field acc self, r).

(** [for x in e], for [e] an element or [None]: the children, or a
    TypeError. *)
Definition iterate (e : option Element) : result (list Element) :=
  match e with
  | Some e => Ok (children e)
  | None => Raise (Foreign "TypeError")
  end.

(** [WPSCapabilitiesReader.readFromUrl] *)
Definition WPSCapabilitiesReader_readFromUrl (version : string) (url : string)
    (username password : option string) : StateErr World Element :=
  _readFromUrl (Some url)
    (Params (list_to_map [("service", "WPS"); ("request", "GetCapabilities");
                          ("version", version)]))
    "Get" username password.

(** [WPSDescribeProcessReader.readFromUrl] *)
Definition WPSDescribeProcessReader_readFromUrl (version : string) (url : string)
    (identifier : string) (username password : option string)
  : StateErr World Element :=
  _readFromUrl (Some url)
    (Params (list_to_map [("service", "WPS"); ("request", "DescribeProcess");
                          ("version", version); ("identifier", identifier)]))
    "Get" username password.

(** [WebProcessingService._parseCapabilitiesMetadata] *)
Definition _parseCapabilitiesMetadata (root : Element)
  : StateErr WebProcessingService unit :=
  let serviceIdentificationElement :=
    find (nspath "ServiceIdentification" DEFAULT_OWS_NAMESPACE) root in
  i ← lift (ServiceIdentification serviceIdentificationElement);
  modify (set_identification (Some i));;
  let serviceProviderElement :=
    find (nspath "ServiceProvider" DEFAULT_OWS_NAMESPACE) root in
  p ← lift (ServiceProvider serviceProviderElement);
  modify (set_provider (Some p));;
  operationElements ←
    lift (iterate (find (nspath "OperationsMetadata" DEFAULT_OWS_NAMESPACE) root));
  append_field OperationsMetadata operationElements operations set_operations;;
  processElements ←
    lift (iterate (find (nspath "ProcessOfferings" WPS_NAMESPACE) root));
  verbose ← gets wps_verbose;
  append_field (fun processElement => Process_init (Some processElement) verbose)
    processElements processes set_processes.

(** [WebProcessingService.getcapabilities] *)
Definition getcapabilities (xml : option string)
  : StateErr (WebProcessingService * World) unit :=
  self ← gets fst;
  capabilities ←
    match xml with
    | Some xml' =>
        if truthy xml then lift (readFromString xml')
        else on_snd (WPSCapabilitiesReader_readFromUrl (wps_version self)
                       (wps_url self) (wps_username self) (wps_password self))
    | None =>
        on_snd (WPSCapabilitiesReader_readFromUrl (wps_version self)
                  (wps_url self) (wps_username self) (wps_password self))
    end;
  on_fst (modify (set_capabilities (Some capabilities)));;
  on_fst (_parseCapabilitiesMetadata capabilities).

(** The loop of [_parseProcessMetadata] over [enumerate(self.processes)],
    from index [n] on: the list and the flag [found] go in and come
    out. *)
Fixpoint override_from (process : Process) (n : nat) (rest : list Process)
    (processes : list Process) (found : bool) : list Process * bool :=
  match rest with
  | [] => (processes, found)
  | p :: rest' =>
      if bool_decide (p_identifier p = p_identifier process)
      then override_from process (S n) rest' (<[n := process]> processes) true
      else override_from process (S n) rest' processes found
  end.

(** [WebProcessingService._parseProcessMetadata] *)
Definition _parseProcessMetadata (rootElement : Element)
  : StateErr WebProcessingService Process :=
  let processDescriptionElement := find (plain "ProcessDescription") rootElement in
  verbose ← gets wps_verbose;
  process ← lift (Process_init processDescriptionElement verbose);
  processes ← gets processes;
  let '(processes, found) := override_from process 0 processes processes false in
  modify (set_processes processes);;
  (if negb found then modify (set_processes (processes ++ [process])) else mret tt);;
  mret process.

(** [WebProcessingService.describeprocess] *)
Definition describeprocess (identifier : string) (xml : option string)
  : StateErr (WebProcessingService * World) Process :=
  self ← gets fst;
  process ←
    match xml with
    | Some xml' =>
        if truthy xml then lift (readFromString xml')
        else on_snd (WPSDescribeProcessReader_readFromUrl (wps_version self)
                       (wps_url self) identifier None None)
    | None =>
        on_snd (WPSDescribeProcessReader_readFromUrl (wps_version self)
                  (wps_url self) identifier None None)
    end;
  on_fst (_parseProcessMetadata process).

(** The steps of [WebProcessingService.execute] on the execution it
    created. *)
Definition execute_steps (identifier : string) (inputs : list (string * InputValue))
    (output request response : option string) : StateErr State unit :=
  request ←
    match request with
    | None =>
        requestElement ← lift (buildRequest identifier inputs output);
        lift (tostring requestElement)
    | Some request => mret request
    end;
  response ←
    match response with
    | None => submitRequest request
    | Some response => lift (fromstring response)
    end;
  on_self (parseResponse response).

(** [WebProcessingService.execute]: the service object is only read, and
    the execution is returned when the steps have run without an
    exception. *)
Definition execute (self : WebProcessingService) (identifier : string)
    (inputs : list (string * InputValue)) (output request response : option string)
  : StateErr World WPSExecution :=
  fun w =>
    let execution :=
      WPSExecution_init (wps_version self) (Some (wps_url self)) (wps_username self)
        (wps_password self) (wps_verbose self) in
    let '((execution', w'), r) :=
      execute_steps identifier inputs output request response (execution, w) in
    (w', match r with
         | Ok _ => Ok execution'
         | Raise e => Raise e
         end).

(** The exception of the first input whose [getXml()] raises, if any. *)
Fixpoint first_failure (inputs : list (string * InputValue)) : option exn :=
  match inputs with
  | [] => None
  | (_, Complex (Raise e)) :: _ => Some e
  | _ :: inputs' => first_failure inputs'
  end.

(** The elements of a WFS query. *)
Definition property_name_element (propertyName : string) : Element :=
  Elem (qualify WFS_NAMESPACE "PropertyName") ∅ (Some propertyName) [].

Definition gml_object_id_element (filter : string) : Element :=
  Elem (qualify OGC_NAMESPACE "GmlObjectId")
    (list_to_map [(qualify GML_NAMESPACE "id", filter)]) None [].

Definition filter_elements (filters : list string) : list Element :=
  match filters with
  | [] => []
  | _ => [Elem (qualify OGC_NAMESPACE "Filter") ∅ None
            (map gml_object_id_element filters)]
  end.

Definition query_element (q : WFSQuery) : Element :=
  Elem (qualify WFS_NAMESPACE "Query") (list_to_map [("typeName", typeName q)]) None
    (map property_name_element (propertyNames q) ++ filter_elements (filters q)).

(** The text of the [gml:posList] of a polygon. *)
Definition posList (polygon : list (Coordinate * Coordinate)) : string :=
  String.concat " " (map (fun xy : Coordinate * Coordinate =>
                            str xy.1 +:+ " " +:+ str xy.2) polygon).

Definition polygon_member_element (polygon : list (Coordinate * Coordinate))
  : Element :=
  Elem (qualify GML_NAMESPACE "polygonMember") ∅ None
    [Elem (qualify GML_NAMESPACE "Polygon") ∅ None
       [Elem (qualify GML_NAMESPACE "exterior") ∅ None
          [Elem (qualify GML_NAMESPACE "LinearRing") ∅ None
             [Elem (qualify GML_NAMESPACE "posList") ∅ (Some (posList polygon)) []]]]].

(** The [wps:Data] element of a list of polygons. *)
Definition multi_polygon_data_element
    (polygons : list (list (Coordinate * Coordinate))) : Element :=
  Elem (qualify WPS_NAMESPACE "Data") ∅ None
    [Elem (qualify WPS_NAMESPACE "ComplexData")
       (list_to_map [("mimeType", "text/xml"); ("encoding", "UTF-8");
                     ("schema", GML_SCHEMA_LOCATION)]) None
       [Elem (qualify GML_NAMESPACE "featureMembers")
          (list_to_map [("xmlns:ogc", OGC_NAMESPACE);
                        ("xmlns:draw", DRAW_NAMESPACE);
                        ("xmlns:ows", OWS_NAMESPACE_1_0_0);
                        ("xmlns:xlink", XLINK_NAMESPACE);
                        ("xsi:schemaLocation",
                         DRAW_NAMESPACE +:+ " " +:+ DRAW_SCHEMA_LOCATION)]) None
          [Elem (qualify GML_NAMESPACE "box") (list_to_map [("gml:id", "box.1")]) None
             [Elem (qualify GML_NAMESPACE "the_geom") ∅ None
                [Elem (qualify GML_NAMESPACE "MultiPolygon")
                   (list_to_map [("srsDimension", "2");
                                 ("srsName",
                                  "http://www.opengis.net/gml/srs/epsg.xml#4326")])
                   None (map polygon_member_element polygons)];
              Elem (qualify GML_NAMESPACE "ID") ∅ (Some "0") []]]]].

(** [p.identifier == process.identifier] *)
Definition same_identifier (process p : Process) : bool :=
  bool_decide (p_identifier p = p_identifier process).

(** The GET requests the reading of a document sends: the one of the URL
    built from [url] and [data], when that URL has a query string. *)
Definition get_requests (url : option string) (data : payload)
    (username password : option string) : list Request :=
  match build_get_url url data with
  | Ok request_url =>
      match split "?" request_url with
      | base :: query :: _ =>
          [mkRequest (Some base) (Body query) "Get" username password]
      | _ => []
      end
  | Raise _ => []
  end.

(** The body [execute] submits: the request given, or the text of the
    document built. *)
Definition request_body (identifier : string) (inputs : list (string * InputValue))
    (output request : option string) : result string :=
  match request with
  | Some request => Ok request
  | None =>
      requestElement ← buildRequest identifier inputs output;
      tostring requestElement
  end.

Definition capabilities_params (version : string) : payload :=
  Params (list_to_map [("service", "WPS"); ("request", "GetCapabilities");
                       ("version", version)]).

Definition describe_params (version identifier : string) : payload :=
  Params (list_to_map [("service", "WPS"); ("request", "DescribeProcess");
                       ("version", version); ("identifier", identifier)]).

(** More documents of the sample service. *)
Definition sample_metadata (element : option Element) : result Element :=
  deref element.

Definition sample_input_element : Element :=
  Elem "Input" (list_to_map [("minOccurs", "1"); ("maxOccurs", "3")]) None
    [Elem (qualify OWS_1_1 "Identifier") ∅ (Some "DELIMITER") [];
     Elem "LiteralData" ∅ None
       [Elem (qualify OWS_1_1 "DataType")
          {[ qualify OWS_1_1 "reference" := "xs:string" ]} None [];
        Elem (qualify OWS_1_1 "AllowedValues") ∅ None
          [Elem (qualify OWS_1_1 "Value") ∅ (Some "COMMA") [];
           Elem (qualify OWS_1_1 "Value") ∅ (Some "TAB") []];
        Elem "DefaultValue" ∅ (Some "COMMA") []]].

Definition sample_untyped_input_element : Element :=
  Elem "Input" ∅ None [Elem "LiteralData" ∅ None []].

Definition sample_inline_output_element : Element :=
  Elem (qualify WPS_NAMESPACE "Output") ∅ None
    [Elem (qualify OWS_1_1 "Identifier") ∅ (Some "c") [];
     Elem (qualify WPS_NAMESPACE "Reference")
       (list_to_map [("href", url_a); ("mimeType", "text/csv")]) None [];
     Elem (qualify WPS_NAMESPACE "Data") ∅ None
       [Elem (qualify WPS_NAMESPACE "ComplexData") {[ "mimeType" := "text/plain" ]}
          (Some "1 2 3") []]].

Definition sample_identification : Element :=
  Elem (qualify OWS_1_1 "ServiceIdentification") ∅ None [].
Definition sample_provider : Element :=
  Elem (qualify OWS_1_1 "ServiceProvider") ∅ None [].

Definition sample_capabilities (operations : list Element) : Element :=
  Elem (qualify WPS_NAMESPACE "Capabilities") ∅ None
    ([sample_identification; sample_provider] ++ operations ++
     [Elem (qualify WPS_NAMESPACE "ProcessOfferings") ∅ None [sample_process]]).

Definition sample_operations : Element :=
  Elem (qualify OWS_1_1 "OperationsMetadata") ∅ None
    [Elem (qualify OWS_1_1 "Operation") {[ "name" := "GetCapabilities" ]} None [];
     Elem (qualify OWS_1_1 "Operation") {[ "name" := "Execute" ]} None []].

Definition sample_started_without_process : Element :=
  Elem (qualify WPS_NAMESPACE "ExecuteResponse") ∅ None
    [Elem (qualify WPS_NAMESPACE "Status") ∅ None
       [Elem (qualify WPS_NAMESPACE "ProcessStarted") ∅ None []]].

Definition sample_collection : WFSFeatureCollection :=
  mkWFSFeatureCollection "http://wfs.example/wfs"
    (mkWFSQuery "sample:CONUS_States" ["the_geom"; "STATE"] ["CONUS_States.508"]).

Definition url_without_value : string := "http://wps.example/result?first".

(** * Properties *)

(** ** Facts about strings, paths and loops *)

Lemma split_not_nil (sep : ascii) (s : string) : split sep s <> [].
Proof.
  induction s as [|c s IH]; simpl; [discriminate|].
  destruct (Ascii.eqb c sep); [discriminate|].
  destruct (split sep s); [contradiction | discriminate].
Qed.

Lemma split_absent (sep : ascii) (s : string) :
  contains sep s = false -> split sep s = [s].
Proof.
  induction s as [|c s IH]; simpl; [reflexivity|].
  destruct (Ascii.eqb c sep); simpl; [discriminate|].
  intros H. rewrite (IH H). reflexivity.
Qed.

Lemma split_present (sep : ascii) (s : string) :
  contains sep s = true -> exists a b rest, split sep s = a :: b :: rest.
Proof.
  induction s as [|c s IH]; simpl; [discriminate|].
  destruct (Ascii.eqb c sep); simpl.
  - intros _. pose proof (split_not_nil sep s) as Hne.
    destruct (split sep s) as [|b rest]; [contradiction|]. eauto.
  - intros H. destruct (IH H) as (a & b & rest & ->). eauto.
Qed.

Lemma split_app_sep (sep : ascii) (a b : string) :
  split sep (a +:+ String sep b) = split sep a ++ split sep b.
Proof.
  induction a as [|d a IH].
  - change ("" +:+ String sep b) with (String sep b).
    cbn [split]. rewrite Ascii.eqb_refl. reflexivity.
  - change (String d a +:+ String sep b) with (String d (a +:+ String sep b)).
    cbn [split]. rewrite IH. destruct (Ascii.eqb d sep); [reflexivity|].
    pose proof (split_not_nil sep a) as Hne.
    destruct (split sep a) as [|h t]; [contradiction | reflexivity].
Qed.

Lemma contains_app (c : ascii) (a b : string) :
  contains c (a +:+ b) = contains c a || contains c b.
Proof.
  induction a as [|d a IH]; [reflexivity|].
  change (String d a +:+ b) with (String d (a +:+ b)).
  cbn [contains]. rewrite IH. apply orb_assoc.
Qed.

Lemma last_app_cons {A} (l : list A) (x : A) (l' : list A) :
  last (l ++ x :: l') = last (x :: l').
Proof.
  induction l as [|y l IH]; [reflexivity|].
  cbn [app]. destruct l; exact IH.
Qed.

Lemma last_char_app (s : string) (c : ascii) (t : string) :
  last_char (s +:+ String c t) = last_char (String c t).
Proof.
  induction s as [|d s IH]; [reflexivity|].
  change (String d s +:+ String c t) with (String d (s +:+ String c t)).
  destruct s as [|d' s]; [reflexivity|].
  exact IH.
Qed.

Lemma last_char_qualify (ns : string) (c : ascii) (t : string) :
  last_char (qualify ns (String c t)) = last_char (String c t).
Proof.
  unfold qualify.
  change ("{" +:+ ns +:+ "}" +:+ String c t)
    with (String "{" (ns +:+ String "}" (String c t))).
  transitivity (last_char (ns +:+ String "}" (String c t))).
  - destruct ns; reflexivity.
  - rewrite last_char_app. reflexivity.
Qed.

Lemma qualify_eqb_last (ns ns' : string) (c c' : ascii) (t t' : string) :
  last_char (String c t) <> last_char (String c' t') ->
  String.eqb (qualify ns (String c t)) (qualify ns' (String c' t')) = false.
Proof.
  intros Hne. apply String.eqb_neq. intros Heq. apply Hne.
  rewrite <- (last_char_qualify ns), <- (last_char_qualify ns'), Heq.
  reflexivity.
Qed.

Lemma qualify_not_star (ns name : string) : String.eqb (qualify ns name) "*" = false.
Proof. reflexivity. Qed.

Lemma matches_qualify (ns name : string) (e : Element) :
  matches (qualify ns name) e = String.eqb (tag e) (qualify ns name).
Proof. unfold matches. rewrite qualify_not_star. reflexivity. Qed.

Lemma findall_one (s : string) (e : Element) :
  findall [s] e = List.filter (matches s) (children e).
Proof.
  simpl. induction (List.filter (matches s) (children e)) as [|x l IH];
    simpl; [reflexivity | now rewrite IH].
Qed.

(** The loop [append_each] only ever adds at the end of the list, and adds
    the whole image of [l] when it runs to its end. *)
Lemma append_each_extends {A B} (f : A -> result B) (l : list A) (acc : list B) :
  exists ys, (append_each f l acc).1 = acc ++ ys /\
    ((append_each f l acc).2 = Ok tt -> mapM f l = Ok ys).
Proof.
  revert acc. induction l as [|x l IH]; intros acc; simpl.
  - exists []. rewrite app_nil_r. split; reflexivity.
  - destruct (f x) as [y|e] eqn:Hf; simpl.
    + destruct (IH (acc ++ [y])) as (ys & Hacc & Hok).
      exists (y :: ys). rewrite Hacc, <- app_assoc. split; [reflexivity|].
      intros H. rewrite (Hok H). reflexivity.
    + exists []. rewrite app_nil_r. split; [reflexivity | discriminate].
Qed.

Lemma append_each_total {A B} (f : A -> B) (l : list A) (acc : list B) :
  append_each (fun x => Ok (f x)) l acc = (acc ++ map f l, Ok tt).
Proof.
  revert acc. induction l as [|x l IH]; intros acc; simpl.
  - now rewrite app_nil_r.
  - rewrite IH, <- app_assoc. reflexivity.
Qed.

(** ** The status predicates *)

Lemma isComplete_cases (self : WPSExecution) :
  (isComplete self = Ok true /\ exists s, status self = Some s /\ In s terminal_statuses) \/
  (isComplete self = Ok false /\ exists s, status self = Some s /\ In s running_statuses) \/
  (isComplete self = Raise (unknown_status_error self) /\
   forall s, In s (terminal_statuses ++ running_statuses) -> status self <> Some s).
Proof.
  clear -self. unfold isComplete, unknown_status_error, status_is.
  destruct (status self) as [s|].
  - destruct (String.eqb_spec s "ProcessSucceeded") as [->|H1];
      [left; split; [reflexivity | eexists; split; [reflexivity | simpl; tauto]]|].
    destruct (String.eqb_spec s "ProcessFailed") as [->|H2];
      [left; split; [reflexivity | eexists; split; [reflexivity | simpl; tauto]]|].
    destruct (String.eqb_spec s "Exception") as [->|H3];
      [left; split; [reflexivity | eexists; split; [reflexivity | simpl; tauto]]|].
    destruct (String.eqb_spec s "ProcessStarted") as [->|H4];
      [right; left; split; [reflexivity | eexists; split; [reflexivity | simpl; tauto]]|].
    destruct (String.eqb_spec s "ProcessAccepted") as [->|H5];
      [right; left; split; [reflexivity | eexists; split; [reflexivity | simpl; tauto]]|].
    destruct (String.eqb_spec s "ProcessPaused") as [->|H6];
      [right; left; split; [reflexivity | eexists; split; [reflexivity | simpl; tauto]]|].
    right; right. split; [reflexivity|].
    intros s' Hin Heq. injection Heq as ->. simpl in Hin.
    intuition congruence.
  - right; right. split; [reflexivity|]. intros s' _. discriminate.
Qed.

(** C1, as the code has it: [isComplete()] returns true exactly for the
    statuses ProcessSucceeded, ProcessFailed and Exception, returns false
    exactly for ProcessAccepted, ProcessStarted and ProcessPaused, and
    raises the unknown-status error exactly when the status is none of
    these six strings, which includes the unset status. *)
Theorem isComplete_spec (self : WPSExecution) :
  (isComplete self = Ok true <->
     exists s, status self = Some s /\ In s terminal_statuses) /\
  (isComplete self = Ok false <->
     exists s, status self = Some s /\ In s running_statuses) /\
  (isComplete self = Raise (unknown_status_error self) <->
     forall s, In s (terminal_statuses ++ running_statuses) -> status self <> Some s) /\
  (status self = None -> isComplete self = Raise (unknown_status_error self)).
Proof.
  clear -self.
  assert (Hdisj : forall s, In s terminal_statuses -> In s running_statuses -> False).
  { simpl. intros s H1 H2. intuition congruence. }
  destruct (isComplete_cases self) as [(E & s & Hs & Hin) | [(E & s & Hs & Hin) | (E & Hn)]];
    rewrite E.
  - split; [|split; [|split]].
    + split; eauto.
    + split; [discriminate|]. intros (s' & Hs' & Hin'). exfalso.
      rewrite Hs in Hs'. injection Hs' as <-. eauto.
    + split; [discriminate|]. intros H. exfalso.
      apply (H s); [apply in_or_app; now left | exact Hs].
    + intros H. rewrite Hs in H. discriminate.
  - split; [|split; [|split]].
    + split; [discriminate|]. intros (s' & Hs' & Hin'). exfalso.
      rewrite Hs in Hs'. injection Hs' as <-. eauto.
    + split; eauto.
    + split; [discriminate|]. intros H. exfalso.
      apply (H s); [apply in_or_app; now right | exact Hs].
    + intros H. rewrite Hs in H. discriminate.
  - split; [|split; [|split]].
    + split; [discriminate|]. intros (s & Hs & Hin). exfalso.
      apply (Hn s); [apply in_or_app; now left | exact Hs].
    + split; [discriminate|]. intros (s & Hs & Hin). exfalso.
      apply (Hn s); [apply in_or_app; now right | exact Hs].
    + split; auto.
    + reflexivity.
Qed.

(** ** Output retrieval before success *)

(** C2: when the status is not ProcessSucceeded, [getOutput] raises the
    "not successfully completed" error and leaves the execution and the
    world as they were: no request is sent and no file is written. *)
Theorem getOutput_not_succeeded (self : WPSExecution) (w : World)
    (filepath : option string) :
  status self <> Some "ProcessSucceeded" ->
  getOutput filepath (self, w) = ((self, w), Raise (not_complete_error self)).
Proof.
  intros Hst. unfold getOutput, not_complete_error.
  assert (Hs : isSucceded self = false).
  { unfold isSucceded, status_is. destruct (status self) as [s|]; [|reflexivity].
    destruct (String.eqb_spec s "ProcessSucceeded") as [->|]; [|reflexivity].
    contradiction. }
  unfold mbind, StateErr_bind, gets. cbn [fst]. rewrite Hs. reflexivity.
Qed.

(** ** The response parser *)

(** C3, where the code departs from it: a root tag without a namespace has
    no second piece after [split('}')], and [parseResponse] raises
    IndexError instead of ignoring the document. *)
Theorem parseResponse_unqualified_root_raises (response : Element)
    (self : WPSExecution) :
  contains "}" (tag response) = false ->
  parseResponse response self = (self, Raise IndexError).
Proof.
  intros H. unfold parseResponse. rewrite (split_absent _ _ H). reflexivity.
Qed.

(** On a root tag [{uri}local] the dispatch is as C3 says: a local name
    other than ExecuteResponse and ExceptionReport leaves the execution
    untouched. *)
Lemma parseResponse_unknown_root (response : Element) (self : WPSExecution)
    (uri rootTag : string) (rest : list string) :
  split "}" (tag response) = uri :: rootTag :: rest ->
  rootTag <> "ExecuteResponse" -> rootTag <> "ExceptionReport" ->
  parseResponse response self = (self, Ok tt).
Proof.
  intros Hsplit H1 H2. unfold parseResponse. rewrite Hsplit.
  change (index (uri :: rootTag :: rest) 1) with (Ok rootTag).
  unfold mbind, StateErr_bind, lift.
  apply String.eqb_neq in H1, H2. rewrite H1, H2. reflexivity.
Qed.

Lemma findall_Exception (root : Element) :
  findall (nspath "Exception" DEFAULT_OWS_NAMESPACE) root = exception_elements root.
Proof.
  change (nspath "Exception" DEFAULT_OWS_NAMESPACE)
    with [qualify DEFAULT_OWS_NAMESPACE "Exception"].
  rewrite findall_one. unfold exception_elements.
  apply List.filter_ext. intros c. apply matches_qualify.
Qed.

(** C4: [_parseExceptionReport] never raises; it sets an unset status to
    "Exception" and keeps any other status; it appends to [errors] one
    [WPSException] per [Exception] child of the report, in document order,
    each with the element's [exceptionCode], [locator] and
    [ExceptionText]; and it changes nothing else. *)
Theorem _parseExceptionReport_spec (root : Element) (self : WPSExecution) :
  let self' := (_parseExceptionReport root self).1 in
  (_parseExceptionReport root self).2 = Ok tt /\
  status self' = match status self with
                 | None => Some "Exception"
                 | Some s => Some s
                 end /\
  errors self' = errors self ++ map WPSException_init (exception_elements root) /\
  (forall el, code (WPSException_init el) = attrib el !! "exceptionCode" /\
              locator (WPSException_init el) = attrib el !! "locator" /\
              exc_text (WPSException_init el) =
                match find (nspath "ExceptionText" DEFAULT_OWS_NAMESPACE) el with
                | Some textEl => text textEl
                | None => Some ""
                end) /\
  self' = set_errors (errors self') (set_status (status self') self).
Proof.
  unfold _parseExceptionReport, append_to.
  rewrite findall_Exception.
  unfold mbind, StateErr_bind, gets, modify, mret, StateErr_ret.
  destruct self as [u v un pw vb p si st er sl di po].
  destruct st as [s|]; cbn [status errors set_status set_errors];
    rewrite append_each_total; cbn [fst snd status errors set_status set_errors];
    (split; [reflexivity|]); (split; [reflexivity|]); (split; [reflexivity|]);
    (split; [|reflexivity]);
    intros el; unfold WPSException_init;
    destruct (find (nspath "ExceptionText" DEFAULT_OWS_NAMESPACE) el); cbn; auto.
Qed.

Lemma _parseExceptionReport_eq (root : Element) (self : WPSExecution) :
  _parseExceptionReport root self =
    (set_errors (errors self ++ map WPSException_init (exception_elements root))
       (set_status (match status self with
                    | None => Some "Exception"
                    | Some s => Some s
                    end) self), Ok tt).
Proof.
  unfold _parseExceptionReport, append_to.
  rewrite findall_Exception.
  unfold mbind, StateErr_bind, gets, modify, mret, StateErr_ret.
  destruct self as [u v un pw vb p si st er sl di po].
  destruct st as [s|]; cbn [status errors set_status set_errors];
    rewrite append_each_total; reflexivity.
Qed.

Lemma find_Status_absent (root : Element) :
  status_children_absent root ->
  find (nspath "Status/*" WPS_NAMESPACE) root = None.
Proof.
  unfold status_children_absent, find.
  change (nspath "Status/*" WPS_NAMESPACE) with [qualify WPS_NAMESPACE "Status"; "*"].
  cbn [findall]. induction (children root) as [|c l IH]; intros H; [reflexivity|].
  cbn [List.filter]. rewrite matches_qualify.
  destruct (String.eqb_spec (tag c) (qualify WPS_NAMESPACE "Status")) as [Ht|Ht].
  - cbn [flat_map]. rewrite (H c (or_introl eq_refl) Ht). cbn [List.filter flat_map app].
    apply IH. intros s Hs. apply H. now right.
  - apply IH. intros s Hs. apply H. now right.
Qed.

(** C5: on an ExecuteResponse whose [Status] element has no child, the
    lookup of the status element finds nothing and
    [_parseExecuteResponse] raises (an AttributeError on [None]); the call
    stops there, after the two attributes of the root were stored: the
    status, the errors, the process and the lists are as before. *)
Theorem _parseExecuteResponse_no_status_raises (root : Element)
    (self : WPSExecution) :
  status_children_absent root ->
  _parseExecuteResponse root self =
    (set_statusLocation (get root "statusLocation")
       (set_serviceInstance (get root "serviceInstance") self),
     Raise AttributeError) /\
  let self' := (_parseExecuteResponse root self).1 in
  status self' = status self /\ errors self' = errors self /\
  process self' = process self /\ dataInputs self' = dataInputs self /\
  processOutputs self' = processOutputs self.
Proof.
  intros H.
  assert (E : _parseExecuteResponse root self =
    (set_statusLocation (get root "statusLocation")
       (set_serviceInstance (get root "serviceInstance") self),
     Raise AttributeError)).
  { unfold _parseExecuteResponse. rewrite (find_Status_absent root H).
    reflexivity. }
  split; [exact E|]. rewrite E. cbn. repeat split.
Qed.

(** ** Accumulation across polls *)

(** One parse of an ExecuteResponse only adds at the end of [dataInputs]
    and [processOutputs]; when it returns, what it added is the [Input]
    and [Output] objects of the document's elements. *)
Lemma _parseExecuteResponse_appends (root : Element) (self : WPSExecution) :
  exists ins outs,
    dataInputs (_parseExecuteResponse root self).1 = dataInputs self ++ ins /\
    processOutputs (_parseExecuteResponse root self).1 = processOutputs self ++ outs /\
    ((_parseExecuteResponse root self).2 = Ok tt ->
       mapM Input_init (input_elements root) = Ok ins /\
       mapM Output_init (output_elements root) = Ok outs).
Proof.
  unfold _parseExecuteResponse, input_elements, output_elements.
  unfold mbind, StateErr_bind, modify, lift, gets. cbv beta iota.
  destruct (deref (find (nspath "Status/*" WPS_NAMESPACE) root)) as [statusEl|e];
    [|stopped_early].
  destruct (index (split "}" (tag statusEl)) 1) as [st|e];
    [|stopped_early].
  cbn [verbose set_status set_statusLocation set_serviceInstance].
  destruct (Process_init _ _) as [p|e];
    [|stopped_early].
  match goal with
  | |- context [match ?m ?s with pair _ _ => _ end] =>
      assert (Hex : exists er stt, m s = (set_errors er (set_status stt s), Ok tt))
  end.
  { destruct (find (nspath "ExceptionReport" DEFAULT_OWS_NAMESPACE) statusEl).
    - rewrite _parseExceptionReport_eq. eauto.
    - exists (errors self), (Some st). reflexivity. }
  destruct Hex as (er & stt & ->).
  unfold append_to.
  cbn [dataInputs processOutputs set_errors set_status set_process
       set_dataInputs set_processOutputs set_statusLocation set_serviceInstance].
  destruct (append_each_extends Input_init
              (findall (nspath "DataInputs/Input" "http://www.opengis.net/wps/1.0.0") root)
              (dataInputs self)) as (ins & Hins & Hinok).
  destruct (append_each Input_init _ (dataInputs self)) as [acc [[]|e]];
    cbn [fst snd] in *.
  - cbn [dataInputs processOutputs set_errors set_status set_process
         set_dataInputs set_processOutputs set_statusLocation set_serviceInstance].
    destruct (append_each_extends Output_init
                (findall (nspath "ProcessOutputs/Output" WPS_NAMESPACE) root)
                (processOutputs self)) as (outs & Houts & Houtok).
    destruct (append_each Output_init _ (processOutputs self)) as [acc' r'];
      cbn [fst snd dataInputs processOutputs set_processOutputs] in *.
    exists ins, outs. repeat split; auto.
  - exists ins, []. cbn [dataInputs processOutputs set_dataInputs].
    rewrite app_nil_r. repeat split; auto; discriminate.
Qed.

(** C9, as the code has it: [dataInputs] and [processOutputs] are created
    once, with the object, and every parse of an ExecuteResponse appends to
    them. After a second parse they hold what they held before the first,
    then the objects of the first document, then those of the second, so
    what an earlier parse put there is still there unchanged. *)
Theorem _parseExecuteResponse_twice (root1 root2 : Element)
    (self self1 self2 : WPSExecution) :
  _parseExecuteResponse root1 self = (self1, Ok tt) ->
  _parseExecuteResponse root2 self1 = (self2, Ok tt) ->
  exists ins1 outs1 ins2 outs2,
    mapM Input_init (input_elements root1) = Ok ins1 /\
    mapM Output_init (output_elements root1) = Ok outs1 /\
    mapM Input_init (input_elements root2) = Ok ins2 /\
    mapM Output_init (output_elements root2) = Ok outs2 /\
    dataInputs self2 = dataInputs self ++ ins1 ++ ins2 /\
    processOutputs self2 = processOutputs self ++ outs1 ++ outs2.
Proof.
  intros H1 H2.
  destruct (_parseExecuteResponse_appends root1 self) as (ins1 & outs1 & Hi1 & Ho1 & Hok1).
  destruct (_parseExecuteResponse_appends root2 self1) as (ins2 & outs2 & Hi2 & Ho2 & Hok2).
  rewrite H1 in Hi1, Ho1, Hok1. rewrite H2 in Hi2, Ho2, Hok2. cbn [fst snd] in *.
  destruct (Hok1 eq_refl) as [? ?]. destruct (Hok2 eq_refl) as [? ?].
  exists ins1, outs1, ins2, outs2.
  rewrite Hi2, Ho2, Hi1, Ho1, <- !app_assoc. repeat split; assumption.
Qed.

(** ** The request builder *)

Lemma buildInput_literal (kv : string * string) :
  buildInput (literal kv) = Ok (literal_input kv).
Proof. reflexivity. Qed.

Lemma mapM_buildInput_literal (inputs : list (string * string)) :
  mapM buildInput (map literal inputs) = Ok (map literal_input inputs).
Proof.
  induction inputs as [|kv inputs IH]; [reflexivity|].
  cbn [map mapM]. rewrite buildInput_literal, IH. reflexivity.
Qed.

Lemma buildResponseForm_eq (output : string) :
  buildResponseForm output = Ok (response_form output).
Proof. reflexivity. Qed.

Lemma buildRequest_eq (identifier : string) (inputs : list (string * InputValue))
    (output : option string) :
  buildRequest identifier inputs output =
    inputElements ← mapM buildInput inputs;
    Ok (request_document identifier inputElements output).
Proof.
  unfold buildRequest.
  change (nspath_eval "wps:Execute" namespaces) with (Ok (qualify WPS_NAMESPACE "Execute")).
  change (nspath_eval "xsi:schemaLocation" namespaces)
    with (Ok (qualify XSI_NAMESPACE "schemaLocation")).
  change (nspath_eval "ows:Identifier" namespaces)
    with (Ok (qualify DEFAULT_OWS_NAMESPACE "Identifier")).
  change (nspath_eval "wps:DataInputs" namespaces)
    with (Ok (qualify WPS_NAMESPACE "DataInputs")).
  change (getitem namespaces (Some "ows")) with (Ok DEFAULT_OWS_NAMESPACE).
  change (getitem namespaces (Some "xlink")) with (Ok XLINK_NAMESPACE).
  change (getitem namespaces (Some "wps")) with (Ok WPS_NAMESPACE).
  unfold mbind at 1 2 3 4 5 6 7. unfold result_bind at 1 2 3 4 5 6 7.
  unfold mbind, result_bind.
  destruct (mapM buildInput inputs) as [inputElements|e]; [|reflexivity].
  destruct output as [output|]; reflexivity.
Qed.

(** Decides the tag comparisons of a lookup in a built document. *)
Ltac compare_tags :=
  repeat (rewrite matches_qualify; cbn [tag]);
  repeat first
    [ rewrite String.eqb_refl
    | rewrite qualify_eqb_last by (cbn; discriminate) ].

Lemma filter_literal_inputs (inputs : list (string * string)) :
  List.filter (matches (qualify WPS_NAMESPACE "Input")) (map literal_input inputs)
  = map literal_input inputs.
Proof.
  induction inputs as [|kv inputs IH]; [reflexivity|].
  cbn [map List.filter]. rewrite IH. unfold literal_input at 1.
  compare_tags. reflexivity.
Qed.

Lemma findall_inputs (identifier : string) (inputElements : list Element)
    (output : option string) :
  findall (nspath "DataInputs/Input" WPS_NAMESPACE)
    (request_document identifier inputElements output)
  = List.filter (matches (qualify WPS_NAMESPACE "Input")) inputElements.
Proof.
  change (nspath "DataInputs/Input" WPS_NAMESPACE)
    with [qualify WPS_NAMESPACE "DataInputs"; qualify WPS_NAMESPACE "Input"].
  unfold request_document.
  cbn [findall children app List.filter].
  destruct output as [output|]; cbn [response_forms response_form List.filter];
    compare_tags; cbn [flat_map children]; rewrite app_nil_r;
    generalize (List.filter (matches (qualify WPS_NAMESPACE "Input")) inputElements);
    intros l; induction l as [|x l IH]; cbn; congruence.
Qed.

Lemma read_literal_input (kv : string * string) :
  find (nspath "Identifier" DEFAULT_OWS_NAMESPACE) (literal_input kv) ≫= text = Some kv.1 /\
  find (nspath "Data/LiteralData" WPS_NAMESPACE) (literal_input kv) ≫= text = Some kv.2.
Proof.
  change (nspath "Identifier" DEFAULT_OWS_NAMESPACE)
    with [qualify DEFAULT_OWS_NAMESPACE "Identifier"].
  change (nspath "Data/LiteralData" WPS_NAMESPACE)
    with [qualify WPS_NAMESPACE "Data"; qualify WPS_NAMESPACE "LiteralData"].
  unfold find, literal_input. cbn [findall children List.filter].
  compare_tags. cbn [List.filter flat_map children findall].
  compare_tags. split; reflexivity.
Qed.

(** C6: for string inputs [buildRequest] always returns, and reading the
    document back gives the identifier and the (name, value) pairs in the
    order given: the [wps:Input] elements under [wps:DataInputs] are, in
    that order, one per pair, each with the name in its [ows:Identifier]
    and the value as the text of its [wps:Data/wps:LiteralData]. *)
Theorem buildRequest_roundtrip (identifier : string)
    (inputs : list (string * string)) (output : option string) :
  exists doc,
    buildRequest identifier (map literal inputs) output = Ok doc /\
    readRequest doc =
      (Some identifier, map (fun kv => (Some kv.1, Some kv.2)) inputs) /\
    findall (nspath "DataInputs/Input" WPS_NAMESPACE) doc = map literal_input inputs.
Proof.
  exists (request_document identifier (map literal_input inputs) output).
  split; [|split].
  - rewrite buildRequest_eq, mapM_buildInput_literal. reflexivity.
  - unfold readRequest. rewrite findall_inputs, filter_literal_inputs.
    f_equal.
    + change (nspath "Identifier" DEFAULT_OWS_NAMESPACE)
        with [qualify DEFAULT_OWS_NAMESPACE "Identifier"].
      unfold find, request_document. cbn [findall children app List.filter].
      compare_tags. reflexivity.
    + rewrite map_map. apply map_ext. intros kv.
      destruct (read_literal_input kv) as [-> ->]. reflexivity.
  - rewrite findall_inputs. apply filter_literal_inputs.
Qed.






(** ** Polling *)

Lemma snoc_neq {A} (l : list A) (x : A) : l ++ [x] <> l.
Proof.
  intros H. apply (f_equal (@length A)) in H.
  rewrite length_app in H. cbn in H. lia.
Qed.

(** Closes the cases of a poll that does not sleep. *)
Ltac no_sleep :=
  split; [reflexivity | split; [reflexivity | split; [|left; reflexivity]]];
  split;
    [ let H := fresh in intros H; exfalso; exact (snoc_neq _ _ (eq_sym H))
    | let H := fresh in let H' := fresh in
      intros [H H']; try discriminate; congruence ].

Lemma checkStatus_parse_spec (sleepSecs : N) (response : Element)
    (self : WPSExecution) (w : World) :
  let out := checkStatus_parse sleepSecs response (self, w) in
  requests out.1.2 = requests w /\ files out.1.2 = files w /\
  (sleeps out.1.2 = sleeps w ++ [sleepSecs] <->
     out.2 = Ok tt /\ isComplete out.1.1 = Ok false) /\
  (sleeps out.1.2 = sleeps w \/ sleeps out.1.2 = sleeps w ++ [sleepSecs]).
Proof.
  unfold checkStatus_parse, on_self, on_world.
  unfold mbind, StateErr_bind, gets, lift, modify, mret, StateErr_ret.
  cbn [fst snd].
  destruct (parseResponse response self) as [self1 [[]|e]]; cbn [fst snd].
  - destruct (isComplete self1) as [[|]|e] eqn:Hc;
      cbn [negb fst snd pause sleeps requests files].
    + no_sleep.
    + split; [reflexivity | split; [reflexivity | split; [|right; reflexivity]]].
      split; [intros _; split; [reflexivity | exact Hc] | reflexivity].
    + no_sleep.
  - no_sleep.
Qed.

Lemma after_fetch_spec (sleepSecs : N) (self0 : WPSExecution) (w w0 : World)
    (fetched : result Element) :
  sleeps w0 = sleeps w -> files w0 = files w ->
  let out := match fetched with
             | Ok response => checkStatus_parse sleepSecs response (self0, w0)
             | Raise e => ((self0, w0), Raise e)
             end in
  requests out.1.2 = requests w0 /\ files out.1.2 = files w /\
  (sleeps out.1.2 = sleeps w ++ [sleepSecs] <->
     out.2 = Ok tt /\ isComplete out.1.1 = Ok false) /\
  (sleeps out.1.2 = sleeps w \/ sleeps out.1.2 = sleeps w ++ [sleepSecs]).
Proof.
  intros Hs Hf. destruct fetched as [response|e]; cbn zeta.
  - rewrite <- Hs, <- Hf. apply checkStatus_parse_spec.
  - cbn [fst snd]. rewrite Hs, Hf. no_sleep.
Qed.

Lemma checkStatus_inline (url : option string) (doc : string) (sleepSecs : N)
    (s : State) :
  checkStatus url (Some doc) sleepSecs s =
    match fromstring doc with
    | Ok response => checkStatus_parse sleepSecs response s
    | Raise e => (s, Raise e)
    end.
Proof.
  unfold checkStatus, checkStatus_parse, readFromString.
  unfold mbind at 1. unfold StateErr_bind at 1. unfold lift.
  destruct (fromstring doc); reflexivity.
Qed.

(** What the reading of the status document leaves, and returns. *)
Lemma readFromUrl_Get (location username password : option string) (w : World) :
  exists w0 fetched,
    readFromUrl location (Params ∅) "Get" username password w = (w0, fetched) /\
    sleeps w0 = sleeps w /\ files w0 = files w /\
    requests w0 = requests w ++
      match build_get_url location (Params ∅) with
      | Ok request_url =>
          match split "?" request_url with
          | base :: query :: _ =>
              [mkRequest (Some base) (Body query) "Get" username password]
          | _ => []
          end
      | Raise _ => []
      end.
Proof.
  unfold readFromUrl, _readFromUrl. cbn [String.eqb Ascii.eqb Bool.eqb].
  unfold mbind, StateErr_bind, lift, call_openURL.
  destruct (build_get_url location (Params ∅)) as [request_url|e];
    [|do 2 eexists; split; [reflexivity|]; rewrite app_nil_r; auto].
  destruct (split "?" request_url) as [|base [|query rest]];
    [do 2 eexists; split; [reflexivity|]; rewrite app_nil_r; auto ..|].
  cbn [index lookup list_lookup].
  destruct (openURL (requests w) _) as [[content|e]|e];
    do 2 eexists; (split; [reflexivity|]); cbn; auto.
Qed.

Lemma checkStatus_poll (url : option string) (sleepSecs : N)
    (self : WPSExecution) (w : World) :
  let self0 := set_statusLocation (polled_location self url) self in
  checkStatus url None sleepSecs (self, w) =
    match readFromUrl (polled_location self url) (Params ∅) "Get"
            (username self) (password self) w with
    | (w0, Ok response) => checkStatus_parse sleepSecs response (self0, w0)
    | (w0, Raise e) => ((self0, w0), Raise e)
    end.
Proof.
  unfold checkStatus, checkStatus_parse, on_self, on_world.
  unfold mbind at 1. unfold StateErr_bind at 1.
  unfold mbind at 1. unfold StateErr_bind at 1.
  destruct self as [u v un pw vb p si st er sl di po].
  destruct url as [url|];
    unfold mbind at 1; unfold StateErr_bind at 1;
    cbn [fst snd modify gets mret StateErr_ret set_statusLocation polled_location
         statusLocation username password];
    destruct (readFromUrl _ _ _ _ _ w) as [w0 [response|e]]; reflexivity.
Qed.

(** What follows the reading: the execution is the one [parseResponse]
    leaves, an exception of the parse or of [isComplete()] is passed on,
    and the world changes by the one sleep of a job that is not complete. *)
Lemma checkStatus_parse_eq (sleepSecs : N) (response : Element)
    (self : WPSExecution) (w : World) :
  let out := checkStatus_parse sleepSecs response (self, w) in
  let parsed := parseResponse response self in
  out.1.1 = parsed.1 /\
  out.2 = match parsed.2 with
          | Ok _ => match isComplete parsed.1 with
                    | Ok _ => Ok tt
                    | Raise e => Raise e
                    end
          | Raise e => Raise e
          end /\
  out.1.2 = match parsed.2, isComplete parsed.1 with
            | Ok _, Ok false => pause sleepSecs w
            | _, _ => w
            end.
Proof.
  unfold checkStatus_parse, on_self, on_world.
  unfold mbind, StateErr_bind, gets, lift, modify, mret, StateErr_ret.
  cbn [fst snd].
  destruct (parseResponse response self) as [self1 [[]|e]]; cbn [fst snd];
    [|split; [reflexivity | split; reflexivity]].
  destruct (isComplete self1) as [[|]|e]; cbn [negb fst snd];
    (split; [reflexivity | split; reflexivity]).
Qed.

(** C8: with an inline response [checkStatus] sends nothing and ignores its
    [url] argument: the document given is parsed into the execution as it
    was. Without one it stores the location given, or keeps the current
    status location, sends the one GET of the URL built from it, and
    parses the document received into the execution. A document that
    cannot be read leaves the execution unparsed and raises. Once the
    document is read, the execution is the one [parseResponse] leaves, an
    exception of the parse or of [isComplete()] is raised, and the call
    sleeps, once and for the seconds given, exactly when the parse
    returned and [isComplete()] is false of the execution so parsed; it
    writes no file. *)
Theorem checkStatus_spec (url response : option string) (sleepSecs : N)
    (self : WPSExecution) (w : World) :
  let out := checkStatus url response sleepSecs (self, w) in
  (forall doc, response = Some doc ->
     requests out.1.2 = requests w /\
     out = checkStatus None (Some doc) sleepSecs (self, w) /\
     match fromstring doc with
     | Raise e => out = ((self, w), Raise e)
     | Ok root =>
         let parsed := parseResponse root self in
         out.1.1 = parsed.1 /\
         out.2 = match parsed.2 with
                 | Ok _ => match isComplete parsed.1 with
                           | Ok _ => Ok tt
                           | Raise e => Raise e
                           end
                 | Raise e => Raise e
                 end /\
         out.1.2 = match parsed.2, isComplete parsed.1 with
                   | Ok _, Ok false => pause sleepSecs w
                   | _, _ => w
                   end
     end) /\
  (response = None ->
     let self0 := set_statusLocation (polled_location self url) self in
     requests out.1.2 =
       requests w ++ status_requests self (polled_location self url) /\
     out = checkStatus None None sleepSecs (self0, w) /\
     match readFromUrl (polled_location self url) (Params ∅) "Get"
             (username self) (password self) w with
     | (w0, Raise e) => out = ((self0, w0), Raise e)
     | (w0, Ok root) =>
         let parsed := parseResponse root self0 in
         out.1.1 = parsed.1 /\
         out.2 = match parsed.2 with
                 | Ok _ => match isComplete parsed.1 with
                           | Ok _ => Ok tt
                           | Raise e => Raise e
                           end
                 | Raise e => Raise e
                 end /\
         out.1.2 = match parsed.2, isComplete parsed.1 with
                   | Ok _, Ok false => pause sleepSecs w0
                   | _, _ => w0
                   end
     end) /\
  (sleeps out.1.2 = sleeps w ++ [sleepSecs] <->
     out.2 = Ok tt /\ isComplete out.1.1 = Ok false) /\
  (sleeps out.1.2 = sleeps w \/ sleeps out.1.2 = sleeps w ++ [sleepSecs]) /\
  files out.1.2 = files w.
Proof.
  destruct response as [doc|]; cbn zeta.
  - rewrite !checkStatus_inline.
    destruct (after_fetch_spec sleepSecs self w w (fromstring doc) eq_refl eq_refl)
      as (Hr & Hf & Hiff & Hor).
    split; [|split; [discriminate|]].
    + intros d [= <-]. split; [|split; [reflexivity|]].
      * destruct (fromstring doc); exact Hr.
      * destruct (fromstring doc) as [root|e]; [|reflexivity].
        exact (checkStatus_parse_eq sleepSecs root self w).
    + destruct (fromstring doc); auto.
  - rewrite !checkStatus_poll.
    destruct (readFromUrl_Get (polled_location self url) (username self)
                (password self) w) as (w0 & fetched & E & Hs & Hf & Hrq).
    rewrite E.
    destruct (after_fetch_spec sleepSecs
                (set_statusLocation (polled_location self url) self) w w0 fetched Hs Hf)
      as (Hr & Hf' & Hiff & Hor).
    split; [discriminate|]. split.
    + intros _. split; [|split].
      * unfold status_requests. rewrite <- Hrq.
        destruct fetched; exact Hr.
      * cbn [polled_location statusLocation set_statusLocation username password].
        rewrite E.
        destruct self as [u v un pw vb p si st er sl di po]; reflexivity.
      * destruct fetched as [root|e]; [|reflexivity].
        exact (checkStatus_parse_eq sleepSecs root
                 (set_statusLocation (polled_location self url) self) w0).
    + destruct fetched; auto.
Qed.

(** ** Output retrieval *)

Lemma getOutput_step_no_reference (self : WPSExecution) (filepath : option string)
    (output : Output) (w : World) :
  reference output = None ->
  getOutput_step self filepath output w = (w, Ok filepath).
Proof. intros H. unfold getOutput_step. rewrite H. reflexivity. Qed.

Lemma getOutput_step_reference (self : WPSExecution) (filepath : option string)
    (output : Output) (url : string) (w : World) :
  reference output = Some url ->
  getOutput_step self filepath output w =
    let w1 := send (reference_request self url) w in
    match openURL (requests w) (reference_request self url) with
    | Raise e => (w1, Raise e)
    | Ok u =>
        match target filepath url with
        | Raise e => (w1, Raise e)
        | Ok path =>
            if writable path then
              match u with
              | Ok content => (store path content (store path "" w1), Ok (Some path))
              | Raise e => (store path "" w1, Raise e)
              end
            else (w1, Raise (Foreign "IOError"))
        end
    end.
Proof.
  intros H. unfold getOutput_step, reference_request, target, derived_filepath.
  rewrite H. unfold write_file, call_openURL.
  unfold mbind, StateErr_bind, result_bind, lift, modify, raise, mret, StateErr_ret.
  destruct (contains "?" url) eqn:Hq.
  - destruct (split_present _ _ Hq) as (base & query & rest & ->).
    cbn [index lookup list_lookup]. cbv beta iota zeta.
    destruct (openURL (requests w) _) as [u|e]; [|reflexivity].
    destruct filepath as [path|]; cbv beta iota zeta.
    + destruct (writable path); [|reflexivity].
      destruct u; reflexivity.
    + destruct (query_filepath query) as [path|e]; [|reflexivity].
      cbv beta iota zeta.
      destruct (writable path); [|reflexivity].
      destruct u; reflexivity.
  - cbv beta iota zeta.
    destruct (openURL (requests w) _) as [u|e]; [|reflexivity].
    destruct filepath as [path|]; cbv beta iota zeta.
    + destruct (writable path); [|reflexivity].
      destruct u; reflexivity.
    + destruct (base_filepath url) as [path|e]; [|reflexivity].
      cbv beta iota zeta.
      destruct (writable path); [|reflexivity].
      destruct u; reflexivity.
Qed.

Lemma references_cons (output : Output) (outputs : list Output) :
  references (output :: outputs) =
    match reference output with
    | Some url => url :: references outputs
    | None => references outputs
    end.
Proof. reflexivity. Qed.

Lemma getOutput_loop_cons (self : WPSExecution) (filepath : option string)
    (output : Output) (outputs : list Output) (w : World) :
  getOutput_loop self filepath (output :: outputs) w =
    match getOutput_step self filepath output w with
    | (w', Ok filepath') => getOutput_loop self filepath' outputs w'
    | (w', Raise e) => (w', Raise e)
    end.
Proof. reflexivity. Qed.

(** With the variable [filepath] bound to [path], the loop of [getOutput]
    only ever writes [path]; when it runs to its end it has sent one
    request per reference, in order, and [path] holds what the last
    reference returned. *)
Lemma getOutput_loop_bound (self : WPSExecution) (path : string)
    (outputs : list Output) (w : World) :
  let out := getOutput_loop self (Some path) outputs w in
  sleeps out.1 = sleeps w /\
  (forall other, other <> path -> files out.1 !! other = files w !! other) /\
  (out.2 = Ok tt ->
     requests out.1 = requests w ++ map (reference_request self) (references outputs) /\
     (references outputs = [] -> files out.1 = files w) /\
     (forall init url, references outputs = init ++ [url] ->
        exists content,
          openURL (requests w ++ map (reference_request self) init)
            (reference_request self url) = Ok (Ok content) /\
          files out.1 = <[path := content]> (files w))).
Proof.
  cbv zeta. revert w. induction outputs as [|output outputs IH]; intros w.
  - cbn. split; [reflexivity|]. split; [reflexivity|]. intros _.
    rewrite app_nil_r. split; [reflexivity|]. split; [reflexivity|].
    intros [|x init] url H; discriminate.
  - rewrite getOutput_loop_cons, references_cons.
    destruct (reference output) as [url|] eqn:Href.
    + rewrite (getOutput_step_reference _ _ _ _ _ Href). cbv zeta. cbn [target].
      destruct (openURL (requests w) (reference_request self url)) as [u|e] eqn:Hopen;
        [|cbn; split; [reflexivity|]; split; [reflexivity | discriminate]].
      destruct (writable path);
        [|cbn; split; [reflexivity|]; split; [reflexivity | discriminate]].
      destruct u as [content|e].
      * specialize (IH (store path content
                         (store path "" (send (reference_request self url) w)))).
        destruct IH as (Hsl & Hfiles & Hok).
        split; [exact Hsl|]. split.
        { intros other Hne. rewrite (Hfiles other Hne). cbn [files store send].
          rewrite !lookup_insert_ne by congruence. reflexivity. }
        intros Hr. destruct (Hok Hr) as (Hreq & Hnil & Hlast).
        split; [|split].
        { rewrite Hreq. cbn [requests store send map]. rewrite <- app_assoc.
          reflexivity. }
        { discriminate. }
        intros [|x init] urlN Hrefs.
        { injection Hrefs as <- Hrefs. exists content. split.
          - cbn [map]. rewrite app_nil_r. exact Hopen.
          - rewrite (Hnil Hrefs). cbn [files store send].
            apply insert_insert_eq. }
        { injection Hrefs as <- Hrefs.
          destruct (Hlast init urlN Hrefs) as (contentN & HopenN & HfilesN).
          exists contentN. split.
          - cbn [requests store send map] in HopenN.
            rewrite <- app_assoc in HopenN. exact HopenN.
          - rewrite HfilesN. cbn [files store send].
            rewrite !insert_insert_eq. reflexivity. }
      * cbn [fst snd files sleeps store send].
        split; [reflexivity|]. split; [|discriminate].
        intros other Hne. rewrite lookup_insert_ne by congruence. reflexivity.
    + rewrite (getOutput_step_no_reference _ _ _ _ Href). apply IH.
Qed.

(** Unbound, the variable [filepath] is bound by the first output with a
    reference, to the name derived from its URL: from there on the loop is
    the loop of a call given that name. *)
Lemma getOutput_loop_binds (self : WPSExecution) (outputs : list Output)
    (url0 : string) (urls : list string) (path : string) (w : World) :
  references outputs = url0 :: urls ->
  derived_filepath url0 = Ok path ->
  getOutput_loop self None outputs w = getOutput_loop self (Some path) outputs w.
Proof.
  intros Hrefs Hpath. induction outputs as [|output outputs IH]; [discriminate|].
  rewrite !getOutput_loop_cons. rewrite references_cons in Hrefs.
  destruct (reference output) as [url|] eqn:Href.
  - injection Hrefs as -> Hrefs.
    rewrite !(getOutput_step_reference _ _ _ _ _ Href). cbn [target].
    rewrite Hpath. reflexivity.
  - rewrite !(getOutput_step_no_reference _ _ _ _ Href). exact (IH Hrefs).
Qed.

Lemma getOutput_loop_underivable (self : WPSExecution) (outputs : list Output)
    (url0 : string) (urls : list string) (e : exn) (w : World) :
  references outputs = url0 :: urls ->
  derived_filepath url0 = Raise e ->
  files (getOutput_loop self None outputs w).1 = files w /\
  (getOutput_loop self None outputs w).2 <> Ok tt.
Proof.
  intros Hrefs Hpath. induction outputs as [|output outputs IH]; [discriminate|].
  rewrite !getOutput_loop_cons. rewrite references_cons in Hrefs.
  destruct (reference output) as [url|] eqn:Href.
  - injection Hrefs as -> Hrefs.
    rewrite !(getOutput_step_reference _ _ _ _ _ Href). cbn [target].
    rewrite Hpath. cbv zeta.
    destruct (openURL _ _); cbn; split; (reflexivity || discriminate).
  - rewrite !(getOutput_step_no_reference _ _ _ _ Href). exact (IH Hrefs).
Qed.

Lemma getOutput_succeeded (self : WPSExecution) (filepath : option string) (w : World) :
  status self = Some "ProcessSucceeded" ->
  getOutput filepath (self, w) =
    let out := getOutput_loop self filepath (processOutputs self) w in
    ((self, out.1), out.2).
Proof.
  intros Hst. unfold getOutput, on_world.
  unfold mbind, StateErr_bind, gets. cbn [fst snd].
  unfold isSucceded, status_is. rewrite Hst. cbn [String.eqb Ascii.eqb Bool.eqb].
  cbv zeta. destruct (getOutput_loop _ _ _ _); reflexivity.
Qed.

(** The name derived from [base?key=value] is [value], and the name
    derived from a URL without a query string is its last segment. *)
Lemma derived_filepath_query (base key value : string) :
  contains "?" base = false -> contains "?" key = false ->
  contains "?" value = false ->
  contains "=" key = false -> contains "=" value = false ->
  derived_filepath (base +:+ "?" +:+ key +:+ "=" +:+ value) = Ok value.
Proof.
  intros Hb Hk Hv Hk' Hv'. unfold derived_filepath.
  change (base +:+ "?" +:+ key +:+ "=" +:+ value)
    with (base +:+ String "?" (key +:+ String "=" value)).
  assert (Hq : contains "?" (key +:+ String "=" value) = false).
  { rewrite contains_app, Hk. cbn. exact Hv. }
  rewrite contains_app. cbn [contains]. rewrite Ascii.eqb_refl, orb_true_r.
  rewrite split_app_sep, (split_absent _ _ Hb), (split_absent _ _ Hq).
  cbn [app index lookup list_lookup]. unfold mbind, result_bind, query_filepath.
  rewrite split_app_sep, (split_absent _ _ Hk'), (split_absent _ _ Hv').
  reflexivity.
Qed.

Lemma derived_filepath_segment (dir name : string) :
  contains "?" dir = false -> contains "?" name = false ->
  contains "/" name = false ->
  derived_filepath (dir +:+ "/" +:+ name) = Ok name.
Proof.
  intros Hd Hn Hs. unfold derived_filepath.
  change (dir +:+ "/" +:+ name) with (dir +:+ String "/" name).
  rewrite contains_app, Hd. cbn [contains orb]. rewrite Hn.
  unfold base_filepath, index_last.
  rewrite split_app_sep, (split_absent _ _ Hs).
  pose proof (split_not_nil "/" dir) as Hne.
  destruct (split "/" dir) as [|h t]; [contradiction|].
  change ((h :: t) ++ [name]) with (h :: t ++ [name]).
  rewrite last_cons, last_snoc. reflexivity.
Qed.

(** C10: in a call of [getOutput] without a file path, the name derived
    from the first reference URL (the second piece of its query string
    split at [=] when the URL has a [?], else its last piece split at [/])
    is bound to [filepath] and the call goes on as the call given that
    name: no other file is written, whatever the later URLs, and when the
    call returns the file holds what the last reference returned. *)
Theorem getOutput_reuses_first_filepath (self : WPSExecution) (w : World)
    (url0 : string) (urls : list string) (path : string) :
  status self = Some "ProcessSucceeded" ->
  references (processOutputs self) = url0 :: urls ->
  derived_filepath url0 = Ok path ->
  let out := getOutput None (self, w) in
  out = getOutput (Some path) (self, w) /\
  out.1.1 = self /\
  (forall other, other <> path -> files out.1.2 !! other = files w !! other) /\
  (out.2 = Ok tt ->
     requests out.1.2 =
       requests w ++ map (reference_request self) (url0 :: urls) /\
     forall init url, url0 :: urls = init ++ [url] ->
       exists content,
         openURL (requests w ++ map (reference_request self) init)
           (reference_request self url) = Ok (Ok content) /\
         files out.1.2 = <[path := content]> (files w)) /\
  derived_filepath url0 =
    (if contains "?" url0
     then query ← index (split "?" url0) 1; index (split "=" query) 1
     else index_last (split "/" url0)) /\
  (forall base key value,
     url0 = base +:+ "?" +:+ key +:+ "=" +:+ value ->
     contains "?" base = false -> contains "?" key = false ->
     contains "?" value = false ->
     contains "=" key = false -> contains "=" value = false ->
     path = value) /\
  (forall dir name,
     url0 = dir +:+ "/" +:+ name ->
     contains "?" dir = false -> contains "?" name = false ->
     contains "/" name = false ->
     path = name).
Proof.
  intros Hst Hrefs Hpath.
  assert (Hquery : forall base key value,
            url0 = base +:+ "?" +:+ key +:+ "=" +:+ value ->
            contains "?" base = false -> contains "?" key = false ->
            contains "?" value = false ->
            contains "=" key = false -> contains "=" value = false ->
            path = value).
  { intros base key value -> Hb Hk Hv Hk' Hv'.
    rewrite (derived_filepath_query _ _ _ Hb Hk Hv Hk' Hv') in Hpath.
    now injection Hpath. }
  assert (Hsegment : forall dir name,
            url0 = dir +:+ "/" +:+ name ->
            contains "?" dir = false -> contains "?" name = false ->
            contains "/" name = false ->
            path = name).
  { intros dir name -> Hd Hn Hs.
    rewrite (derived_filepath_segment _ _ Hd Hn Hs) in Hpath.
    now injection Hpath. }
  cbv zeta.
  rewrite !(getOutput_succeeded _ _ _ Hst). cbv zeta.
  rewrite (getOutput_loop_binds _ _ _ _ _ w Hrefs Hpath).
  destruct (getOutput_loop_bound self path (processOutputs self) w)
    as (_ & Hfiles & Hok).
  cbn [fst snd]. rewrite Hrefs in Hok.
  split; [reflexivity|]. split; [reflexivity|]. split; [exact Hfiles|].
  split; [|split; [reflexivity | split; assumption]].
  intros Hr. destruct (Hok Hr) as (Hreq & _ & Hlast). split; assumption.
Qed.

(** * Further properties of the module *)

(** ** Status predicates *)

(** The three predicates agree: success is the status ProcessSucceeded and
    implies completion, and [isNotComplete()] is the negation of
    [isComplete()], raising when it raises. *)
Theorem status_predicates_agree (self : WPSExecution) :
  (isSucceded self = true <-> status self = Some "ProcessSucceeded") /\
  (isSucceded self = true -> isComplete self = Ok true) /\
  (forall b, isNotComplete self = Ok b <-> isComplete self = Ok (negb b)) /\
  (forall e, isNotComplete self = Raise e <-> isComplete self = Raise e).
Proof.
  clear -self.
  assert (Hs : isSucceded self = true <-> status self = Some "ProcessSucceeded").
  { unfold isSucceded, status_is. destruct (status self) as [s|]; [|split; discriminate].
    destruct (String.eqb_spec s "ProcessSucceeded") as [->|Hne]; split; try reflexivity;
      try discriminate. intros [= H]. contradiction. }
  split; [exact Hs|]. split.
  - intros H. apply Hs in H. unfold isComplete, status_is. rewrite H. reflexivity.
  - unfold isNotComplete, mbind, result_bind, mret, result_ret.
    destruct (isComplete self) as [c|e0]; split.
    + intros b. split; [intros [= <-]; now rewrite negb_involutive|].
      intros [= ->]. now rewrite negb_involutive.
    + intros e. split; discriminate.
    + intros b. split; discriminate.
    + intros e. split; intros [= ->]; reflexivity.
Qed.

(** ** Exception reports *)

(** An exception report completes an execution whose status is unset, and
    leaves the answer of [isComplete()] as it was when a status was set:
    a report received for a started job does not end the polling. *)
Theorem _parseExceptionReport_completion (root : Element) (self : WPSExecution) :
  isComplete (_parseExceptionReport root self).1 =
    match status self with
    | None => Ok true
    | Some _ => isComplete self
    end.
Proof.
  rewrite _parseExceptionReport_eq. cbn [fst].
  unfold isComplete, status_is.
  destruct self as [u v un pw vb p si st er sl di po].
  destruct st as [s|]; reflexivity.
Qed.

(** Errors are never reset: after two reports the list holds what it held,
    then the exceptions of the first report, then those of the second,
    and the second report does not change the status. *)
Theorem _parseExceptionReport_twice (root1 root2 : Element) (self : WPSExecution) :
  let self1 := (_parseExceptionReport root1 self).1 in
  let self2 := (_parseExceptionReport root2 self1).1 in
  errors self2 =
    errors self ++ map WPSException_init (exception_elements root1)
                ++ map WPSException_init (exception_elements root2) /\
  status self2 = status self1 /\
  length (errors self2) =
    (length (errors self) + length (exception_elements root1)
     + length (exception_elements root2))%nat.
Proof.
  cbv zeta. rewrite !_parseExceptionReport_eq. cbn [fst].
  destruct self as [u v un pw vb p si st er sl di po].
  cbn [errors status set_errors set_status].
  rewrite <- app_assoc. split; [reflexivity|]. split.
  - destruct st; reflexivity.
  - rewrite !length_app, !length_map. lia.
Qed.

(** ** Dispatch of a response *)

Lemma local_name (uri name : string) :
  contains "}" uri = false ->
  split "}" (qualify uri name) = ("{" +:+ uri) :: split "}" name.
Proof.
  intros Hu. unfold qualify.
  change ("{" +:+ uri +:+ "}" +:+ name) with (("{" +:+ uri) +:+ String "}" name).
  rewrite split_app_sep.
  assert (H : contains "}" ("{" +:+ uri) = false) by exact Hu.
  rewrite (split_absent _ _ H). reflexivity.
Qed.

(** [parseResponse] dispatches on the local name of the root alone: with
    any namespace, ExecuteResponse goes to [_parseExecuteResponse],
    ExceptionReport to [_parseExceptionReport], and any other name leaves
    the execution as it is. *)
Theorem parseResponse_dispatch (uri name : string) (response : Element)
    (self : WPSExecution) :
  tag response = qualify uri name ->
  contains "}" uri = false -> contains "}" name = false ->
  parseResponse response self =
    if String.eqb name "ExecuteResponse" then _parseExecuteResponse response self
    else if String.eqb name "ExceptionReport" then _parseExceptionReport response self
    else (self, Ok tt).
Proof.
  intros Ht Hu Hn. unfold parseResponse.
  rewrite Ht, (local_name _ _ Hu), (split_absent _ _ Hn).
  change (index ["{" +:+ uri; name] 1) with (Ok name).
  unfold mbind, StateErr_bind, lift.
  destruct (String.eqb name "ExecuteResponse"); [reflexivity|].
  destruct (String.eqb name "ExceptionReport"); reflexivity.
Qed.

(** ** What a parse of an ExecuteResponse leaves *)

(** The state [_parseExecuteResponse] reaches before it looks for the
    status element. *)
Lemma _parseExecuteResponse_steps (root : Element) (self : WPSExecution) :
  let self0 := set_statusLocation (get root "statusLocation")
                 (set_serviceInstance (get root "serviceInstance") self) in
  _parseExecuteResponse root self =
    match find (nspath "Status/*" WPS_NAMESPACE) root with
    | None => (self0, Raise AttributeError)
    | Some statusEl =>
        match index (split "}" (tag statusEl)) 1 with
        | Raise e => (self0, Raise e)
        | Ok st =>
            match Process_init (find (nspath "Process" WPS_NAMESPACE) root)
                    (verbose self) with
            | Raise e => (set_status (Some st) self0, Raise e)
            | Ok p =>
                let self1 := set_process (Some p) (set_status (Some st) self0) in
                let self2 :=
                  match find (nspath "ExceptionReport" DEFAULT_OWS_NAMESPACE) statusEl with
                  | Some exceptionEl =>
                      set_errors (errors self ++ map WPSException_init
                                                    (exception_elements exceptionEl)) self1
                  | None => self1
                  end in
                match append_to Input_init (input_elements root)
                        dataInputs set_dataInputs self2 with
                | (self3, Raise e) => (self3, Raise e)
                | (self3, Ok _) =>
                    append_to Output_init (output_elements root)
                      processOutputs set_processOutputs self3
                end
            end
        end
    end.
Proof.
  cbv zeta. unfold _parseExecuteResponse, input_elements, output_elements.
  unfold mbind, StateErr_bind, modify, lift, gets. cbv beta iota.
  destruct (find (nspath "Status/*" WPS_NAMESPACE) root) as [statusEl|];
    [|reflexivity].
  cbn [deref]. destruct (index (split "}" (tag statusEl)) 1) as [st|e]; [|reflexivity].
  destruct self as [u v un pw vb p0 si st0 er sl di po].
  cbn [verbose set_status set_statusLocation set_serviceInstance].
  destruct (Process_init _ vb) as [p|e]; [|reflexivity].
  destruct (find (nspath "ExceptionReport" DEFAULT_OWS_NAMESPACE) statusEl)
    as [exceptionEl|].
  - rewrite _parseExceptionReport_eq. cbn. reflexivity.
  - reflexivity.
Qed.

Lemma _parseExecuteResponse_frame (root : Element)
    (self : WPSExecution) :
  let self' := (_parseExecuteResponse root self).1 in
  statusLocation self' = get root "statusLocation" /\
  serviceInstance self' = get root "serviceInstance" /\
  url self' = url self /\ username self' = username self /\
  password self' = password self /\ version self' = version self /\
  verbose self' = verbose self.
Proof.
  cbv zeta. rewrite _parseExecuteResponse_steps. cbv zeta.
  destruct self as [u v un pw vb p0 si st0 er sl di po].
  destruct (find (nspath "Status/*" WPS_NAMESPACE) root) as [statusEl|];
    [|cbn; repeat split].
  destruct (index _ 1) as [st|e]; [|cbn; repeat split].
  destruct (Process_init _ _) as [p|e]; [|cbn; repeat split].
  unfold append_to.
  destruct (find (nspath "ExceptionReport" DEFAULT_OWS_NAMESPACE) statusEl);
    cbn [dataInputs processOutputs set_errors set_status set_process
         set_statusLocation set_serviceInstance errors];
    destruct (append_each Input_init _ _) as [acc [[]|e']];
    try (cbn; repeat split; fail);
    cbn [dataInputs processOutputs set_dataInputs];
    destruct (append_each Output_init _ _) as [acc' r']; cbn; repeat split.
Qed.

(** Every parse of an ExecuteResponse, returning or raising, stores the
    [statusLocation] and [serviceInstance] attributes of the root, [None]
    when the root has none: a response without [statusLocation] erases
    the location polled so far. The connection fields are left alone. *)
Theorem _parseExecuteResponse_overwrites_location (root : Element)
    (self : WPSExecution) :
  let self' := (_parseExecuteResponse root self).1 in
  statusLocation self' = get root "statusLocation" /\
  serviceInstance self' = get root "serviceInstance" /\
  url self' = url self /\ username self' = username self /\
  password self' = password self /\ version self' = version self /\
  verbose self' = verbose self.
Proof. exact (_parseExecuteResponse_frame root self). Qed.

(** An ExecuteResponse with a status but without a [Process] element
    raises AttributeError after the status was stored: the execution shows
    the new status, with its process and lists as before. *)
Theorem _parseExecuteResponse_no_process (root statusEl : Element) (st : string)
    (self : WPSExecution) :
  find (nspath "Status/*" WPS_NAMESPACE) root = Some statusEl ->
  index (split "}" (tag statusEl)) 1 = Ok st ->
  find (nspath "Process" WPS_NAMESPACE) root = None ->
  _parseExecuteResponse root self =
    (set_status (Some st)
       (set_statusLocation (get root "statusLocation")
          (set_serviceInstance (get root "serviceInstance") self)),
     Raise AttributeError).
Proof.
  intros Hs Hst Hp. rewrite _parseExecuteResponse_steps. cbv zeta.
  rewrite Hs, Hst, Hp. reflexivity.
Qed.

(** When a parse of an ExecuteResponse returns, the status is the local
    name of the first child of [Status] (never the synthetic Exception,
    also with a nested report), the process is the one of the document,
    and the exceptions of a report nested in the status element were
    appended to the errors. *)
Theorem _parseExecuteResponse_result (root : Element) (self self' : WPSExecution) :
  _parseExecuteResponse root self = (self', Ok tt) ->
  exists statusEl st p,
    find (nspath "Status/*" WPS_NAMESPACE) root = Some statusEl /\
    index (split "}" (tag statusEl)) 1 = Ok st /\
    Process_init (find (nspath "Process" WPS_NAMESPACE) root) (verbose self) = Ok p /\
    status self' = Some st /\ process self' = Some p /\
    errors self' =
      errors self ++
      match find (nspath "ExceptionReport" DEFAULT_OWS_NAMESPACE) statusEl with
      | Some exceptionEl => map WPSException_init (exception_elements exceptionEl)
      | None => []
      end.
Proof.
  rewrite _parseExecuteResponse_steps. cbv zeta.
  destruct (find (nspath "Status/*" WPS_NAMESPACE) root) as [statusEl|] eqn:Hs;
    [|discriminate].
  destruct (index _ 1) as [st|e] eqn:Hst; [|discriminate].
  destruct (Process_init _ _) as [p|e] eqn:Hp; [|discriminate].
  intros H. exists statusEl, st, p.
  split; [reflexivity|]. split; [exact Hst|]. split; [reflexivity|]. clear Hp Hst Hs.
  revert H. unfold append_to.
  destruct self as [u v un pw vb p0 si st0 er sl di po].
  destruct (find (nspath "ExceptionReport" DEFAULT_OWS_NAMESPACE) statusEl);
    cbn [dataInputs processOutputs set_errors set_status set_process
         set_statusLocation set_serviceInstance errors];
    destruct (append_each Input_init _ _) as [acc [[]|e']];
    try discriminate;
    cbn [dataInputs processOutputs set_dataInputs];
    destruct (append_each Output_init _ _) as [acc' r'];
    intros [= <- ->]; cbn; rewrite ?app_nil_r; repeat split.
Qed.

(** ** The value classes *)

Lemma extend_spec {A B} (f : A -> result B) (l : list A) (acc acc' : list B) :
  extend f l acc = Ok acc' ->
  exists ys, mapM f l = Ok ys /\ acc' = acc ++ ys.
Proof.
  unfold extend. intros H.
  destruct (append_each_extends f l acc) as (ys & Hacc & Hok).
  destruct (append_each f l acc) as [acc0 [[]|e]]; [|discriminate].
  injection H as <-. exists ys. split; [exact (Hok eq_refl) | exact Hacc].
Qed.

Lemma InputOutput_init_fresh (element : Element) (io : InputOutput) :
  InputOutput_init element = Ok io ->
  allowedValues io = [] /\ supportedValues io = [] /\
  defaultValue io = None /\ dataType io = None.
Proof.
  unfold InputOutput_init, mbind, result_bind, mret, result_ret.
  destruct (parseText _); [|discriminate].
  destruct (parseText _); [|discriminate].
  destruct (parseText _); [|discriminate].
  intros [= <-]. repeat split.
Qed.

Lemma _parseLiteralData_frame (self self' : InputOutput) (element : Element)
    (name : string) :
  _parseLiteralData self element name = Ok self' ->
  supportedValues self' = supportedValues self /\
  (find (plain name) element = None -> self' = self) /\
  (forall literalDataElement,
     find (plain name) element = Some literalDataElement ->
     exists dt values,
       dataType self' = Some dt /\
       mapM (fun value => getTypedValue (Some dt) (text value))
         (findall (nspath "AllowedValues/Value" DEFAULT_OWS_NAMESPACE)
            literalDataElement) = Ok values /\
       allowedValues self' = allowedValues self ++ values).
Proof.
  unfold _parseLiteralData.
  destruct (find (plain name) element) as [lit|].
  - unfold mbind, result_bind, mret, result_ret.
    destruct (deref (find _ lit)) as [dte|]; [|discriminate].
    destruct (deref (get dte _)) as [ref|]; [|discriminate].
    destruct (index (split ":" ref) 1) as [dt|]; [|discriminate].
    destruct (extend _ _ _) as [allowed|] eqn:Hext; [|discriminate].
    apply extend_spec in Hext. destruct Hext as (values & Hvalues & ->).
    destruct self as [i t a al su de dty]. cbn [allowedValues set_dataType] in *.
    destruct (find (plain "DefaultValue") lit) as [dv|].
    + destruct (getTypedValue _ (text dv)); [|discriminate].
      intros [= <-]. cbn. split; [reflexivity|]. split; [discriminate|].
      intros l [= <-]. exists dt, values. repeat split. exact Hvalues.
    + intros [= <-]. cbn. split; [reflexivity|]. split; [discriminate|].
      intros l [= <-]. exists dt, values. repeat split. exact Hvalues.
  - intros [= <-]. split; [reflexivity|]. split; [reflexivity | discriminate].
Qed.

Lemma _parseComplexData_frame (self self' : InputOutput) (element : Element)
    (name : string) :
  _parseComplexData self element name = Ok self' ->
  allowedValues self' = allowedValues self /\
  (find (plain name) element = None -> self' = self) /\
  (forall complexDataElement,
     find (plain name) element = Some complexDataElement ->
     dataType self' = Some "ComplexData" /\
     exists formats,
       mapM ComplexData_of_format
         (findall (plain "Supported/Format") complexDataElement) = Ok formats /\
       supportedValues self' = supportedValues self ++ formats).
Proof.
  unfold _parseComplexData.
  destruct (find (plain name) element) as [cd|].
  - unfold mbind, result_bind, mret, result_ret.
    destruct (extend _ _ _) as [supported|] eqn:Hext; [|discriminate].
    apply extend_spec in Hext. destruct Hext as (formats & Hformats & ->).
    destruct self as [i t a al su de dty]. cbn [supportedValues set_dataType] in *.
    destruct (find (plain "Default/Format") cd) as [df|].
    + destruct (ComplexData_of_format df); [|discriminate].
      intros [= <-]. cbn. split; [reflexivity|]. split; [discriminate|].
      intros c [= <-]. split; [reflexivity|]. exists formats. split; auto.
    + intros [= <-]. cbn. split; [reflexivity|]. split; [discriminate|].
      intros c [= <-]. split; [reflexivity|]. exists formats. split; auto.
  - intros [= <-]. split; [reflexivity|]. split; [reflexivity | discriminate].
Qed.

(** The kind of a parsed input follows the elements present: allowed
    values only come from a [LiteralData] child and supported formats only
    from a [ComplexData] child; with a [ComplexData] child the data type
    is "ComplexData", also when a [LiteralData] child is there too; with
    neither child the input has no data type and no default. *)
Theorem Input_init_kinds (inputElement : Element) (i : Input) :
  Input_init inputElement = Ok i ->
  (find (plain "LiteralData") inputElement = None -> allowedValues (in_io i) = []) /\
  (find (plain "ComplexData") inputElement = None -> supportedValues (in_io i) = []) /\
  (find (plain "ComplexData") inputElement <> None ->
     dataType (in_io i) = Some "ComplexData") /\
  (find (plain "LiteralData") inputElement = None ->
   find (plain "ComplexData") inputElement = None ->
   dataType (in_io i) = None /\ defaultValue (in_io i) = None).
Proof.
  unfold Input_init. unfold mbind at 1 2 3 4 5. unfold result_bind at 1 2 3 4 5.
  destruct (InputOutput_init inputElement) as [io|] eqn:Hio; [|discriminate].
  apply InputOutput_init_fresh in Hio. destruct Hio as (Hal & Hsu & Hde & Hdt).
  destruct (match get inputElement "minOccurs" with Some _ => _ | None => _ end);
    [|discriminate].
  destruct (match get inputElement "maxOccurs" with Some _ => _ | None => _ end);
    [|discriminate].
  destruct (_parseLiteralData io inputElement "LiteralData") as [io1|] eqn:H1;
    [|discriminate].
  destruct (_parseComplexData io1 inputElement "ComplexData") as [io2|] eqn:H2;
    [|discriminate].
  intros [= <-]. cbn [in_io].
  apply _parseLiteralData_frame in H1. destruct H1 as (Hsu1 & Habs1 & _).
  apply _parseComplexData_frame in H2. destruct H2 as (Hal2 & Habs2 & Hpres2).
  split; [|split; [|split]].
  - intros Hn. rewrite Hal2, (Habs1 Hn). exact Hal.
  - intros Hn. rewrite (Habs2 Hn), Hsu1. exact Hsu.
  - intros Hn. destruct (find (plain "ComplexData") inputElement) as [c|];
      [|contradiction]. exact (proj1 (Hpres2 c eq_refl)).
  - intros Hl Hc. rewrite (Habs2 Hc), (Habs1 Hl). split; assumption.
Qed.

(** The occurrence bounds of an input are the integers of its [minOccurs]
    and [maxOccurs] attributes, and -1 for an attribute that is
    missing. *)
Theorem Input_init_occurs (inputElement : Element) (i : Input) :
  Input_init inputElement = Ok i ->
  match get inputElement "minOccurs" with
  | Some v => int v = Ok (minOccurs i)
  | None => minOccurs i = (-1)%Z
  end /\
  match get inputElement "maxOccurs" with
  | Some v => int v = Ok (maxOccurs i)
  | None => maxOccurs i = (-1)%Z
  end.
Proof.
  unfold Input_init. unfold mbind at 1 2 3 4 5. unfold result_bind at 1 2 3 4 5.
  destruct (InputOutput_init inputElement) as [io|]; [|discriminate].
  destruct (get inputElement "minOccurs") as [v|];
    destruct (get inputElement "maxOccurs") as [v'|];
    cbn [mret result_ret];
    repeat match goal with
           | |- context [match int ?x with _ => _ end] =>
               destruct (int x); [|discriminate]
           end;
    destruct (_parseLiteralData _ _ _); try discriminate;
    destruct (_parseComplexData _ _ _); try discriminate;
    intros [= <-]; split; reflexivity.
Qed.

(** A [LiteralData] element must carry a [DataType] child whose
    [reference] attribute has a colon: without the child or the attribute
    the parse raises AttributeError, without the colon IndexError. *)
Theorem _parseLiteralData_malformed (self : InputOutput) (element : Element)
    (name : string) (literalDataElement : Element) :
  find (plain name) element = Some literalDataElement ->
  let dataType := find (nspath "DataType" DEFAULT_OWS_NAMESPACE) literalDataElement in
  (dataType = None -> _parseLiteralData self element name = Raise AttributeError) /\
  (forall dataTypeElement,
     dataType = Some dataTypeElement ->
     get dataTypeElement (qualify DEFAULT_OWS_NAMESPACE "reference") = None ->
     _parseLiteralData self element name = Raise AttributeError) /\
  (forall dataTypeElement ref,
     dataType = Some dataTypeElement ->
     get dataTypeElement (qualify DEFAULT_OWS_NAMESPACE "reference") = Some ref ->
     contains ":" ref = false ->
     _parseLiteralData self element name = Raise IndexError).
Proof.
  intros Hl. cbv zeta. unfold _parseLiteralData. rewrite Hl.
  change (path_string (nspath "reference" DEFAULT_OWS_NAMESPACE))
    with (qualify DEFAULT_OWS_NAMESPACE "reference").
  split; [|split].
  - intros ->. reflexivity.
  - intros dte -> Hr. cbn [deref mbind result_bind]. rewrite Hr. reflexivity.
  - intros dte ref -> Hr Hc. cbn [deref mbind result_bind]. rewrite Hr.
    cbn [deref]. unfold mbind at 1. unfold result_bind at 1.
    rewrite (split_absent _ _ Hc). reflexivity.
Qed.

(** A parsed output carries the [href] of its [Reference] child, if any,
    and the text of its [Data/ComplexData] child, if any; with inline data
    the MIME type is that of the [ComplexData] element, which replaces the
    one of the reference, and the data type is "ComplexData". *)
Theorem Output_init_result (outputElement : Element) (o : Output) :
  Output_init outputElement = Ok o ->
  let referenceElement := find (nspath "Reference" WPS_NAMESPACE) outputElement in
  reference o = referenceElement ≫= (fun el => get el "href") /\
  match find (nspath "Data" WPS_NAMESPACE) outputElement
        ≫= find (nspath "ComplexData" WPS_NAMESPACE) with
  | Some complexDataElement =>
      data o = text complexDataElement /\
      mimeType o = get complexDataElement "mimeType" /\
      dataType (out_io o) = Some "ComplexData"
  | None =>
      data o = None /\
      mimeType o = referenceElement ≫= (fun el => get el "mimeType")
  end.
Proof.
  unfold Output_init. unfold mbind at 1. unfold result_bind at 1.
  destruct (InputOutput_init outputElement) as [io|]; [|discriminate].
  set (referenceElement := find (nspath "Reference" WPS_NAMESPACE) outputElement).
  assert (Hpair :
    (let '(reference, mimeType) :=
       match referenceElement with
       | Some el => (get el "href", get el "mimeType")
       | None => (None, None)
       end in
     (reference, mimeType)) =
    (referenceElement ≫= (fun el => get el "href"),
     referenceElement ≫= (fun el => get el "mimeType"))).
  { destruct referenceElement; reflexivity. }
  destruct (match referenceElement with
            | Some el => (get el "href", get el "mimeType")
            | None => (None, None)
            end) as [r m].
  injection Hpair as -> ->.
  unfold mbind at 1 2. unfold result_bind at 1 2.
  destruct (_parseLiteralData io outputElement "LiteralData") as [io1|]; [|discriminate].
  destruct (_parseComplexData io1 outputElement "ComplexOutput") as [io2|];
    [|discriminate].
  cbv zeta.
  destruct (find (nspath "Data" WPS_NAMESPACE) outputElement) as [d|]; cbn [mbind option_bind].
  - destruct (find (nspath "ComplexData" WPS_NAMESPACE) d) as [c|];
      intros [= <-]; cbn; repeat split.
  - intros [= <-]; cbn; repeat split.
Qed.

(** [Process] cannot be built from a lookup that found nothing; built from
    an element, it reads its flags as "present and not empty", so that
    [statusSupported="false"] gives a true flag, and it owns new lists
    with the inputs and outputs found under the un-namespaced paths
    [DataInputs/Input] and [ProcessOutputs/Output]. *)
Theorem Process_init_result (verbose : bool) :
  Process_init None verbose = Raise AttributeError /\
  forall el p, Process_init (Some el) verbose = Ok p ->
    p_root p = el /\
    (statusSupported p = true <->
       exists s, get el "statusSupported" = Some s /\ s <> "") /\
    (storeSupported p = true <->
       exists s, get el "storeSupported" = Some s /\ s <> "") /\
    (get el "statusSupported" = Some "false" -> statusSupported p = true) /\
    mapM Input_init (findall (plain "DataInputs/Input") el) = Ok (p_dataInputs p) /\
    mapM Output_init (findall (plain "ProcessOutputs/Output") el)
      = Ok (p_processOutputs p).
Proof.
  split; [reflexivity|]. intros el p.
  assert (Htruthy : forall v, truthy v = true <-> exists s, v = Some s /\ s <> "").
  { intros [s|]; cbn.
    - destruct (String.eqb_spec s ""); cbn; split.
      + discriminate.
      + intros (s' & [= <-] & Hne). contradiction.
      + intros _. eauto.
      + reflexivity.
    - split; [discriminate|]. intros (s & H & _). discriminate. }
  unfold Process_init. cbn [deref]. unfold mbind, result_bind, mret, result_ret.
  destruct (parseText _); [|discriminate].
  destruct (parseText _); [|discriminate].
  destruct (parseText _); [|discriminate].
  destruct (extend Input_init _ _) as [ins|] eqn:Hi; [|discriminate].
  destruct (extend Output_init _ _) as [outs|] eqn:Ho; [|discriminate].
  apply extend_spec in Hi, Ho.
  destruct Hi as (ins' & Hi & ->). destruct Ho as (outs' & Ho & ->).
  intros [= <-]. cbn.
  split; [reflexivity|]. split; [apply Htruthy|]. split; [apply Htruthy|].
  split; [intros ->; reflexivity|]. split; assumption.
Qed.

(** ** The transport *)

(** [_readFromUrl] knows the methods 'Get' and 'Post' only: any other
    method raises without sending anything. A 'Post' sends exactly one
    request, to the URL given and with the data given, and returns the
    document parsed from what the server answered. *)
Theorem _readFromUrl_methods (url : option string) (data : payload) (method : string)
    (username password : option string) (w : World) :
  (method <> "Get" -> method <> "Post" ->
   _readFromUrl url data method username password w =
     (w, Raise (PyException ("Unrecognized HTTP method: " +:+ method)))) /\
  (method = "Post" ->
   let rq := mkRequest url data "Post" username password in
   _readFromUrl url data method username password w =
     (send rq w,
      match openURL (requests w) rq with
      | Ok (Ok content) => fromstring content
      | Ok (Raise e) => Raise e
      | Raise e => Raise e
      end)).
Proof.
  split.
  - intros H1 H2. unfold _readFromUrl.
    apply String.eqb_neq in H1, H2. rewrite H1, H2. reflexivity.
  - intros ->. cbv zeta. unfold _readFromUrl. cbn [String.eqb Ascii.eqb Bool.eqb].
    unfold mbind, StateErr_bind, call_openURL, lift.
    destruct (openURL (requests w) _) as [[content|e]|e]; reflexivity.
Qed.

Lemma _readFromUrl_Post (url : option string) (data : payload)
    (username password : option string) (w : World) :
  _readFromUrl url data "Post" username password w =
    (send (mkRequest url data "Post" username password) w,
     match openURL (requests w) (mkRequest url data "Post" username password) with
     | Ok (Ok content) => fromstring content
     | Ok (Raise e) => Raise e
     | Raise e => Raise e
     end).
Proof.
  unfold _readFromUrl. cbn [String.eqb Ascii.eqb Bool.eqb].
  unfold mbind, StateErr_bind, call_openURL, lift.
  destruct (openURL (requests w) _) as [[content|e]|e]; reflexivity.
Qed.

Lemma submitRequest_eq (request : string) (self : WPSExecution) (w : World) :
  let rq := mkRequest (url self) (Body request) "Post" (username self) (password self) in
  submitRequest request (self, w) =
    ((self, send rq w),
     match openURL (requests w) rq with
     | Ok (Ok content) => fromstring content
     | Ok (Raise e) => Raise e
     | Raise e => Raise e
     end).
Proof.
  cbv zeta. unfold submitRequest, readFromUrl, on_world.
  unfold mbind at 1. unfold StateErr_bind at 1. unfold gets. cbn [fst snd].
  rewrite _readFromUrl_Post. reflexivity.
Qed.

(** [submitRequest] posts the request once to the URL of the execution,
    with its credentials, and changes neither the execution nor the files
    and sleeps of the world. *)
Theorem submitRequest_posts_once (request : string) (self : WPSExecution) (w : World) :
  let rq := mkRequest (url self) (Body request) "Post" (username self) (password self) in
  submitRequest request (self, w) =
    ((self, send rq w),
     match openURL (requests w) rq with
     | Ok (Ok content) => fromstring content
     | Ok (Raise e) => Raise e
     | Raise e => Raise e
     end).
Proof. exact (submitRequest_eq request self w). Qed.

(** A poll that reads a document with an unknown root into an execution
    whose status is still unset raises the unknown-status error: the
    document is ignored, and [isComplete()] has no status to judge. *)
Theorem checkStatus_unknown_document (url : option string) (doc : string)
    (sleepSecs : N) (response : Element) (uri rootTag : string) (rest : list string)
    (self : WPSExecution) (w : World) :
  fromstring doc = Ok response ->
  split "}" (tag response) = uri :: rootTag :: rest ->
  rootTag <> "ExecuteResponse" -> rootTag <> "ExceptionReport" ->
  status self = None ->
  checkStatus url (Some doc) sleepSecs (self, w) =
    ((self, w), Raise (unknown_status_error self)).
Proof.
  intros Hdoc Hsplit H1 H2 Hst.
  rewrite checkStatus_inline, Hdoc. unfold checkStatus_parse, on_self.
  unfold mbind, StateErr_bind. cbn [fst snd].
  rewrite (parseResponse_unknown_root response self uri rootTag rest Hsplit H1 H2).
  unfold gets, lift. cbn [fst].
  unfold isComplete, unknown_status_error, status_is. rewrite Hst. reflexivity.
Qed.

(** ** More on output retrieval *)

Lemma getOutput_loop_no_references (self : WPSExecution) (filepath : option string)
    (outputs : list Output) (w : World) :
  references outputs = [] ->
  getOutput_loop self filepath outputs w = (w, Ok tt).
Proof.
  induction outputs as [|output outputs IH]; [reflexivity|].
  rewrite references_cons, getOutput_loop_cons.
  destruct (reference output) as [url|] eqn:Href; [discriminate|].
  intros H. rewrite (getOutput_step_no_reference _ _ _ _ Href). exact (IH H).
Qed.

Lemma getOutput_loop_first_underivable (self : WPSExecution) (outputs : list Output)
    (url0 : string) (urls : list string) (e : exn) (w : World) :
  references outputs = url0 :: urls ->
  derived_filepath url0 = Raise e ->
  getOutput_loop self None outputs w =
    (send (reference_request self url0) w,
     match openURL (requests w) (reference_request self url0) with
     | Ok _ => Raise e
     | Raise e' => Raise e'
     end).
Proof.
  intros Hrefs Hpath. induction outputs as [|output outputs IH]; [discriminate|].
  rewrite getOutput_loop_cons. rewrite references_cons in Hrefs.
  destruct (reference output) as [url|] eqn:Href.
  - injection Hrefs as -> Hrefs.
    rewrite (getOutput_step_reference _ _ _ _ _ Href). cbn [target].
    rewrite Hpath. cbv zeta. destruct (openURL _ _); reflexivity.
  - rewrite (getOutput_step_no_reference _ _ _ _ Href). exact (IH Hrefs).
Qed.

(** Given a file path, [getOutput] writes every referenced output to that
    one file: no other file changes, the execution is not touched, and
    when the call returns one request per reference was sent, in order,
    and the file holds what the last reference returned. *)
Theorem getOutput_explicit_filepath (self : WPSExecution) (w : World) (path : string) :
  status self = Some "ProcessSucceeded" ->
  let out := getOutput (Some path) (self, w) in
  out.1.1 = self /\ sleeps out.1.2 = sleeps w /\
  (forall other, other <> path -> files out.1.2 !! other = files w !! other) /\
  (out.2 = Ok tt ->
     requests out.1.2 =
       requests w ++ map (reference_request self) (references (processOutputs self)) /\
     forall init url, references (processOutputs self) = init ++ [url] ->
       exists content,
         openURL (requests w ++ map (reference_request self) init)
           (reference_request self url) = Ok (Ok content) /\
         files out.1.2 = <[path := content]> (files w)).
Proof.
  intros Hst. cbv zeta. rewrite (getOutput_succeeded _ _ _ Hst). cbv zeta.
  destruct (getOutput_loop_bound self path (processOutputs self) w)
    as (Hsl & Hfiles & Hok).
  cbn [fst snd]. split; [reflexivity|]. split; [exact Hsl|]. split; [exact Hfiles|].
  intros Hr. destruct (Hok Hr) as (Hreq & _ & Hlast). split; assumption.
Qed.

(** When no output carries a reference (the results are inline, or not
    there yet), [getOutput] on a succeeded execution returns without
    sending a request or writing a file, with or without a file path. *)
Theorem getOutput_without_references (self : WPSExecution) (w : World)
    (filepath : option string) :
  status self = Some "ProcessSucceeded" ->
  references (processOutputs self) = [] ->
  getOutput filepath (self, w) = ((self, w), Ok tt).
Proof.
  intros Hst Hrefs. rewrite (getOutput_succeeded _ _ _ Hst). cbv zeta.
  rewrite (getOutput_loop_no_references _ _ _ _ Hrefs). reflexivity.
Qed.

Lemma derived_filepath_no_equals (base query : string) :
  contains "?" base = false -> contains "?" query = false ->
  contains "=" query = false ->
  derived_filepath (base +:+ "?" +:+ query) = Raise IndexError /\
  forall self, reference_request self (base +:+ "?" +:+ query) =
    mkRequest (Some base) (Body query) "Get" (username self) (password self).
Proof.
  intros Hb Hq He. unfold derived_filepath, reference_request.
  change (base +:+ "?" +:+ query) with (base +:+ String "?" query).
  rewrite contains_app. cbn [contains]. rewrite Ascii.eqb_refl, orb_true_r.
  rewrite split_app_sep, (split_absent _ _ Hb), (split_absent _ _ Hq).
  cbn [app index lookup list_lookup]. unfold mbind, result_bind, query_filepath.
  rewrite (split_absent _ _ He). split; reflexivity.
Qed.

(** Without a file path, a first reference URL whose query string has no
    [=] gives no file name: the request for it is sent, and then, unless
    the transport itself failed, the call raises IndexError; no file is
    written and the later outputs are not fetched. *)
Theorem getOutput_query_without_value (self : WPSExecution) (w : World)
    (base query : string) (urls : list string) :
  status self = Some "ProcessSucceeded" ->
  references (processOutputs self) = (base +:+ "?" +:+ query) :: urls ->
  contains "?" base = false -> contains "?" query = false ->
  contains "=" query = false ->
  let rq := mkRequest (Some base) (Body query) "Get" (username self) (password self) in
  getOutput None (self, w) =
    ((self, send rq w),
     match openURL (requests w) rq with
     | Ok _ => Raise IndexError
     | Raise e => Raise e
     end).
Proof.
  intros Hst Hrefs Hb Hq He. cbv zeta.
  destruct (derived_filepath_no_equals base query Hb Hq He) as (Hd & Hrq).
  rewrite (getOutput_succeeded _ _ _ Hst). cbv zeta.
  rewrite (getOutput_loop_first_underivable _ _ _ _ _ w Hrefs Hd), Hrq.
  reflexivity.
Qed.

(** ** More on the request builder *)

Lemma buildInput_cases (input : string * InputValue) :
  match input.2 with
  | Complex (Raise e) => buildInput input = Raise e
  | _ => exists rest,
      buildInput input =
        Ok (Elem (qualify WPS_NAMESPACE "Input") ∅ None
              (Elem (qualify DEFAULT_OWS_NAMESPACE "Identifier") ∅ (Some input.1) []
               :: rest))
  end.
Proof.
  destruct input as [key [val|[xml|e]]]; cbn [snd fst].
  - eexists. reflexivity.
  - eexists. reflexivity.
  - reflexivity.
Qed.

Lemma mapM_buildInput_cases (inputs : list (string * InputValue)) :
  match first_failure inputs with
  | Some e => mapM buildInput inputs = Raise e
  | None => exists inputElements,
      mapM buildInput inputs = Ok inputElements /\
      Forall2 (fun input el =>
                 tag el = qualify WPS_NAMESPACE "Input" /\
                 find (nspath "Identifier" DEFAULT_OWS_NAMESPACE) el ≫= text
                   = Some input.1)
        inputs inputElements
  end.
Proof.
  induction inputs as [|input inputs IH]; [exists []; split; [reflexivity | constructor]|].
  pose proof (buildInput_cases input) as Hin.
  assert (Hok : forall rest,
            buildInput input =
              Ok (Elem (qualify WPS_NAMESPACE "Input") ∅ None
                    (Elem (qualify DEFAULT_OWS_NAMESPACE "Identifier") ∅
                       (Some input.1) [] :: rest)) ->
            match first_failure inputs with
            | Some e => mapM buildInput (input :: inputs) = Raise e
            | None => exists inputElements,
                mapM buildInput (input :: inputs) = Ok inputElements /\
                Forall2 (fun input el =>
                           tag el = qualify WPS_NAMESPACE "Input" /\
                           find (nspath "Identifier" DEFAULT_OWS_NAMESPACE) el ≫= text
                             = Some input.1)
                  (input :: inputs) inputElements
            end).
  { intros rest Hb. cbn [mapM]. rewrite Hb. unfold mbind at 1. unfold result_bind at 1.
    destruct (first_failure inputs) as [e|].
    - rewrite IH. reflexivity.
    - destruct IH as (els & -> & Hall). eexists. split; [reflexivity|].
      constructor; [|exact Hall]. split; [reflexivity|].
      change (nspath "Identifier" DEFAULT_OWS_NAMESPACE)
        with [qualify DEFAULT_OWS_NAMESPACE "Identifier"].
      unfold find. cbn [findall children List.filter]. compare_tags. reflexivity. }
  destruct input as [key [val|[xml|e]]]; cbn [snd fst first_failure] in *.
  - destruct Hin as (rest & Hb). exact (Hok rest Hb).
  - destruct Hin as (rest & Hb). exact (Hok rest Hb).
  - cbn [mapM]. rewrite Hin. reflexivity.
Qed.

(** [buildRequest] fails exactly when the [getXml()] of some input raises,
    and then with the exception of the first such input, in the order
    given; with string values and values whose [getXml()] returns it
    always builds a document. *)
Theorem buildRequest_first_failure (identifier : string)
    (inputs : list (string * InputValue)) (output : option string) :
  match first_failure inputs with
  | Some e => buildRequest identifier inputs output = Raise e
  | None => exists doc, buildRequest identifier inputs output = Ok doc
  end.
Proof.
  rewrite buildRequest_eq. pose proof (mapM_buildInput_cases inputs) as H.
  destruct (first_failure inputs) as [e|].
  - rewrite H. reflexivity.
  - destruct H as (els & -> & _). eexists. reflexivity.
Qed.

(** Whatever the kinds of the values, the document built has one
    [wps:Input] per input, in the order given, each with the name of its
    input as [ows:Identifier], and the process identifier as the
    [ows:Identifier] of the root. *)
Theorem buildRequest_input_names (identifier : string)
    (inputs : list (string * InputValue)) (output : option string) (doc : Element) :
  buildRequest identifier inputs output = Ok doc ->
  find (nspath "Identifier" DEFAULT_OWS_NAMESPACE) doc ≫= text = Some identifier /\
  map (fun el => find (nspath "Identifier" DEFAULT_OWS_NAMESPACE) el ≫= text)
    (findall (nspath "DataInputs/Input" WPS_NAMESPACE) doc)
  = map (fun input => Some input.1) inputs /\
  length (findall (nspath "DataInputs/Input" WPS_NAMESPACE) doc) = length inputs.
Proof.
  rewrite buildRequest_eq. pose proof (mapM_buildInput_cases inputs) as H.
  destruct (first_failure inputs) as [e|]; [rewrite H; discriminate|].
  destruct H as (els & -> & Hall). intros [= <-].
  assert (Hfilter : List.filter (matches (qualify WPS_NAMESPACE "Input")) els = els).
  { clear -Hall. induction Hall as [|input el inputs els [Ht _] _ IH]; [reflexivity|].
    cbn [List.filter]. rewrite matches_qualify, Ht, String.eqb_refl, IH.
    reflexivity. }
  rewrite findall_inputs, Hfilter. split; [|split].
  - change (nspath "Identifier" DEFAULT_OWS_NAMESPACE)
      with [qualify DEFAULT_OWS_NAMESPACE "Identifier"].
    unfold find, request_document. cbn [findall children app List.filter].
    compare_tags. reflexivity.
  - clear -Hall. induction Hall as [|input el inputs els [_ Hid] _ IH]; [reflexivity|].
    cbn [map]. rewrite Hid, IH. reflexivity.
  - symmetry. clear -Hall. induction Hall; cbn; congruence.
Qed.

(** ** Feature collections *)

Lemma mapM_pure {A B} (f : A -> result B) (g : A -> B) (l : list A) :
  (forall x, f x = Ok (g x)) -> mapM f l = Ok (map g l).
Proof.
  intros H. induction l as [|x l IH]; [reflexivity|].
  cbn [mapM map]. rewrite H, IH. reflexivity.
Qed.

Lemma WFSQuery_getXml_eq (q : WFSQuery) :
  WFSQuery_getXml q = Ok (query_element q).
Proof.
  unfold WFSQuery_getXml, query_element.
  change (nspath_eval "wfs:Query" namespaces) with (Ok (qualify WFS_NAMESPACE "Query")).
  unfold mbind at 1. unfold result_bind at 1.
  rewrite (mapM_pure _ property_name_element (propertyNames q))
    by (intros; reflexivity).
  unfold mbind at 1. unfold result_bind at 1. cbn [children tag attrib text app].
  destruct (filters q) as [|f fs] eqn:Hf.
  - cbn [length Nat.ltb Nat.leb filter_elements]. rewrite app_nil_r. reflexivity.
  - cbn [length Nat.ltb Nat.leb filter_elements].
    change (nspath_eval "ogc:Filter" namespaces)
      with (Ok (qualify OGC_NAMESPACE "Filter")).
    unfold mbind at 1. unfold result_bind at 1.
    rewrite (mapM_pure _ gml_object_id_element) by (intros; reflexivity).
    reflexivity.
Qed.

Lemma filter_property_names (names : list string) (rest : list Element) :
  (forall e, In e rest -> tag e <> qualify WFS_NAMESPACE "PropertyName") ->
  List.filter (matches (qualify WFS_NAMESPACE "PropertyName"))
    (map property_name_element names ++ rest)
  = map property_name_element names.
Proof.
  intros Hrest. induction names as [|n names IH].
  - cbn [map app]. induction rest as [|e rest IH]; [reflexivity|].
    cbn [List.filter]. rewrite matches_qualify.
    destruct (String.eqb_spec (tag e) (qualify WFS_NAMESPACE "PropertyName")) as [Ht|_].
    + exfalso. exact (Hrest e (or_introl eq_refl) Ht).
    + apply IH. intros e' He'. apply Hrest. now right.
  - cbn [map app List.filter]. rewrite IH. unfold property_name_element at 1.
    compare_tags. reflexivity.
Qed.

(** [WFSQuery.getXml] never raises, and its element reads back as the
    query: the [typeName] attribute, one [wfs:PropertyName] per property
    name in order, and an [ogc:Filter], present exactly when there are
    filters, with one [ogc:GmlObjectId] per filter in order. *)
Theorem WFSQuery_getXml_result (q : WFSQuery) :
  exists queryElement,
    WFSQuery_getXml q = Ok queryElement /\
    tag queryElement = qualify WFS_NAMESPACE "Query" /\
    get queryElement "typeName" = Some (typeName q) /\
    map text (findall [qualify WFS_NAMESPACE "PropertyName"] queryElement)
      = map Some (propertyNames q) /\
    length (findall [qualify OGC_NAMESPACE "Filter"] queryElement)
      = (if filters q is [] then 0 else 1)%nat /\
    map (fun el => get el (qualify GML_NAMESPACE "id"))
      (findall [qualify OGC_NAMESPACE "Filter"; qualify OGC_NAMESPACE "GmlObjectId"]
         queryElement)
      = map Some (filters q).
Proof.
  exists (query_element q). split; [apply WFSQuery_getXml_eq|].
  split; [reflexivity|]. split; [apply lookup_insert_eq|].
  assert (Hrest : forall e, In e (filter_elements (filters q)) ->
                    tag e <> qualify WFS_NAMESPACE "PropertyName").
  { intros e He. destruct (filters q); [contradiction|].
    destruct He as [<-|[]]. cbn [tag]. apply String.eqb_neq.
    apply qualify_eqb_last. cbn. discriminate. }
  assert (Hnames : forall names,
            List.filter (matches (qualify OGC_NAMESPACE "Filter"))
              (map property_name_element names ++ filter_elements (filters q))
            = filter_elements (filters q)).
  { induction names as [|n names IH].
    - cbn [map app]. destruct (filters q); [reflexivity|].
      cbn [filter_elements List.filter]. compare_tags. reflexivity.
    - cbn [map app List.filter]. unfold property_name_element at 1.
      compare_tags. exact IH. }
  split; [|split].
  - rewrite findall_one. unfold query_element. cbn [children].
    rewrite (filter_property_names _ _ Hrest), map_map. reflexivity.
  - rewrite findall_one. unfold query_element. cbn [children]. rewrite Hnames.
    destruct (filters q); reflexivity.
  - unfold query_element. cbn [findall children]. rewrite Hnames.
    destruct (filters q) as [|f fs]; [reflexivity|].
    cbn [filter_elements flat_map children]. rewrite app_nil_r.
    generalize (f :: fs). intros l. induction l as [|x l IH]; [reflexivity|].
    cbn [map List.filter]. unfold gml_object_id_element at 1. compare_tags.
    cbn [flat_map app map]. f_equal. exact IH.
Qed.

(** [WFSFeatureCollection.getXml] never raises: it gives a [wps:Reference]
    to the WFS URL holding, under [wps:Body], a [wfs:GetFeature] for
    WFS 1.1.0 whose only child is the element of the query; given as the
    value of an input, that reference is the child of the [wps:Input]
    built for it. *)
Theorem WFSFeatureCollection_getXml_result (fc : WFSFeatureCollection) :
  exists root getFeature,
    WFSFeatureCollection_getXml fc = Ok root /\
    tag root = qualify WPS_NAMESPACE "Reference" /\
    get root "xlink:href" = Some (wfs_url fc) /\
    findall [qualify WPS_NAMESPACE "Body"; qualify WFS_NAMESPACE "GetFeature"] root
      = [getFeature] /\
    get getFeature "service" = Some "WFS" /\
    get getFeature "version" = Some "1.1.0" /\
    children getFeature = [query_element (wfs_query fc)] /\
    forall identifier name output, exists doc,
      buildRequest identifier [(name, Complex (WFSFeatureCollection_getXml fc))] output
        = Ok doc /\
      findall (nspath "DataInputs/Input/Reference" WPS_NAMESPACE) doc = [root].
Proof.
  assert (E : exists root, WFSFeatureCollection_getXml fc = Ok root /\
                root = Elem (qualify WPS_NAMESPACE "Reference")
                         (list_to_map [("xlink:href", wfs_url fc)]) None
                         [Elem (qualify WPS_NAMESPACE "Body") ∅ None
                            [Elem (qualify WFS_NAMESPACE "GetFeature")
                               (list_to_map
                                  [("service", "WFS"); ("version", "1.1.0");
                                   ("xmlns:ogc", OGC_NAMESPACE);
                                   ("xmlns:gml", GML_NAMESPACE);
                                   ("xmlns:xsi", XSI_NAMESPACE);
                                   ("outputFormat", "text/xml; subtype=gml/3.1.1");
                                   ("xsi:schemaLocation",
                                    WFS_NAMESPACE +:+ " " +:+ "../wfs/1.1.0/WFS.xsd")])
                               None [query_element (wfs_query fc)]]]).
  { eexists. split; [|reflexivity].
    unfold WFSFeatureCollection_getXml. rewrite WFSQuery_getXml_eq. reflexivity. }
  destruct E as (root & Hroot & ->).
  eexists. eexists. split; [exact Hroot|].
  split; [reflexivity|]. split; [reflexivity|]. split; [reflexivity|].
  split; [reflexivity|]. split; [reflexivity|]. split; [reflexivity|].
  intros identifier name output.
  eexists (request_document identifier
             [Elem (qualify WPS_NAMESPACE "Input") ∅ None
                [Elem (qualify DEFAULT_OWS_NAMESPACE "Identifier") ∅ (Some name) [];
                 _]] output).
  split; [rewrite buildRequest_eq; cbn [mapM]; rewrite Hroot; reflexivity|].
  change (nspath "DataInputs/Input/Reference" WPS_NAMESPACE)
    with [qualify WPS_NAMESPACE "DataInputs"; qualify WPS_NAMESPACE "Input";
          qualify WPS_NAMESPACE "Reference"].
  unfold request_document. cbn [findall children app List.filter].
  destruct output as [output|]; cbn [response_forms response_form List.filter];
    compare_tags; cbn [flat_map children List.filter app];
    compare_tags; cbn [flat_map children List.filter app tag];
    compare_tags; reflexivity.
Qed.

Lemma findall_app (p1 p2 : ElementPath) (e : Element) :
  findall (p1 ++ p2) e = flat_map (findall p2) (findall p1 e).
Proof.
  revert e. induction p1 as [|s p1 IH]; intros e.
  - cbn. now rewrite app_nil_r.
  - cbn [app findall]. induction (List.filter (matches s) (children e)) as [|c l IHl];
      [reflexivity|].
    cbn [flat_map]. rewrite flat_map_app, IH, IHl. reflexivity.
Qed.

Lemma posList_of_polygon_members (polygons : list (list (Coordinate * Coordinate))) :
  map text
    (flat_map (findall [qualify GML_NAMESPACE "Polygon";
                        qualify GML_NAMESPACE "exterior";
                        qualify GML_NAMESPACE "LinearRing";
                        qualify GML_NAMESPACE "posList"])
       (List.filter (matches (qualify GML_NAMESPACE "polygonMember"))
          (map polygon_member_element polygons)))
  = map (fun polygon => Some (posList polygon)) polygons.
Proof.
  induction polygons as [|polygon polygons IH]; [reflexivity|].
  cbn [map List.filter].
  change (matches (qualify GML_NAMESPACE "polygonMember")
            (polygon_member_element polygon)) with true.
  cbv iota. cbn [flat_map]. rewrite map_app, IH. reflexivity.
Qed.

(** [GMLMultiPolygonFeatureCollection.getXml] never raises: it gives a
    [wps:Data] element with one [gml:polygonMember] per polygon, in order,
    whose [gml:posList] is the text of the coordinates of the polygon,
    pairwise and separated by spaces (empty for a polygon without points),
    followed by the [gml:ID] 0 of the box. *)
Theorem GMLMultiPolygonFeatureCollection_getXml_result
    (polygons : list (list (Coordinate * Coordinate))) :
  exists dataElement,
    GMLMultiPolygonFeatureCollection_getXml polygons = Ok dataElement /\
    tag dataElement = qualify WPS_NAMESPACE "Data" /\
    map text
      (findall [qualify WPS_NAMESPACE "ComplexData";
                qualify GML_NAMESPACE "featureMembers";
                qualify GML_NAMESPACE "box";
                qualify GML_NAMESPACE "the_geom";
                qualify GML_NAMESPACE "MultiPolygon";
                qualify GML_NAMESPACE "polygonMember";
                qualify GML_NAMESPACE "Polygon";
                qualify GML_NAMESPACE "exterior";
                qualify GML_NAMESPACE "LinearRing";
                qualify GML_NAMESPACE "posList"] dataElement)
      = map (fun polygon => Some (posList polygon)) polygons /\
    map text
      (findall [qualify WPS_NAMESPACE "ComplexData";
                qualify GML_NAMESPACE "featureMembers";
                qualify GML_NAMESPACE "box";
                qualify GML_NAMESPACE "ID"] dataElement)
      = [Some "0"].
Proof.
  exists (multi_polygon_data_element polygons). split.
  { unfold GMLMultiPolygonFeatureCollection_getXml.
    rewrite (mapM_pure _ polygon_member_element polygons) by (intros; reflexivity).
    reflexivity. }
  split; [reflexivity|]. split; [|reflexivity].
  change [qualify WPS_NAMESPACE "ComplexData";
          qualify GML_NAMESPACE "featureMembers";
          qualify GML_NAMESPACE "box";
          qualify GML_NAMESPACE "the_geom";
          qualify GML_NAMESPACE "MultiPolygon";
          qualify GML_NAMESPACE "polygonMember";
          qualify GML_NAMESPACE "Polygon";
          qualify GML_NAMESPACE "exterior";
          qualify GML_NAMESPACE "LinearRing";
          qualify GML_NAMESPACE "posList"]
    with ([qualify WPS_NAMESPACE "ComplexData";
           qualify GML_NAMESPACE "featureMembers";
           qualify GML_NAMESPACE "box";
           qualify GML_NAMESPACE "the_geom";
           qualify GML_NAMESPACE "MultiPolygon"]
          ++ [qualify GML_NAMESPACE "polygonMember";
              qualify GML_NAMESPACE "Polygon";
              qualify GML_NAMESPACE "exterior";
              qualify GML_NAMESPACE "LinearRing";
              qualify GML_NAMESPACE "posList"]).
  rewrite findall_app.
  change (findall [qualify WPS_NAMESPACE "ComplexData";
                   qualify GML_NAMESPACE "featureMembers";
                   qualify GML_NAMESPACE "box";
                   qualify GML_NAMESPACE "the_geom";
                   qualify GML_NAMESPACE "MultiPolygon"]
            (multi_polygon_data_element polygons))
    with [Elem (qualify GML_NAMESPACE "MultiPolygon")
            (list_to_map [("srsDimension", "2");
                          ("srsName", "http://www.opengis.net/gml/srs/epsg.xml#4326")])
            None (map polygon_member_element polygons)].
  cbn [flat_map findall children]. rewrite app_nil_r.
  apply posList_of_polygon_members.
Qed.

(** ** The service object *)

Lemma override_from_spec (process : Process) (rest pre : list Process) (found : bool) :
  override_from process (length pre) rest (pre ++ rest) found =
    (pre ++ map (fun p => if same_identifier process p then process else p) rest,
     found || existsb (same_identifier process) rest).
Proof.
  revert pre found. induction rest as [|p rest IH]; intros pre found.
  - cbn. now rewrite orb_false_r.
  - cbn [override_from map existsb]. unfold same_identifier in *.
    destruct (bool_decide (p_identifier p = p_identifier process)).
    + rewrite insert_app_r_alt by lia. rewrite Nat.sub_diag. cbn [insert list_insert].
      specialize (IH (pre ++ [process]) true).
      rewrite length_app in IH. cbn [length] in IH. rewrite Nat.add_1_r in IH.
      rewrite <- !app_assoc in IH. cbn [app] in IH. rewrite IH.
      cbn [orb]. rewrite orb_true_r. reflexivity.
    + specialize (IH (pre ++ [p]) found).
      rewrite length_app in IH. cbn [length] in IH. rewrite Nat.add_1_r in IH.
      rewrite <- !app_assoc in IH. cbn [app] in IH. rewrite IH. reflexivity.
Qed.

Lemma _parseProcessMetadata_eq (rootElement : Element) (self : WebProcessingService) :
  _parseProcessMetadata rootElement self =
    match Process_init (find (plain "ProcessDescription") rootElement)
            (wps_verbose self) with
    | Raise e => (self, Raise e)
    | Ok process =>
        (set_processes
           (if existsb (same_identifier process) (processes self)
            then map (fun p => if same_identifier process p then process else p)
                   (processes self)
            else map (fun p => if same_identifier process p then process else p)
                   (processes self) ++ [process]) self,
         Ok process)
    end.
Proof.
  unfold _parseProcessMetadata.
  unfold mbind, StateErr_bind, gets, lift, modify, mret, StateErr_ret.
  cbv beta iota.
  destruct (Process_init _ _) as [process|e]; [|reflexivity].
  pose proof (override_from_spec process (processes self) [] false) as Hov.
  cbn [length app orb] in Hov. rewrite Hov.
  destruct self as [u un pw v vb c i pr ops ps]. cbn [processes set_processes].
  destruct (existsb (same_identifier process) ps); reflexivity.
Qed.

(** [_parseProcessMetadata] keeps one description per identifier: every
    process of the list with the identifier of the new one is replaced by
    it, in place, and the new one is added at the end when there was
    none; the others stay where they are. When the description cannot be
    parsed the service is left as it was. *)
Theorem _parseProcessMetadata_result (rootElement : Element)
    (self : WebProcessingService) :
  let out := _parseProcessMetadata rootElement self in
  match Process_init (find (plain "ProcessDescription") rootElement)
          (wps_verbose self) with
  | Raise e => out = (self, Raise e)
  | Ok process =>
      out.2 = Ok process /\
      out.1 = set_processes (processes out.1) self /\
      processes out.1 =
        (if existsb (same_identifier process) (processes self)
         then map (fun p => if same_identifier process p then process else p)
                (processes self)
         else processes self ++ [process]) /\
      In process (processes out.1) /\
      (forall p, In p (processes out.1) ->
         p_identifier p = p_identifier process -> p = process) /\
      length (processes out.1) =
        (if existsb (same_identifier process) (processes self)
         then length (processes self) else S (length (processes self)))
  end.
Proof.
  cbv zeta. rewrite _parseProcessMetadata_eq.
  destruct (Process_init _ _) as [process|e]; [|reflexivity].
  set (replaced := map (fun p => if same_identifier process p then process else p)
                     (processes self)).
  assert (Hlen : length replaced = length (processes self)) by apply length_map.
  assert (Hsame : forall p, In p replaced ->
            p_identifier p = p_identifier process -> p = process).
  { intros p Hin Hid. apply in_map_iff in Hin. destruct Hin as (p0 & <- & _).
    unfold same_identifier in *. destruct (bool_decide_reflect
      (p_identifier p0 = p_identifier process)) as [|Hne]; [reflexivity|].
    contradiction. }
  destruct self as [u un pw v vb c i pr ops ps].
  cbn [processes set_processes fst snd] in *.
  destruct (existsb (same_identifier process) ps) eqn:Hex.
  - split; [reflexivity|]. split; [reflexivity|]. split; [reflexivity|].
    split; [|split; [exact Hsame | exact Hlen]].
    apply existsb_exists in Hex. destruct Hex as (p & Hin & Hp).
    apply in_map_iff. exists p. rewrite Hp. split; [reflexivity | exact Hin].
  - assert (Hid : replaced = ps).
    { subst replaced. clear -Hex. induction ps as [|p ps IH]; [reflexivity|].
      cbn [existsb map] in *. apply orb_false_elim in Hex. destruct Hex as [Hp Hps].
      rewrite Hp, (IH Hps). reflexivity. }
    rewrite Hid in *.
    split; [reflexivity|]. split; [reflexivity|].
    split; [reflexivity|]. split; [apply in_or_app; right; now left|].
    split.
    + intros p Hin Hid'. apply in_app_or in Hin. destruct Hin as [Hin|[<-|[]]];
        [|reflexivity].
      apply Hsame; assumption.
    + rewrite length_app. cbn. lia.
Qed.

Lemma parseResponse_connection (response : Element) (self : WPSExecution) :
  let self' := (parseResponse response self).1 in
  url self' = url self /\ username self' = username self /\
  password self' = password self /\ version self' = version self /\
  verbose self' = verbose self.
Proof.
  cbv zeta. unfold parseResponse. unfold mbind, StateErr_bind, lift.
  destruct (index (split "}" (tag response)) 1) as [rootTag|e]; [|cbn; repeat split].
  destruct (String.eqb rootTag "ExecuteResponse").
  - destruct (_parseExecuteResponse_frame response self) as (_ & _ & H). exact H.
  - destruct (String.eqb rootTag "ExceptionReport"); [|cbn; repeat split].
    rewrite _parseExceptionReport_eq.
    destruct self as [u v un pw vb p si st er sl di po]. cbn. repeat split.
Qed.

Lemma execute_steps_eq (identifier : string) (inputs : list (string * InputValue))
    (output request response : option string) (s : State) :
  execute_steps identifier inputs output request response s =
    match request_body identifier inputs output request with
    | Raise e => (s, Raise e)
    | Ok body =>
        match (match response with
               | None => submitRequest body s
               | Some response => (s, fromstring response)
               end) with
        | (s', Raise e) => (s', Raise e)
        | (s', Ok doc) => on_self (parseResponse doc) s'
        end
    end.
Proof.
  unfold execute_steps, request_body.
  unfold mbind at 1. unfold StateErr_bind at 1.
  destruct request as [body|].
  - cbn [mret StateErr_ret]. unfold mbind at 1. unfold StateErr_bind at 1.
    destruct response; reflexivity.
  - unfold mbind, StateErr_bind, result_bind, lift.
    destruct (buildRequest identifier inputs output) as [doc|e]; [|reflexivity].
    destruct (tostring doc) as [body|e]; [|reflexivity].
    destruct response; reflexivity.
Qed.

(** [execute] leaves files and sleeps alone and talks to the server at
    most once: when the request cannot be built or serialised it raises
    before sending anything; with a stored response it sends nothing;
    otherwise it posts the body once to the URL of the service with its
    credentials. An execution it returns carries the URL, version and
    credentials of the service and is a new execution into which the
    response was parsed. *)
Theorem execute_result (self : WebProcessingService) (identifier : string)
    (inputs : list (string * InputValue)) (output request response : option string)
    (w : World) :
  let out := execute self identifier inputs output request response w in
  let execution0 :=
    WPSExecution_init (wps_version self) (Some (wps_url self)) (wps_username self)
      (wps_password self) (wps_verbose self) in
  files out.1 = files w /\ sleeps out.1 = sleeps w /\
  match request_body identifier inputs output request with
  | Raise e => out = (w, Raise e)
  | Ok body =>
      requests out.1 = requests w ++
        match response with
        | Some _ => []
        | None => [mkRequest (Some (wps_url self)) (Body body) "Post"
                     (wps_username self) (wps_password self)]
        end
  end /\
  forall execution, out.2 = Ok execution ->
    url execution = Some (wps_url self) /\
    version execution = wps_version self /\
    username execution = wps_username self /\
    password execution = wps_password self /\
    exists doc, parseResponse doc execution0 = (execution, Ok tt).
Proof.
  cbv zeta. unfold execute. rewrite execute_steps_eq.
  set (execution0 := WPSExecution_init _ _ _ _ _).
  destruct (request_body identifier inputs output request) as [body|e];
    [|cbn [fst snd]; split; [reflexivity|]; split; [reflexivity|];
      split; [reflexivity|]; intros execution H; discriminate H].
  assert (Hparse : forall w' doc,
    let r := on_self (parseResponse doc) (execution0, w') in
    r.1.2 = w' /\
    forall execution,
      match r.2 with Ok _ => Ok r.1.1 | Raise e => Raise e end = Ok execution ->
      url execution = Some (wps_url self) /\
      version execution = wps_version self /\
      username execution = wps_username self /\
      password execution = wps_password self /\
      exists doc, parseResponse doc execution0 = (execution, Ok tt)).
  { intros w' doc. cbv zeta. unfold on_self. cbn [fst snd].
    pose proof (parseResponse_connection doc execution0) as Hc. cbv zeta in Hc.
    destruct (parseResponse doc execution0) as [execution' [[]|e]] eqn:Hp;
      cbn [fst snd] in *; (split; [reflexivity|]); [|discriminate].
    intros execution [= <-]. destruct Hc as (Hu & Hun & Hpw & Hv & _).
    rewrite Hu, Hun, Hpw, Hv.
    split; [reflexivity|]. split; [reflexivity|]. split; [reflexivity|].
    split; [reflexivity|]. exists doc. exact Hp. }
  destruct response as [stored|].
  - destruct (fromstring stored) as [doc|e].
    + destruct (Hparse w doc) as (Hw & Hexec).
      destruct (on_self (parseResponse doc) (execution0, w)) as [[execution' w'] r].
      cbn [fst snd] in *. subst w'. rewrite app_nil_r.
      split; [reflexivity|]. split; [reflexivity|]. split; [reflexivity | exact Hexec].
    + cbn [fst snd]. rewrite app_nil_r.
      split; [reflexivity|]. split; [reflexivity|]. split; [reflexivity|].
      intros execution H. discriminate H.
  - rewrite submitRequest_eq. cbv zeta.
    set (rq := mkRequest _ _ _ _ _).
    destruct (match openURL (requests w) rq with
              | Ok (Ok content) => fromstring content
              | Ok (Raise e) => Raise e
              | Raise e => Raise e
              end) as [doc|e].
    + destruct (Hparse (send rq w) doc) as (Hw & Hexec).
      destruct (on_self (parseResponse doc) (execution0, send rq w))
        as [[execution' w'] r].
      cbn [fst snd] in *. subst w'.
      split; [reflexivity|]. split; [reflexivity|]. split; [reflexivity | exact Hexec].
    + cbn [fst snd].
      split; [reflexivity|]. split; [reflexivity|]. split; [reflexivity|].
      intros execution H. discriminate H.
Qed.

Lemma _readFromUrl_Get (url : option string) (data : payload)
    (username password : option string) (w : World) :
  exists fetched,
    _readFromUrl url data "Get" username password w =
      (mkWorld (requests w ++ get_requests url data username password)
         (files w) (sleeps w), fetched).
Proof.
  unfold _readFromUrl, get_requests. cbn [String.eqb Ascii.eqb Bool.eqb].
  unfold mbind, StateErr_bind, lift, call_openURL.
  destruct w as [rqs fs sl]. cbn [requests files sleeps].
  destruct (build_get_url url data) as [request_url|e];
    [|eexists; rewrite app_nil_r; reflexivity].
  destruct (split "?" request_url) as [|base [|query rest]];
    [eexists; rewrite app_nil_r; reflexivity ..|].
  cbn [index lookup list_lookup].
  destruct (openURL rqs _) as [[content|e]|e]; eexists; reflexivity.
Qed.

(** The document [getcapabilities] works on, and the world after reading
    it. *)
Lemma getcapabilities_eq (xml : option string) (self : WebProcessingService)
    (w : World) :
  getcapabilities xml (self, w) =
    let '(w0, fetched) :=
      if truthy xml
      then (w, fromstring (match xml with Some doc => doc | None => "" end))
      else WPSCapabilitiesReader_readFromUrl (wps_version self) (wps_url self)
             (wps_username self) (wps_password self) w in
    match fetched with
    | Raise e => ((self, w0), Raise e)
    | Ok capabilities =>
        let '(self', r) :=
          _parseCapabilitiesMetadata capabilities
            (set_capabilities (Some capabilities) self) in
        ((self', w0), r)
    end.
Proof.
  unfold getcapabilities, readFromString, on_fst, on_snd.
  unfold mbind, StateErr_bind, gets, lift, modify. cbv beta iota. cbn [fst snd].
  destruct xml as [doc|]; cbn [truthy]; cbv beta iota; cbn [fst snd].
  - destruct (negb (String.eqb doc "")); cbv beta iota; cbn [fst snd].
    + destruct (fromstring doc) as [capabilities|e]; [|reflexivity].
      cbn [fst snd]. destruct (_parseCapabilitiesMetadata _ _). reflexivity.
    + destruct (WPSCapabilitiesReader_readFromUrl _ _ _ _ w)
        as [w0 [capabilities|e]]; [|reflexivity].
      cbn [fst snd]. destruct (_parseCapabilitiesMetadata _ _). reflexivity.
  - destruct (WPSCapabilitiesReader_readFromUrl _ _ _ _ w)
      as [w0 [capabilities|e]]; [|reflexivity].
    cbn [fst snd]. destruct (_parseCapabilitiesMetadata _ _). reflexivity.
Qed.

(** [getcapabilities] reads a stored document only when it is given and
    not empty, and then leaves the world untouched; without one, or with
    the empty string, it sends the one GET of the capabilities URL of the
    service, with the credentials of the service, and nothing else
    changes in the world. *)
Theorem getcapabilities_source (xml : option string) (self : WebProcessingService)
    (w : World) :
  let out := getcapabilities xml (self, w) in
  (forall doc, xml = Some doc -> doc <> "" -> out.1.2 = w) /\
  (xml = None \/ xml = Some "" ->
     out.1.2 =
       mkWorld (requests w ++
                get_requests (Some (wps_url self))
                  (capabilities_params (wps_version self))
                  (wps_username self) (wps_password self))
         (files w) (sleeps w)) /\
  getcapabilities (Some "") (self, w) = getcapabilities None (self, w).
Proof.
  cbv zeta. rewrite !getcapabilities_eq.
  assert (Hworld : forall (w0 : World) (fetched : result Element),
    (match fetched with
     | Raise e => ((self, w0), Raise e)
     | Ok capabilities =>
         let '(self', r) :=
           _parseCapabilitiesMetadata capabilities
             (set_capabilities (Some capabilities) self) in
         ((self', w0), r)
     end).1.2 = w0).
  { intros w0 [doc|e]; [|reflexivity].
    destruct (_parseCapabilitiesMetadata _ _). reflexivity. }
  split; [|split; [|reflexivity]].
  - intros doc -> Hne. cbn [truthy].
    apply String.eqb_neq in Hne. rewrite Hne. cbn [negb]. apply Hworld.
  - intros Hxml.
    assert (Ht : truthy xml = false) by (destruct Hxml as [->| ->]; reflexivity).
    rewrite Ht. unfold WPSCapabilitiesReader_readFromUrl.
    destruct (_readFromUrl_Get (Some (wps_url self))
                (capabilities_params (wps_version self))
                (wps_username self) (wps_password self) w) as (fetched & E).
    unfold capabilities_params in E at 1. rewrite E. apply Hworld.
Qed.

(** When [_parseCapabilitiesMetadata] returns, the identification and the
    provider are those of the document, and the operations and processes
    of the document, one per child of [OperationsMetadata] and of
    [ProcessOfferings] in order, were appended to the lists of the
    service: reading the capabilities again lists everything twice. *)
Theorem _parseCapabilitiesMetadata_result (root : Element)
    (self self' : WebProcessingService) :
  _parseCapabilitiesMetadata root self = (self', Ok tt) ->
  exists i p operationsElement offeringsElement ops ps,
    ServiceIdentification
      (find (nspath "ServiceIdentification" DEFAULT_OWS_NAMESPACE) root) = Ok i /\
    ServiceProvider
      (find (nspath "ServiceProvider" DEFAULT_OWS_NAMESPACE) root) = Ok p /\
    find (nspath "OperationsMetadata" DEFAULT_OWS_NAMESPACE) root
      = Some operationsElement /\
    find (nspath "ProcessOfferings" WPS_NAMESPACE) root = Some offeringsElement /\
    mapM OperationsMetadata (children operationsElement) = Ok ops /\
    mapM (fun processElement => Process_init (Some processElement) (wps_verbose self))
      (children offeringsElement) = Ok ps /\
    identification self' = Some i /\ provider self' = Some p /\
    operations self' = operations self ++ ops /\
    processes self' = processes self ++ ps.
Proof.
  unfold _parseCapabilitiesMetadata.
  unfold mbind, StateErr_bind, lift, modify, gets, append_field. cbv beta iota zeta.
  destruct (ServiceIdentification _) as [i|] eqn:Hi; [|discriminate].
  destruct (ServiceProvider _) as [p|] eqn:Hp; [|discriminate].
  destruct (find (nspath "OperationsMetadata" DEFAULT_OWS_NAMESPACE) root)
    as [operationsElement|] eqn:Hoe; [|discriminate].
  cbn [iterate].
  destruct self as [u un pw v vb c i0 pr ops0 ps0].
  cbn [operations processes wps_verbose set_identification set_provider
       set_operations set_processes].
  destruct (append_each_extends OperationsMetadata (children operationsElement) ops0)
    as (ops & Hops & Hopsok).
  destruct (append_each OperationsMetadata _ ops0) as [acc [[]|e]];
    [|discriminate].
  cbn [fst snd] in *.
  destruct (find (nspath "ProcessOfferings" WPS_NAMESPACE) root)
    as [offeringsElement|] eqn:Hpe; [|discriminate].
  cbn [iterate operations processes wps_verbose set_identification set_provider
       set_operations set_processes].
  destruct (append_each_extends
              (fun processElement => Process_init (Some processElement) vb)
              (children offeringsElement) ps0) as (ps & Hps & Hpsok).
  destruct (append_each _ _ ps0) as [acc' [[]|e]]; [|discriminate].
  cbn [fst snd] in *. intros [= <-].
  exists i, p, operationsElement, offeringsElement, ops, ps.
  cbn. repeat split; auto.
Qed.

(** A capabilities document without an [OperationsMetadata] element makes
    [_parseCapabilitiesMetadata] raise a TypeError, after the
    identification and the provider were replaced; the lists are as
    before. *)
Theorem _parseCapabilitiesMetadata_no_operations (root : Element)
    (self : WebProcessingService) (i p : OwsMetadata) :
  ServiceIdentification
    (find (nspath "ServiceIdentification" DEFAULT_OWS_NAMESPACE) root) = Ok i ->
  ServiceProvider
    (find (nspath "ServiceProvider" DEFAULT_OWS_NAMESPACE) root) = Ok p ->
  find (nspath "OperationsMetadata" DEFAULT_OWS_NAMESPACE) root = None ->
  _parseCapabilitiesMetadata root self =
    (set_provider (Some p) (set_identification (Some i) self),
     Raise (Foreign "TypeError")).
Proof.
  intros Hi Hp Ho. unfold _parseCapabilitiesMetadata.
  unfold mbind, StateErr_bind, lift, modify. cbv beta iota zeta.
  rewrite Hi, Hp, Ho. reflexivity.
Qed.

Lemma describeprocess_eq (identifier : string) (xml : option string)
    (self : WebProcessingService) (w : World) :
  describeprocess identifier xml (self, w) =
    let '(w0, fetched) :=
      if truthy xml
      then (w, fromstring (match xml with Some doc => doc | None => "" end))
      else WPSDescribeProcessReader_readFromUrl (wps_version self) (wps_url self)
             identifier None None w in
    match fetched with
    | Raise e => ((self, w0), Raise e)
    | Ok doc =>
        let '(self', r) := _parseProcessMetadata doc self in
        ((self', w0), r)
    end.
Proof.
  unfold describeprocess, readFromString, on_fst, on_snd.
  unfold mbind, StateErr_bind, gets, lift. cbv beta iota. cbn [fst snd].
  destruct xml as [doc|]; cbn [truthy]; cbv beta iota; cbn [fst snd].
  - destruct (negb (String.eqb doc "")); cbv beta iota; cbn [fst snd].
    + destruct (fromstring doc) as [d|e]; [|reflexivity].
      cbn [fst snd]. destruct (_parseProcessMetadata _ _). reflexivity.
    + destruct (WPSDescribeProcessReader_readFromUrl _ _ _ _ _ w)
        as [w0 [d|e]]; [|reflexivity].
      cbn [fst snd]. destruct (_parseProcessMetadata _ _). reflexivity.
  - destruct (WPSDescribeProcessReader_readFromUrl _ _ _ _ _ w)
      as [w0 [d|e]]; [|reflexivity].
    cbn [fst snd]. destruct (_parseProcessMetadata _ _). reflexivity.
Qed.

(** [describeprocess] with a stored, non-empty document leaves the world
    untouched; otherwise it sends the one GET of the DescribeProcess URL
    of the identifier, and sends it without the credentials of the
    service. The process it returns is then in the list of the service,
    and a failure leaves that list as it was. *)
Theorem describeprocess_result (identifier : string) (xml : option string)
    (self : WebProcessingService) (w : World) :
  let out := describeprocess identifier xml (self, w) in
  (forall doc, xml = Some doc -> doc <> "" -> out.1.2 = w) /\
  (xml = None \/ xml = Some "" ->
     out.1.2 =
       mkWorld (requests w ++
                get_requests (Some (wps_url self))
                  (describe_params (wps_version self) identifier) None None)
         (files w) (sleeps w)) /\
  (forall process, out.2 = Ok process -> In process (processes out.1.1)) /\
  (forall e, out.2 = Raise e -> out.1.1 = self).
Proof.
  cbv zeta. rewrite describeprocess_eq.
  assert (Hparse : forall (w0 : World) (fetched : result Element),
    let out := match fetched with
               | Raise e => ((self, w0), Raise e)
               | Ok doc =>
                   let '(self', r) := _parseProcessMetadata doc self in
                   ((self', w0), r)
               end in
    out.1.2 = w0 /\
    (forall process, out.2 = Ok process -> In process (processes out.1.1)) /\
    (forall e, out.2 = Raise e -> out.1.1 = self)).
  { intros w0 [doc|e]; cbv zeta.
    - rewrite _parseProcessMetadata_eq.
      destruct (Process_init _ _) as [process|e]; cbn [fst snd].
      + split; [reflexivity|]. split; [|discriminate].
        intros p [= <-]. destruct self as [u un pw v vb c i pr ops ps].
        cbn [processes set_processes].
        destruct (existsb (same_identifier process) ps) eqn:Hex.
        * apply existsb_exists in Hex. destruct Hex as (p & Hin & Hp).
          apply in_map_iff. exists p. rewrite Hp. split; [reflexivity | exact Hin].
        * apply in_or_app. right. now left.
      + split; [reflexivity|]. split; [discriminate | reflexivity].
    - cbn [fst snd]. split; [reflexivity|]. split; [discriminate | reflexivity]. }
  split; [|split].
  - intros doc -> Hne. cbn [truthy]. apply String.eqb_neq in Hne. rewrite Hne.
    cbn [negb]. apply Hparse.
  - intros Hxml.
    assert (Ht : truthy xml = false) by (destruct Hxml as [->| ->]; reflexivity).
    rewrite Ht. unfold WPSDescribeProcessReader_readFromUrl.
    destruct (_readFromUrl_Get (Some (wps_url self))
                (describe_params (wps_version self) identifier) None None w)
      as (fetched & E).
    unfold describe_params in E at 1. rewrite E. apply Hparse.
  - destruct (if truthy xml then _ else _) as [w0 fetched]. apply Hparse.
Qed.

End Client.

(** * Examples on the sample service *)

(** C1, as stated, fails on a new execution: its status is unset, and
    [isComplete()] raises instead of returning false. *)
Lemma isComplete_unset_raises :
  status sample_execution = None /\
  isComplete sample_execution =
    Raise (PyException "Unknown process execution status: None") /\
  isComplete sample_execution <> Ok false.
Proof. split; [reflexivity|]. split; [reflexivity | discriminate]. Qed.

(** [getOutput] on an execution that has only started. *)
Lemma getOutput_started_raises :
  let self := set_status (Some "ProcessStarted") sample_execution in
  status self <> Some "ProcessSucceeded" /\
  getOutput sample_openURL sample_writable None (self, sample_world) =
    ((self, sample_world),
     Raise (PyException "Execution not successfully completed: status=ProcessStarted")).
Proof.
  cbv zeta. split; [discriminate|].
  apply (getOutput_not_succeeded sample_openURL sample_writable). discriminate.
Defined.

(** An HTML error page is not ignored. *)
Lemma parseResponse_html_raises :
  contains "}" (tag (Elem "html" ∅ None [])) = false /\
  parseResponse OWS_1_1 sample_parseText sample_getTypedValue sample_int
    (Elem "html" ∅ None []) sample_execution = (sample_execution, Raise IndexError).
Proof.
  split; [reflexivity|].
  apply (parseResponse_unqualified_root_raises OWS_1_1 sample_parseText
           sample_getTypedValue sample_int). reflexivity.
Defined.

(** An ExecuteResponse whose [Status] is empty. *)
Lemma _parseExecuteResponse_empty_status_raises :
  status_children_absent (sample_response [] []) /\
  _parseExecuteResponse OWS_1_1 sample_parseText sample_getTypedValue sample_int
    (sample_response [] []) sample_execution =
    (set_statusLocation (Some "http://wps.example/status?id=42") sample_execution,
     Raise AttributeError).
Proof.
  assert (H : status_children_absent (sample_response [] [])).
  { intros s [<-|[<-|[<-|[]]]] Ht; try reflexivity; vm_compute in Ht; discriminate. }
  split; [exact H|].
  exact (proj1 (_parseExecuteResponse_no_status_raises OWS_1_1 sample_parseText
                  sample_getTypedValue sample_int (sample_response [] [])
                  sample_execution H)).
Defined.


(** With an output identifier the block is there. *)
Example buildRequest_with_output :
  exists doc,
    buildRequest OWS_1_1 XLINK XSI "EchoProcess" [("message", Literal "hello")]
      (Some "OUTPUT") = Ok doc /\
    findall (nspath "ResponseForm" WPS_NAMESPACE) doc = [response_form OWS_1_1 "OUTPUT"].
Proof. eexists. split; vm_compute; reflexivity. Qed.

(** C9, as stated, fails on two polls of a job: after the second parse the
    execution holds the output of the first document and then that of the
    second, not the outputs of the second alone. *)
Lemma processOutputs_accumulate :
  let parse := _parseExecuteResponse OWS_1_1 sample_parseText sample_getTypedValue
                 sample_int in
  let first := sample_response sample_succeeded [sample_output_element "a" url_a] in
  let second := sample_response sample_succeeded [sample_output_element "b" url_b] in
  let self1 := (parse first sample_execution).1 in
  let self2 := (parse second self1).1 in
  (parse first sample_execution).2 = Ok tt /\
  (parse second self1).2 = Ok tt /\
  mapM (Output_init OWS_1_1 sample_parseText sample_getTypedValue)
    (output_elements second) = Ok [sample_output "b" url_b] /\
  processOutputs self2 = [sample_output "a" url_a; sample_output "b" url_b] /\
  processOutputs self2 <> [sample_output "b" url_b].
Proof.
  cbv zeta. split; [vm_compute; reflexivity|]. split; [vm_compute; reflexivity|].
  split; [vm_compute; reflexivity|].
  assert (E : processOutputs
                (_parseExecuteResponse OWS_1_1 sample_parseText sample_getTypedValue
                   sample_int
                   (sample_response sample_succeeded [sample_output_element "b" url_b])
                   (_parseExecuteResponse OWS_1_1 sample_parseText
                      sample_getTypedValue sample_int
                      (sample_response sample_succeeded
                         [sample_output_element "a" url_a])
                      sample_execution).1).1
              = [sample_output "a" url_a; sample_output "b" url_b])
    by (vm_compute; reflexivity).
  split; [exact E|]. rewrite E. discriminate.
Qed.

(** The same two polls, through the theorem. *)
Lemma _parseExecuteResponse_twice_sample :
  let parse := _parseExecuteResponse OWS_1_1 sample_parseText sample_getTypedValue
                 sample_int in
  let first := sample_response sample_succeeded [sample_output_element "a" url_a] in
  let second := sample_response sample_succeeded [sample_output_element "b" url_b] in
  let self1 := (parse first sample_execution).1 in
  let self2 := (parse second self1).1 in
  parse first sample_execution = (self1, Ok tt) /\
  parse second self1 = (self2, Ok tt) /\
  exists outs1 outs2,
    mapM (Output_init OWS_1_1 sample_parseText sample_getTypedValue)
      (output_elements first) = Ok outs1 /\
    mapM (Output_init OWS_1_1 sample_parseText sample_getTypedValue)
      (output_elements second) = Ok outs2 /\
    processOutputs self2 = processOutputs sample_execution ++ outs1 ++ outs2.
Proof.
  cbv zeta.
  match goal with
  | |- ?A /\ ?B /\ _ =>
      assert (H1 : A) by (vm_compute; reflexivity);
      assert (H2 : B) by (vm_compute; reflexivity)
  end.
  split; [exact H1|]. split; [exact H2|].
  destruct (_parseExecuteResponse_twice OWS_1_1 sample_parseText sample_getTypedValue
              sample_int _ _ _ _ _ H1 H2)
    as (ins1 & outs1 & ins2 & outs2 & _ & Ho1 & _ & Ho2 & _ & Hout).
  exists outs1, outs2. split; [exact Ho1|]. split; [exact Ho2 | exact Hout].
Defined.

(** Two referenced outputs and no file path: everything goes to the file
    named after the first, which ends up holding the second. *)
Lemma getOutput_overwrites_first_file :
  status sample_finished = Some "ProcessSucceeded" /\
  references (processOutputs sample_finished) = [url_a; url_b] /\
  derived_filepath url_a = Ok "first.csv" /\
  getOutput sample_openURL sample_writable None (sample_finished, sample_world) =
    getOutput sample_openURL sample_writable (Some "first.csv")
      (sample_finished, sample_world) /\
  files (getOutput sample_openURL sample_writable None
           (sample_finished, sample_world)).1.2
    = {[ "first.csv" := "content of http://wps.example/files/second.csv" ]}.
Proof.
  assert (H1 : status sample_finished = Some "ProcessSucceeded") by reflexivity.
  assert (H2 : references (processOutputs sample_finished) = [url_a; url_b])
    by reflexivity.
  assert (H3 : derived_filepath url_a = Ok "first.csv") by reflexivity.
  destruct (getOutput_reuses_first_filepath sample_openURL sample_writable
              sample_finished sample_world url_a [url_b] "first.csv" H1 H2 H3)
    as (Hsame & _ & _ & Hok & _).
  split; [exact H1|]. split; [exact H2|]. split; [exact H3|]. split; [exact Hsame|].
  destruct (Hok ltac:(vm_compute; reflexivity)) as (_ & Hlast).
  destruct (Hlast [url_a] url_b eq_refl) as (content & Hopen & Hfiles).
  rewrite Hfiles. injection Hopen as <-. reflexivity.
Defined.

(** A poll replayed from a stored document: nothing is sent, the [url]
    argument is not stored, and the job being only started the call
    sleeps. *)
Example checkStatus_inline_started :
  let out := checkStatus OWS_1_1 sample_parseText sample_getTypedValue sample_int
               sample_build_get_url sample_fromstring sample_openURL
               (Some "http://other.example/status?id=7") (Some "started") 60%N
               (sample_execution, sample_world) in
  out.2 = Ok tt /\
  status out.1.1 = Some "ProcessStarted" /\
  statusLocation out.1.1 = Some "http://wps.example/status?id=42" /\
  out.1.2 = mkWorld [] ∅ [60%N].
Proof. vm_compute. repeat split. Qed.

(** A poll of the status location: one GET, and no sleep once the job has
    succeeded. *)
Example checkStatus_poll_succeeded :
  let out := checkStatus OWS_1_1 sample_parseText sample_getTypedValue sample_int
               sample_build_get_url sample_fromstring sample_openURL
               (Some "http://wps.example/status?id=42") None 60%N
               (sample_execution, sample_world) in
  out.2 = Ok tt /\
  status out.1.1 = Some "ProcessSucceeded" /\
  processOutputs out.1.1 = [sample_output "a" url_a] /\
  out.1.2 = mkWorld [mkRequest (Some "http://wps.example/status") (Body "id=42")
                       "Get" None None] ∅ [].
Proof. vm_compute. repeat split. Qed.

(** An exception report on a new execution. *)
Example _parseExceptionReport_sample :
  _parseExceptionReport OWS_1_1
    (Elem (qualify OWS_1_1 "ExceptionReport") ∅ None
       [Elem (qualify OWS_1_1 "Exception")
          (list_to_map [("exceptionCode", "NoApplicableCode"); ("locator", "here")])
          None [Elem (qualify OWS_1_1 "ExceptionText") ∅ (Some "first") []];
        Elem (qualify OWS_1_1 "Exception") {[ "exceptionCode" := "InvalidParameterValue" ]}
          None []])
    sample_execution
  = (set_errors [mkWPSException (Some "NoApplicableCode") (Some "here") (Some "first");
                 mkWPSException (Some "InvalidParameterValue") None (Some "")]
       (set_status (Some "Exception") sample_execution), Ok tt).
Proof. vm_compute. reflexivity. Qed.

(** The round trip of the two inputs A and B. *)
Example buildRequest_roundtrip_sample :
  exists doc,
    buildRequest OWS_1_1 XLINK XSI "EchoProcess"
      [("A", Literal "x"); ("B", Literal "y")] None = Ok doc /\
    readRequest OWS_1_1 doc =
      (Some "EchoProcess", [(Some "A", Some "x"); (Some "B", Some "y")]).
Proof. eexists. split; vm_compute; reflexivity. Qed.

(** * Further examples on the sample service *)

(** The root of an ExecuteResponse goes to [_parseExecuteResponse]. *)
Lemma parseResponse_dispatch_sample :
  let doc := sample_response sample_succeeded [] in
  tag doc = qualify WPS_NAMESPACE "ExecuteResponse" /\
  contains "}" WPS_NAMESPACE = false /\ contains "}" "ExecuteResponse" = false /\
  parseResponse OWS_1_1 sample_parseText sample_getTypedValue sample_int doc
    sample_execution
  = _parseExecuteResponse OWS_1_1 sample_parseText sample_getTypedValue sample_int doc
      sample_execution.
Proof.
  cbv zeta. split; [reflexivity|]. split; [reflexivity|]. split; [reflexivity|].
  exact (parseResponse_dispatch OWS_1_1 sample_parseText sample_getTypedValue sample_int
           WPS_NAMESPACE "ExecuteResponse" (sample_response sample_succeeded [])
           sample_execution eq_refl eq_refl eq_refl).
Defined.

(** A started job whose response has no [Process] element. *)
Lemma _parseExecuteResponse_no_process_sample :
  find (nspath "Process" WPS_NAMESPACE) sample_started_without_process = None /\
  _parseExecuteResponse OWS_1_1 sample_parseText sample_getTypedValue sample_int
    sample_started_without_process sample_execution
  = (set_status (Some "ProcessStarted") sample_execution, Raise AttributeError).
Proof.
  split; [reflexivity|].
  exact (_parseExecuteResponse_no_process OWS_1_1 sample_parseText sample_getTypedValue
           sample_int sample_started_without_process
           (Elem (qualify WPS_NAMESPACE "ProcessStarted") ∅ None []) "ProcessStarted"
           sample_execution eq_refl eq_refl eq_refl).
Defined.

(** A succeeded job. *)
Lemma _parseExecuteResponse_result_sample :
  exists self',
    _parseExecuteResponse OWS_1_1 sample_parseText sample_getTypedValue sample_int
      (sample_response sample_succeeded [sample_output_element "a" url_a])
      sample_execution = (self', Ok tt) /\
    exists st, status self' = Some st /\ errors self' = [].
Proof.
  assert (H : exists self',
            _parseExecuteResponse OWS_1_1 sample_parseText sample_getTypedValue
              sample_int
              (sample_response sample_succeeded [sample_output_element "a" url_a])
              sample_execution = (self', Ok tt))
    by (eexists; vm_compute; reflexivity).
  destruct H as (self' & H). exists self'. split; [exact H|].
  destruct (_parseExecuteResponse_result OWS_1_1 sample_parseText sample_getTypedValue
              sample_int _ _ _ H)
    as (statusEl & st & p & Hfind & _ & _ & Hst & _ & Herr).
  exists st. split; [exact Hst|]. rewrite Herr.
  vm_compute in Hfind. injection Hfind as <-. reflexivity.
Defined.

(** An input with a literal type, allowed values and occurrence bounds. *)
Lemma Input_init_kinds_sample :
  exists i,
    Input_init OWS_1_1 sample_parseText sample_getTypedValue sample_int
      sample_input_element = Ok i /\
    supportedValues (in_io i) = [].
Proof.
  assert (H : exists i,
            Input_init OWS_1_1 sample_parseText sample_getTypedValue sample_int
              sample_input_element = Ok i)
    by (eexists; vm_compute; reflexivity).
  destruct H as (i & H). exists i. split; [exact H|].
  destruct (Input_init_kinds OWS_1_1 sample_parseText sample_getTypedValue sample_int
              _ _ H) as (_ & Hsup & _).
  apply Hsup. reflexivity.
Defined.

Lemma Input_init_occurs_sample :
  exists i,
    Input_init OWS_1_1 sample_parseText sample_getTypedValue sample_int
      sample_input_element = Ok i /\
    sample_int "1" = Ok (minOccurs i) /\ sample_int "3" = Ok (maxOccurs i).
Proof.
  assert (H : exists i,
            Input_init OWS_1_1 sample_parseText sample_getTypedValue sample_int
              sample_input_element = Ok i)
    by (eexists; vm_compute; reflexivity).
  destruct H as (i & H). exists i. split; [exact H|].
  exact (Input_init_occurs OWS_1_1 sample_parseText sample_getTypedValue sample_int
           _ _ H).
Defined.

(** A [LiteralData] element without a [DataType]. *)
Lemma _parseLiteralData_untyped_raises :
  find (plain "LiteralData") sample_untyped_input_element
    = Some (Elem "LiteralData" ∅ None []) /\
  _parseLiteralData OWS_1_1 sample_getTypedValue
    (mkInputOutput None None None [] [] None None) sample_untyped_input_element
    "LiteralData" = Raise AttributeError.
Proof.
  split; [reflexivity|].
  apply (proj1 (_parseLiteralData_malformed OWS_1_1 sample_getTypedValue
                  (mkInputOutput None None None [] [] None None)
                  sample_untyped_input_element "LiteralData"
                  (Elem "LiteralData" ∅ None []) eq_refl)).
  reflexivity.
Defined.

(** An output with a reference and inline data: the MIME type is that of
    the data. *)
Lemma Output_init_inline_sample :
  exists o,
    Output_init OWS_1_1 sample_parseText sample_getTypedValue
      sample_inline_output_element = Ok o /\
    reference o = Some url_a /\
    data o = Some "1 2 3" /\ mimeType o = Some "text/plain" /\
    dataType (out_io o) = Some "ComplexData".
Proof.
  assert (H : exists o,
            Output_init OWS_1_1 sample_parseText sample_getTypedValue
              sample_inline_output_element = Ok o)
    by (eexists; vm_compute; reflexivity).
  destruct H as (o & H). exists o. split; [exact H|].
  exact (Output_init_result OWS_1_1 sample_parseText sample_getTypedValue _ _ H).
Defined.

(** A first poll answered with an XHTML page. *)
Lemma checkStatus_xhtml_raises :
  let page := Elem "{http://www.w3.org/1999/xhtml}html" ∅ None [] in
  status sample_execution = None /\
  checkStatus OWS_1_1 sample_parseText sample_getTypedValue sample_int
    sample_build_get_url (fun _ => Ok page) sample_openURL None (Some "page") 60%N
    (sample_execution, sample_world)
  = ((sample_execution, sample_world),
     Raise (PyException "Unknown process execution status: None")).
Proof.
  cbv zeta. split; [reflexivity|].
  apply (checkStatus_unknown_document OWS_1_1 sample_parseText sample_getTypedValue
           sample_int sample_build_get_url
           (fun _ => Ok (Elem "{http://www.w3.org/1999/xhtml}html" ∅ None []))
           sample_openURL None "page" 60%N
           (Elem "{http://www.w3.org/1999/xhtml}html" ∅ None [])
           "{http://www.w3.org/1999/xhtml" "html" []);
    [reflexivity | reflexivity | discriminate | discriminate | reflexivity].
Defined.

(** Two referenced outputs written to the file asked for. *)
Lemma getOutput_explicit_filepath_sample :
  status sample_finished = Some "ProcessSucceeded" /\
  files (getOutput sample_openURL sample_writable (Some "out.csv")
           (sample_finished, sample_world)).1.2
    = {[ "out.csv" := "content of http://wps.example/files/second.csv" ]}.
Proof.
  assert (H : status sample_finished = Some "ProcessSucceeded") by reflexivity.
  split; [exact H|].
  destruct (getOutput_explicit_filepath sample_openURL sample_writable sample_finished
              sample_world "out.csv" H) as (_ & _ & _ & Hok).
  destruct (Hok ltac:(vm_compute; reflexivity)) as (_ & Hlast).
  destruct (Hlast [url_a] url_b eq_refl) as (content & Hopen & Hfiles).
  rewrite Hfiles. injection Hopen as <-. reflexivity.
Defined.

(** A succeeded job without outputs. *)
Lemma getOutput_without_references_sample :
  let self := set_status (Some "ProcessSucceeded") sample_execution in
  references (processOutputs self) = [] /\
  getOutput sample_openURL sample_writable None (self, sample_world)
    = ((self, sample_world), Ok tt).
Proof.
  cbv zeta. split; [reflexivity|].
  apply (getOutput_without_references sample_openURL sample_writable); reflexivity.
Defined.

(** A reference whose query string is a bare word. *)
Lemma getOutput_query_without_value_sample :
  let self := set_processOutputs [sample_output "a" url_without_value]
                (set_status (Some "ProcessSucceeded") sample_execution) in
  getOutput sample_openURL sample_writable None (self, sample_world)
    = ((self, mkWorld [mkRequest (Some "http://wps.example/result") (Body "first")
                         "Get" None None] ∅ []),
       Raise IndexError).
Proof.
  cbv zeta.
  exact (getOutput_query_without_value sample_openURL sample_writable
           (set_processOutputs [sample_output "a" url_without_value]
              (set_status (Some "ProcessSucceeded") sample_execution))
           sample_world "http://wps.example/result" "first" []
           eq_refl eq_refl eq_refl eq_refl eq_refl).
Defined.

(** A literal input and a WFS feature collection. *)
Lemma buildRequest_input_names_sample :
  exists doc,
    buildRequest OWS_1_1 XLINK XSI "EchoProcess"
      [("A", Literal "x");
       ("FEATURES", Complex (WFSFeatureCollection_getXml OWS_1_1 XLINK XSI
                               sample_collection))] None = Ok doc /\
    map (fun el => find (nspath "Identifier" OWS_1_1) el ≫= text)
      (findall (nspath "DataInputs/Input" WPS_NAMESPACE) doc)
    = [Some "A"; Some "FEATURES"].
Proof.
  assert (H : exists doc,
            buildRequest OWS_1_1 XLINK XSI "EchoProcess"
              [("A", Literal "x");
               ("FEATURES", Complex (WFSFeatureCollection_getXml OWS_1_1 XLINK XSI
                                       sample_collection))] None = Ok doc)
    by (eexists; vm_compute; reflexivity).
  destruct H as (doc & H). exists doc. split; [exact H|].
  exact (proj1 (proj2 (buildRequest_input_names OWS_1_1 XLINK XSI _ _ _ _ H))).
Defined.

(** The capabilities of the sample service, read into a new service
    object. *)
Lemma _parseCapabilitiesMetadata_sample :
  let self := WebProcessingService_init Element "http://wps.example/wps"
                WPS_DEFAULT_VERSION None None false in
  exists self',
    _parseCapabilitiesMetadata OWS_1_1 sample_parseText sample_getTypedValue
      sample_int Element sample_metadata sample_metadata Ok
      (sample_capabilities [sample_operations]) self = (self', Ok tt) /\
    identification Element self' = Some sample_identification /\
    length (operations Element self') = 2%nat /\
    length (processes Element self') = 1%nat.
Proof.
  cbv zeta.
  assert (H : exists self',
            _parseCapabilitiesMetadata OWS_1_1 sample_parseText sample_getTypedValue
              sample_int Element sample_metadata sample_metadata Ok
              (sample_capabilities [sample_operations])
              (WebProcessingService_init Element "http://wps.example/wps"
                 WPS_DEFAULT_VERSION None None false) = (self', Ok tt))
    by (eexists; vm_compute; reflexivity).
  destruct H as (self' & H). exists self'. split; [exact H|].
  destruct (_parseCapabilitiesMetadata_result OWS_1_1 sample_parseText
              sample_getTypedValue sample_int Element sample_metadata sample_metadata
              Ok _ _ _ H)
    as (i & p & oe & pe & ops & ps & Hi & _ & Hoe & Hpe & Hops & Hps & Hid & _
        & Hoperations & Hprocesses).
  rewrite Hid, Hoperations, Hprocesses.
  vm_compute in Hi. injection Hi as <-.
  vm_compute in Hoe. injection Hoe as <-.
  vm_compute in Hpe. injection Hpe as <-.
  vm_compute in Hops. injection Hops as <-.
  vm_compute in Hps. injection Hps as <-.
  repeat split.
Defined.

(** Capabilities without operations metadata. *)
Lemma _parseCapabilitiesMetadata_no_operations_sample :
  let self := WebProcessingService_init Element "http://wps.example/wps"
                WPS_DEFAULT_VERSION None None false in
  _parseCapabilitiesMetadata OWS_1_1 sample_parseText sample_getTypedValue
    sample_int Element sample_metadata sample_metadata Ok
    (sample_capabilities []) self
  = (set_provider Element (Some sample_provider)
       (set_identification Element (Some sample_identification) self),
     Raise (Foreign "TypeError")).
Proof.
  cbv zeta.
  exact (_parseCapabilitiesMetadata_no_operations OWS_1_1 sample_parseText
           sample_getTypedValue sample_int Element sample_metadata sample_metadata Ok
           (sample_capabilities []) _ sample_identification sample_provider
           eq_refl eq_refl eq_refl).
Defined.

(** An input that is a bare [FeatureCollection] stops the build. *)
Example buildRequest_base_collection :
  buildRequest OWS_1_1 XLINK XSI "EchoProcess"
    [("A", Literal "x"); ("FEATURES", Complex FeatureCollection_getXml);
     ("B", Complex (Raise AttributeError))] None
  = Raise (Foreign "NotImplementedError").
Proof. vm_compute. reflexivity. Qed.

(** [execute] replayed from a stored response. *)
Example execute_replayed :
  let service := WebProcessingService_init Element "http://wps.example/wps"
                   WPS_DEFAULT_VERSION (Some "user") (Some "secret") false in
  let out := execute OWS_1_1 sample_parseText sample_getTypedValue sample_int
               XLINK XSI sample_build_get_url sample_fromstring sample_openURL
               Element (fun _ => Ok "<Execute/>") service "EchoProcess"
               [("message", Literal "hello")] None None (Some "started")
               sample_world in
  out.1 = sample_world /\
  exists execution, out.2 = Ok execution /\
    status execution = Some "ProcessStarted" /\
    username execution = Some "user" /\
    statusLocation execution = Some "http://wps.example/status?id=42".
Proof. cbv zeta. split; [vm_compute; reflexivity|]. eexists. vm_compute. repeat split. Qed.

(** A process described twice is listed once. *)
Example describeprocess_twice :
  let describe := fun s =>
    describeprocess OWS_1_1 sample_parseText sample_getTypedValue sample_int
      sample_build_get_url
      (fun _ => Ok (Elem "ProcessDescriptions" ∅ None
                      [Elem "ProcessDescription" {[ "statusSupported" := "false" ]} None
                         [Elem (qualify OWS_1_1 "Identifier") ∅ (Some "EchoProcess") []]]))
      sample_openURL Element "EchoProcess" (Some "stored") s in
  let service := WebProcessingService_init Element "http://wps.example/wps"
                   WPS_DEFAULT_VERSION None None false in
  let once := describe (service, sample_world) in
  let twice := describe once.1 in
  length (processes Element once.1.1) = 1%nat /\
  length (processes Element twice.1.1) = 1%nat /\
  (statusSupported <$> head (processes Element twice.1.1)) = Some true /\
  twice.1.2 = sample_world.
Proof. vm_compute. repeat split. Qed.

(** The XML of the sample WFS query. *)
Example WFSQuery_getXml_sample :
  WFSQuery_getXml OWS_1_1 XLINK XSI (wfs_query sample_collection)
  = Ok (Elem (qualify WFS_NAMESPACE "Query")
          {[ "typeName" := "sample:CONUS_States" ]} None
          [Elem (qualify WFS_NAMESPACE "PropertyName") ∅ (Some "the_geom") [];
           Elem (qualify WFS_NAMESPACE "PropertyName") ∅ (Some "STATE") [];
           Elem (qualify OGC_NAMESPACE "Filter") ∅ None
             [Elem (qualify OGC_NAMESPACE "GmlObjectId")
                {[ qualify GML_NAMESPACE "id" := "CONUS_States.508" ]} None []]]).
Proof. vm_compute. reflexivity. Qed.
